(** * Idle Ant Farm: the simulation core, embedded and verified

    The stores of the game ([gameStore.ts], [prestigeStore.ts] and the
    achievement store) are embedded as records and functions over them.

    Numbers.  A JavaScript [number] is an IEEE-754 double.  The modules
    [GameStore], [PrestigeStore] and [AchievementStore] idealise it as an
    exact number: [Q] where the code multiplies by 1.2, 1.1 or divides by
    60, and [Z] for the prestige currency, the shop costs of the prestige
    store and the prestige counter, which the code only ever adds,
    subtracts and floors.  What is proved there holds of the code as far
    as its doubles are exact: for whole numbers below 2^53, and for
    statements that no rounding step can change.  Where rounding decides
    (the thresholds of the prestige points, the grants of the offline
    progress, the caps of the pools, the loop of [buyMaxUpgrade] on large
    balances) the same actions are embedded a second time in [Binary64],
    on the doubles themselves, with [Math.floor], [Math.min] and
    [Math.max] in [Double].  [undefined] and [null] are the [None] of an
    [option]. *)

From Stdlib Require Import ZArith QArith Qround Qminmax Qpower.
From Stdlib Require Import List String Bool Lia Lqa.
From Stdlib Require Floats Uint63.
Import ListNotations.

Set Warnings "-inexact-float".

(** ** JavaScript helpers *)

Module JS.

(** [a ?? b]: the left operand unless it is [undefined] or [null]. *)
Definition nullish {A : Type} (a : option A) (b : A) : A :=
  match a with
  | Some v => v
  | None => b
  end.

(** [Math.floor], with the result read back as a number. *)
Definition Math_floor (x : Q) : Q := inject_Z (Qfloor x).

(** [Math.min] on two numbers. *)
Definition Math_min (x y : Q) : Q := Qmin x y.

(** [x < y], [x <= y], [x >= y], [x > y] on numbers. *)
Definition lt (x y : Q) : bool := negb (Qle_bool y x).
Definition le (x y : Q) : bool := Qle_bool x y.
Definition ge (x y : Q) : bool := Qle_bool y x.
Definition gt (x y : Q) : bool := negb (Qle_bool x y).


End JS.

Notation "a ?? b" := (JS.nullish a b) (at level 45, left associativity).

(** ** gameStore.ts *)

Module GameStore.

Local Open Scope Q_scope.
Local Open Scope string_scope.
Local Open Scope list_scope.

(** An entry of [prestigeShop] (the display texts are left out).  The cost
    is optional because [loadGameState] can store [undefined] in it. *)
Record ShopItem := {
  id : string;
  cost : option Q;
}.

Record State := {
  loaded : bool;
  larvae : Q;
  ants : Q;
  seeds : Q;
  queens : Q;
  lastSavedTime : Q;
  (* Resource caps *)
  maxSeeds : Q;
  maxLarvae : Q;
  (* Initial resource caps *)
  initialMaxSeeds : Q;
  initialMaxLarvae : Q;
  (* Upgrade variables *)
  seedStorageUpgradeCost : Q;
  larvaeStorageUpgradeCost : Q;
  (* Balancing factors *)
  storageUpgradeFactor : Q;
  upgradeCostFactor : Q;
  (* Production rates and costs *)
  larvaeProductionRate : Q;
  collectionRatePerAnt : Q;
  seedCostPerLarva : Q;
  seedCostPerAnt : Q;
  larvaCostPerAnt : Q;
  antCostPerQueen : Q;
  seedCostPerQueen : Q;
  prestigePoints : Q;
  purchasedUpgrades : list string;
  prestigeShop : list ShopItem;
  autoLarvaeCreation : bool;
  (* Adventure-related variables *)
  attackPerAnt : Q;
  healthPerAnt : Q;
  defensePerAnt : Q;
}.

(** The state the store is created with; [now] is the [Date.now()] of its
    creation. *)
Definition initialState (now : Q) : State := {|
  loaded := false;
  larvae := 0;
  ants := 0;
  seeds := 10;
  queens := 1;
  lastSavedTime := now;
  maxSeeds := 1000;
  maxLarvae := 10;
  initialMaxSeeds := 1000;
  initialMaxLarvae := 10;
  seedStorageUpgradeCost := 500;
  larvaeStorageUpgradeCost := 100;
  storageUpgradeFactor := 1.2;
  upgradeCostFactor := 1.3;
  larvaeProductionRate := 1;
  collectionRatePerAnt := 60;
  seedCostPerLarva := 100;
  seedCostPerAnt := 50;
  larvaCostPerAnt := 1;
  antCostPerQueen := 100;
  seedCostPerQueen := 250;
  prestigePoints := 0;
  purchasedUpgrades := [];
  prestigeShop :=
    [ {| id := "storageUpgrade"; cost := Some 10 |};
      {| id := "productionBoost"; cost := Some 15 |};
      {| id := "queenEfficiency"; cost := Some 20 |};
      {| id := "betterAnts"; cost := Some 100 |} ];
  autoLarvaeCreation := false;
  attackPerAnt := 2;
  healthPerAnt := 10;
  defensePerAnt := 1;
|}.

(** Assignments to one field, [this.f = v]. *)

Definition set_loaded (v : bool) (s : State) : State :=
  {| loaded := v; larvae := larvae s; ants := ants s; seeds := seeds s;
     queens := queens s; lastSavedTime := lastSavedTime s;
     maxSeeds := maxSeeds s; maxLarvae := maxLarvae s;
     initialMaxSeeds := initialMaxSeeds s;
     initialMaxLarvae := initialMaxLarvae s;
     seedStorageUpgradeCost := seedStorageUpgradeCost s;
     larvaeStorageUpgradeCost := larvaeStorageUpgradeCost s;
     storageUpgradeFactor := storageUpgradeFactor s;
     upgradeCostFactor := upgradeCostFactor s;
     larvaeProductionRate := larvaeProductionRate s;
     collectionRatePerAnt := collectionRatePerAnt s;
     seedCostPerLarva := seedCostPerLarva s;
     seedCostPerAnt := seedCostPerAnt s; larvaCostPerAnt := larvaCostPerAnt s;
     antCostPerQueen := antCostPerQueen s;
     seedCostPerQueen := seedCostPerQueen s;
     prestigePoints := prestigePoints s;
     purchasedUpgrades := purchasedUpgrades s; prestigeShop := prestigeShop s;
     autoLarvaeCreation := autoLarvaeCreation s;
     attackPerAnt := attackPerAnt s; healthPerAnt := healthPerAnt s;
     defensePerAnt := defensePerAnt s |}.

Definition set_larvae (v : Q) (s : State) : State :=
  {| loaded := loaded s; larvae := v; ants := ants s; seeds := seeds s;
     queens := queens s; lastSavedTime := lastSavedTime s;
     maxSeeds := maxSeeds s; maxLarvae := maxLarvae s;
     initialMaxSeeds := initialMaxSeeds s;
     initialMaxLarvae := initialMaxLarvae s;
     seedStorageUpgradeCost := seedStorageUpgradeCost s;
     larvaeStorageUpgradeCost := larvaeStorageUpgradeCost s;
     storageUpgradeFactor := storageUpgradeFactor s;
     upgradeCostFactor := upgradeCostFactor s;
     larvaeProductionRate := larvaeProductionRate s;
     collectionRatePerAnt := collectionRatePerAnt s;
     seedCostPerLarva := seedCostPerLarva s;
     seedCostPerAnt := seedCostPerAnt s; larvaCostPerAnt := larvaCostPerAnt s;
     antCostPerQueen := antCostPerQueen s;
     seedCostPerQueen := seedCostPerQueen s;
     prestigePoints := prestigePoints s;
     purchasedUpgrades := purchasedUpgrades s; prestigeShop := prestigeShop s;
     autoLarvaeCreation := autoLarvaeCreation s;
     attackPerAnt := attackPerAnt s; healthPerAnt := healthPerAnt s;
     defensePerAnt := defensePerAnt s |}.

Definition set_ants (v : Q) (s : State) : State :=
  {| loaded := loaded s; larvae := larvae s; ants := v; seeds := seeds s;
     queens := queens s; lastSavedTime := lastSavedTime s;
     maxSeeds := maxSeeds s; maxLarvae := maxLarvae s;
     initialMaxSeeds := initialMaxSeeds s;
     initialMaxLarvae := initialMaxLarvae s;
     seedStorageUpgradeCost := seedStorageUpgradeCost s;
     larvaeStorageUpgradeCost := larvaeStorageUpgradeCost s;
     storageUpgradeFactor := storageUpgradeFactor s;
     upgradeCostFactor := upgradeCostFactor s;
     larvaeProductionRate := larvaeProductionRate s;
     collectionRatePerAnt := collectionRatePerAnt s;
     seedCostPerLarva := seedCostPerLarva s;
     seedCostPerAnt := seedCostPerAnt s; larvaCostPerAnt := larvaCostPerAnt s;
     antCostPerQueen := antCostPerQueen s;
     seedCostPerQueen := seedCostPerQueen s;
     prestigePoints := prestigePoints s;
     purchasedUpgrades := purchasedUpgrades s; prestigeShop := prestigeShop s;
     autoLarvaeCreation := autoLarvaeCreation s;
     attackPerAnt := attackPerAnt s; healthPerAnt := healthPerAnt s;
     defensePerAnt := defensePerAnt s |}.

Definition set_seeds (v : Q) (s : State) : State :=
  {| loaded := loaded s; larvae := larvae s; ants := ants s; seeds := v;
     queens := queens s; lastSavedTime := lastSavedTime s;
     maxSeeds := maxSeeds s; maxLarvae := maxLarvae s;
     initialMaxSeeds := initialMaxSeeds s;
     initialMaxLarvae := initialMaxLarvae s;
     seedStorageUpgradeCost := seedStorageUpgradeCost s;
     larvaeStorageUpgradeCost := larvaeStorageUpgradeCost s;
     storageUpgradeFactor := storageUpgradeFactor s;
     upgradeCostFactor := upgradeCostFactor s;
     larvaeProductionRate := larvaeProductionRate s;
     collectionRatePerAnt := collectionRatePerAnt s;
     seedCostPerLarva := seedCostPerLarva s;
     seedCostPerAnt := seedCostPerAnt s; larvaCostPerAnt := larvaCostPerAnt s;
     antCostPerQueen := antCostPerQueen s;
     seedCostPerQueen := seedCostPerQueen s;
     prestigePoints := prestigePoints s;
     purchasedUpgrades := purchasedUpgrades s; prestigeShop := prestigeShop s;
     autoLarvaeCreation := autoLarvaeCreation s;
     attackPerAnt := attackPerAnt s; healthPerAnt := healthPerAnt s;
     defensePerAnt := defensePerAnt s |}.

Definition set_queens (v : Q) (s : State) : State :=
  {| loaded := loaded s; larvae := larvae s; ants := ants s; seeds := seeds s;
     queens := v; lastSavedTime := lastSavedTime s; maxSeeds := maxSeeds s;
     maxLarvae := maxLarvae s; initialMaxSeeds := initialMaxSeeds s;
     initialMaxLarvae := initialMaxLarvae s;
     seedStorageUpgradeCost := seedStorageUpgradeCost s;
     larvaeStorageUpgradeCost := larvaeStorageUpgradeCost s;
     storageUpgradeFactor := storageUpgradeFactor s;
     upgradeCostFactor := upgradeCostFactor s;
     larvaeProductionRate := larvaeProductionRate s;
     collectionRatePerAnt := collectionRatePerAnt s;
     seedCostPerLarva := seedCostPerLarva s;
     seedCostPerAnt := seedCostPerAnt s; larvaCostPerAnt := larvaCostPerAnt s;
     antCostPerQueen := antCostPerQueen s;
     seedCostPerQueen := seedCostPerQueen s;
     prestigePoints := prestigePoints s;
     purchasedUpgrades := purchasedUpgrades s; prestigeShop := prestigeShop s;
     autoLarvaeCreation := autoLarvaeCreation s;
     attackPerAnt := attackPerAnt s; healthPerAnt := healthPerAnt s;
     defensePerAnt := defensePerAnt s |}.

Definition set_lastSavedTime (v : Q) (s : State) : State :=
  {| loaded := loaded s; larvae := larvae s; ants := ants s; seeds := seeds s;
     queens := queens s; lastSavedTime := v; maxSeeds := maxSeeds s;
     maxLarvae := maxLarvae s; initialMaxSeeds := initialMaxSeeds s;
     initialMaxLarvae := initialMaxLarvae s;
     seedStorageUpgradeCost := seedStorageUpgradeCost s;
     larvaeStorageUpgradeCost := larvaeStorageUpgradeCost s;
     storageUpgradeFactor := storageUpgradeFactor s;
     upgradeCostFactor := upgradeCostFactor s;
     larvaeProductionRate := larvaeProductionRate s;
     collectionRatePerAnt := collectionRatePerAnt s;
     seedCostPerLarva := seedCostPerLarva s;
     seedCostPerAnt := seedCostPerAnt s; larvaCostPerAnt := larvaCostPerAnt s;
     antCostPerQueen := antCostPerQueen s;
     seedCostPerQueen := seedCostPerQueen s;
     prestigePoints := prestigePoints s;
     purchasedUpgrades := purchasedUpgrades s; prestigeShop := prestigeShop s;
     autoLarvaeCreation := autoLarvaeCreation s;
     attackPerAnt := attackPerAnt s; healthPerAnt := healthPerAnt s;
     defensePerAnt := defensePerAnt s |}.

Definition set_maxSeeds (v : Q) (s : State) : State :=
  {| loaded := loaded s; larvae := larvae s; ants := ants s; seeds := seeds s;
     queens := queens s; lastSavedTime := lastSavedTime s; maxSeeds := v;
     maxLarvae := maxLarvae s; initialMaxSeeds := initialMaxSeeds s;
     initialMaxLarvae := initialMaxLarvae s;
     seedStorageUpgradeCost := seedStorageUpgradeCost s;
     larvaeStorageUpgradeCost := larvaeStorageUpgradeCost s;
     storageUpgradeFactor := storageUpgradeFactor s;
     upgradeCostFactor := upgradeCostFactor s;
     larvaeProductionRate := larvaeProductionRate s;
     collectionRatePerAnt := collectionRatePerAnt s;
     seedCostPerLarva := seedCostPerLarva s;
     seedCostPerAnt := seedCostPerAnt s; larvaCostPerAnt := larvaCostPerAnt s;
     antCostPerQueen := antCostPerQueen s;
     seedCostPerQueen := seedCostPerQueen s;
     prestigePoints := prestigePoints s;
     purchasedUpgrades := purchasedUpgrades s; prestigeShop := prestigeShop s;
     autoLarvaeCreation := autoLarvaeCreation s;
     attackPerAnt := attackPerAnt s; healthPerAnt := healthPerAnt s;
     defensePerAnt := defensePerAnt s |}.

Definition set_maxLarvae (v : Q) (s : State) : State :=
  {| loaded := loaded s; larvae := larvae s; ants := ants s; seeds := seeds s;
     queens := queens s; lastSavedTime := lastSavedTime s;
     maxSeeds := maxSeeds s; maxLarvae := v;
     initialMaxSeeds := initialMaxSeeds s;
     initialMaxLarvae := initialMaxLarvae s;
     seedStorageUpgradeCost := seedStorageUpgradeCost s;
     larvaeStorageUpgradeCost := larvaeStorageUpgradeCost s;
     storageUpgradeFactor := storageUpgradeFactor s;
     upgradeCostFactor := upgradeCostFactor s;
     larvaeProductionRate := larvaeProductionRate s;
     collectionRatePerAnt := collectionRatePerAnt s;
     seedCostPerLarva := seedCostPerLarva s;
     seedCostPerAnt := seedCostPerAnt s; larvaCostPerAnt := larvaCostPerAnt s;
     antCostPerQueen := antCostPerQueen s;
     seedCostPerQueen := seedCostPerQueen s;
     prestigePoints := prestigePoints s;
     purchasedUpgrades := purchasedUpgrades s; prestigeShop := prestigeShop s;
     autoLarvaeCreation := autoLarvaeCreation s;
     attackPerAnt := attackPerAnt s; healthPerAnt := healthPerAnt s;
     defensePerAnt := defensePerAnt s |}.

Definition set_seedStorageUpgradeCost (v : Q) (s : State) : State :=
  {| loaded := loaded s; larvae := larvae s; ants := ants s; seeds := seeds s;
     queens := queens s; lastSavedTime := lastSavedTime s;
     maxSeeds := maxSeeds s; maxLarvae := maxLarvae s;
     initialMaxSeeds := initialMaxSeeds s;
     initialMaxLarvae := initialMaxLarvae s; seedStorageUpgradeCost := v;
     larvaeStorageUpgradeCost := larvaeStorageUpgradeCost s;
     storageUpgradeFactor := storageUpgradeFactor s;
     upgradeCostFactor := upgradeCostFactor s;
     larvaeProductionRate := larvaeProductionRate s;
     collectionRatePerAnt := collectionRatePerAnt s;
     seedCostPerLarva := seedCostPerLarva s;
     seedCostPerAnt := seedCostPerAnt s; larvaCostPerAnt := larvaCostPerAnt s;
     antCostPerQueen := antCostPerQueen s;
     seedCostPerQueen := seedCostPerQueen s;
     prestigePoints := prestigePoints s;
     purchasedUpgrades := purchasedUpgrades s; prestigeShop := prestigeShop s;
     autoLarvaeCreation := autoLarvaeCreation s;
     attackPerAnt := attackPerAnt s; healthPerAnt := healthPerAnt s;
     defensePerAnt := defensePerAnt s |}.

Definition set_larvaeStorageUpgradeCost (v : Q) (s : State) : State :=
  {| loaded := loaded s; larvae := larvae s; ants := ants s; seeds := seeds s;
     queens := queens s; lastSavedTime := lastSavedTime s;
     maxSeeds := maxSeeds s; maxLarvae := maxLarvae s;
     initialMaxSeeds := initialMaxSeeds s;
     initialMaxLarvae := initialMaxLarvae s;
     seedStorageUpgradeCost := seedStorageUpgradeCost s;
     larvaeStorageUpgradeCost := v;
     storageUpgradeFactor := storageUpgradeFactor s;
     upgradeCostFactor := upgradeCostFactor s;
     larvaeProductionRate := larvaeProductionRate s;
     collectionRatePerAnt := collectionRatePerAnt s;
     seedCostPerLarva := seedCostPerLarva s;
     seedCostPerAnt := seedCostPerAnt s; larvaCostPerAnt := larvaCostPerAnt s;
     antCostPerQueen := antCostPerQueen s;
     seedCostPerQueen := seedCostPerQueen s;
     prestigePoints := prestigePoints s;
     purchasedUpgrades := purchasedUpgrades s; prestigeShop := prestigeShop s;
     autoLarvaeCreation := autoLarvaeCreation s;
     attackPerAnt := attackPerAnt s; healthPerAnt := healthPerAnt s;
     defensePerAnt := defensePerAnt s |}.

Definition set_larvaeProductionRate (v : Q) (s : State) : State :=
  {| loaded := loaded s; larvae := larvae s; ants := ants s; seeds := seeds s;
     queens := queens s; lastSavedTime := lastSavedTime s;
     maxSeeds := maxSeeds s; maxLarvae := maxLarvae s;
     initialMaxSeeds := initialMaxSeeds s;
     initialMaxLarvae := initialMaxLarvae s;
     seedStorageUpgradeCost := seedStorageUpgradeCost s;
     larvaeStorageUpgradeCost := larvaeStorageUpgradeCost s;
     storageUpgradeFactor := storageUpgradeFactor s;
     upgradeCostFactor := upgradeCostFactor s; larvaeProductionRate := v;
     collectionRatePerAnt := collectionRatePerAnt s;
     seedCostPerLarva := seedCostPerLarva s;
     seedCostPerAnt := seedCostPerAnt s; larvaCostPerAnt := larvaCostPerAnt s;
     antCostPerQueen := antCostPerQueen s;
     seedCostPerQueen := seedCostPerQueen s;
     prestigePoints := prestigePoints s;
     purchasedUpgrades := purchasedUpgrades s; prestigeShop := prestigeShop s;
     autoLarvaeCreation := autoLarvaeCreation s;
     attackPerAnt := attackPerAnt s; healthPerAnt := healthPerAnt s;
     defensePerAnt := defensePerAnt s |}.

Definition set_collectionRatePerAnt (v : Q) (s : State) : State :=
  {| loaded := loaded s; larvae := larvae s; ants := ants s; seeds := seeds s;
     queens := queens s; lastSavedTime := lastSavedTime s;
     maxSeeds := maxSeeds s; maxLarvae := maxLarvae s;
     initialMaxSeeds := initialMaxSeeds s;
     initialMaxLarvae := initialMaxLarvae s;
     seedStorageUpgradeCost := seedStorageUpgradeCost s;
     larvaeStorageUpgradeCost := larvaeStorageUpgradeCost s;
     storageUpgradeFactor := storageUpgradeFactor s;
     upgradeCostFactor := upgradeCostFactor s;
     larvaeProductionRate := larvaeProductionRate s;
     collectionRatePerAnt := v; seedCostPerLarva := seedCostPerLarva s;
     seedCostPerAnt := seedCostPerAnt s; larvaCostPerAnt := larvaCostPerAnt s;
     antCostPerQueen := antCostPerQueen s;
     seedCostPerQueen := seedCostPerQueen s;
     prestigePoints := prestigePoints s;
     purchasedUpgrades := purchasedUpgrades s; prestigeShop := prestigeShop s;
     autoLarvaeCreation := autoLarvaeCreation s;
     attackPerAnt := attackPerAnt s; healthPerAnt := healthPerAnt s;
     defensePerAnt := defensePerAnt s |}.

Definition set_prestigePoints (v : Q) (s : State) : State :=
  {| loaded := loaded s; larvae := larvae s; ants := ants s; seeds := seeds s;
     queens := queens s; lastSavedTime := lastSavedTime s;
     maxSeeds := maxSeeds s; maxLarvae := maxLarvae s;
     initialMaxSeeds := initialMaxSeeds s;
     initialMaxLarvae := initialMaxLarvae s;
     seedStorageUpgradeCost := seedStorageUpgradeCost s;
     larvaeStorageUpgradeCost := larvaeStorageUpgradeCost s;
     storageUpgradeFactor := storageUpgradeFactor s;
     upgradeCostFactor := upgradeCostFactor s;
     larvaeProductionRate := larvaeProductionRate s;
     collectionRatePerAnt := collectionRatePerAnt s;
     seedCostPerLarva := seedCostPerLarva s;
     seedCostPerAnt := seedCostPerAnt s; larvaCostPerAnt := larvaCostPerAnt s;
     antCostPerQueen := antCostPerQueen s;
     seedCostPerQueen := seedCostPerQueen s; prestigePoints := v;
     purchasedUpgrades := purchasedUpgrades s; prestigeShop := prestigeShop s;
     autoLarvaeCreation := autoLarvaeCreation s;
     attackPerAnt := attackPerAnt s; healthPerAnt := healthPerAnt s;
     defensePerAnt := defensePerAnt s |}.

Definition set_purchasedUpgrades (v : list string) (s : State) : State :=
  {| loaded := loaded s; larvae := larvae s; ants := ants s; seeds := seeds s;
     queens := queens s; lastSavedTime := lastSavedTime s;
     maxSeeds := maxSeeds s; maxLarvae := maxLarvae s;
     initialMaxSeeds := initialMaxSeeds s;
     initialMaxLarvae := initialMaxLarvae s;
     seedStorageUpgradeCost := seedStorageUpgradeCost s;
     larvaeStorageUpgradeCost := larvaeStorageUpgradeCost s;
     storageUpgradeFactor := storageUpgradeFactor s;
     upgradeCostFactor := upgradeCostFactor s;
     larvaeProductionRate := larvaeProductionRate s;
     collectionRatePerAnt := collectionRatePerAnt s;
     seedCostPerLarva := seedCostPerLarva s;
     seedCostPerAnt := seedCostPerAnt s; larvaCostPerAnt := larvaCostPerAnt s;
     antCostPerQueen := antCostPerQueen s;
     seedCostPerQueen := seedCostPerQueen s;
     prestigePoints := prestigePoints s; purchasedUpgrades := v;
     prestigeShop := prestigeShop s;
     autoLarvaeCreation := autoLarvaeCreation s;
     attackPerAnt := attackPerAnt s; healthPerAnt := healthPerAnt s;
     defensePerAnt := defensePerAnt s |}.

Definition set_prestigeShop (v : list ShopItem) (s : State) : State :=
  {| loaded := loaded s; larvae := larvae s; ants := ants s; seeds := seeds s;
     queens := queens s; lastSavedTime := lastSavedTime s;
     maxSeeds := maxSeeds s; maxLarvae := maxLarvae s;
     initialMaxSeeds := initialMaxSeeds s;
     initialMaxLarvae := initialMaxLarvae s;
     seedStorageUpgradeCost := seedStorageUpgradeCost s;
     larvaeStorageUpgradeCost := larvaeStorageUpgradeCost s;
     storageUpgradeFactor := storageUpgradeFactor s;
     upgradeCostFactor := upgradeCostFactor s;
     larvaeProductionRate := larvaeProductionRate s;
     collectionRatePerAnt := collectionRatePerAnt s;
     seedCostPerLarva := seedCostPerLarva s;
     seedCostPerAnt := seedCostPerAnt s; larvaCostPerAnt := larvaCostPerAnt s;
     antCostPerQueen := antCostPerQueen s;
     seedCostPerQueen := seedCostPerQueen s;
     prestigePoints := prestigePoints s;
     purchasedUpgrades := purchasedUpgrades s; prestigeShop := v;
     autoLarvaeCreation := autoLarvaeCreation s;
     attackPerAnt := attackPerAnt s; healthPerAnt := healthPerAnt s;
     defensePerAnt := defensePerAnt s |}.

Definition set_autoLarvaeCreation (v : bool) (s : State) : State :=
  {| loaded := loaded s; larvae := larvae s; ants := ants s; seeds := seeds s;
     queens := queens s; lastSavedTime := lastSavedTime s;
     maxSeeds := maxSeeds s; maxLarvae := maxLarvae s;
     initialMaxSeeds := initialMaxSeeds s;
     initialMaxLarvae := initialMaxLarvae s;
     seedStorageUpgradeCost := seedStorageUpgradeCost s;
     larvaeStorageUpgradeCost := larvaeStorageUpgradeCost s;
     storageUpgradeFactor := storageUpgradeFactor s;
     upgradeCostFactor := upgradeCostFactor s;
     larvaeProductionRate := larvaeProductionRate s;
     collectionRatePerAnt := collectionRatePerAnt s;
     seedCostPerLarva := seedCostPerLarva s;
     seedCostPerAnt := seedCostPerAnt s; larvaCostPerAnt := larvaCostPerAnt s;
     antCostPerQueen := antCostPerQueen s;
     seedCostPerQueen := seedCostPerQueen s;
     prestigePoints := prestigePoints s;
     purchasedUpgrades := purchasedUpgrades s; prestigeShop := prestigeShop s;
     autoLarvaeCreation := v; attackPerAnt := attackPerAnt s;
     healthPerAnt := healthPerAnt s; defensePerAnt := defensePerAnt s |}.

Definition set_attackPerAnt (v : Q) (s : State) : State :=
  {| loaded := loaded s; larvae := larvae s; ants := ants s; seeds := seeds s;
     queens := queens s; lastSavedTime := lastSavedTime s;
     maxSeeds := maxSeeds s; maxLarvae := maxLarvae s;
     initialMaxSeeds := initialMaxSeeds s;
     initialMaxLarvae := initialMaxLarvae s;
     seedStorageUpgradeCost := seedStorageUpgradeCost s;
     larvaeStorageUpgradeCost := larvaeStorageUpgradeCost s;
     storageUpgradeFactor := storageUpgradeFactor s;
     upgradeCostFactor := upgradeCostFactor s;
     larvaeProductionRate := larvaeProductionRate s;
     collectionRatePerAnt := collectionRatePerAnt s;
     seedCostPerLarva := seedCostPerLarva s;
     seedCostPerAnt := seedCostPerAnt s; larvaCostPerAnt := larvaCostPerAnt s;
     antCostPerQueen := antCostPerQueen s;
     seedCostPerQueen := seedCostPerQueen s;
     prestigePoints := prestigePoints s;
     purchasedUpgrades := purchasedUpgrades s; prestigeShop := prestigeShop s;
     autoLarvaeCreation := autoLarvaeCreation s; attackPerAnt := v;
     healthPerAnt := healthPerAnt s; defensePerAnt := defensePerAnt s |}.

Definition set_healthPerAnt (v : Q) (s : State) : State :=
  {| loaded := loaded s; larvae := larvae s; ants := ants s; seeds := seeds s;
     queens := queens s; lastSavedTime := lastSavedTime s;
     maxSeeds := maxSeeds s; maxLarvae := maxLarvae s;
     initialMaxSeeds := initialMaxSeeds s;
     initialMaxLarvae := initialMaxLarvae s;
     seedStorageUpgradeCost := seedStorageUpgradeCost s;
     larvaeStorageUpgradeCost := larvaeStorageUpgradeCost s;
     storageUpgradeFactor := storageUpgradeFactor s;
     upgradeCostFactor := upgradeCostFactor s;
     larvaeProductionRate := larvaeProductionRate s;
     collectionRatePerAnt := collectionRatePerAnt s;
     seedCostPerLarva := seedCostPerLarva s;
     seedCostPerAnt := seedCostPerAnt s; larvaCostPerAnt := larvaCostPerAnt s;
     antCostPerQueen := antCostPerQueen s;
     seedCostPerQueen := seedCostPerQueen s;
     prestigePoints := prestigePoints s;
     purchasedUpgrades := purchasedUpgrades s; prestigeShop := prestigeShop s;
     autoLarvaeCreation := autoLarvaeCreation s;
     attackPerAnt := attackPerAnt s; healthPerAnt := v;
     defensePerAnt := defensePerAnt s |}.

Definition set_defensePerAnt (v : Q) (s : State) : State :=
  {| loaded := loaded s; larvae := larvae s; ants := ants s; seeds := seeds s;
     queens := queens s; lastSavedTime := lastSavedTime s;
     maxSeeds := maxSeeds s; maxLarvae := maxLarvae s;
     initialMaxSeeds := initialMaxSeeds s;
     initialMaxLarvae := initialMaxLarvae s;
     seedStorageUpgradeCost := seedStorageUpgradeCost s;
     larvaeStorageUpgradeCost := larvaeStorageUpgradeCost s;
     storageUpgradeFactor := storageUpgradeFactor s;
     upgradeCostFactor := upgradeCostFactor s;
     larvaeProductionRate := larvaeProductionRate s;
     collectionRatePerAnt := collectionRatePerAnt s;
     seedCostPerLarva := seedCostPerLarva s;
     seedCostPerAnt := seedCostPerAnt s; larvaCostPerAnt := larvaCostPerAnt s;
     antCostPerQueen := antCostPerQueen s;
     seedCostPerQueen := seedCostPerQueen s;
     prestigePoints := prestigePoints s;
     purchasedUpgrades := purchasedUpgrades s; prestigeShop := prestigeShop s;
     autoLarvaeCreation := autoLarvaeCreation s;
     attackPerAnt := attackPerAnt s; healthPerAnt := healthPerAnt s;
     defensePerAnt := v |}.

(** Function to create larvae using seeds, respecting the larvae cap. *)
Definition createLarvae (s : State) : State :=
  if JS.ge (seeds s) (seedCostPerLarva s) && JS.lt (larvae s) (maxLarvae s)
  then
    let s := set_larvae (larvae s + 1) s in
    set_seeds (seeds s - seedCostPerLarva s) s
  else s.

(** Create max larvae based on available seeds and larvae cap. *)
Definition createMaxLarvae (s : State) : State :=
  let maxLarvaeToCreate :=
    JS.Math_min (JS.Math_floor (seeds s / seedCostPerLarva s))
                (maxLarvae s - larvae s) in
  if JS.gt maxLarvaeToCreate 0
  then
    let s := set_larvae (larvae s + maxLarvaeToCreate) s in
    set_seeds (seeds s - maxLarvaeToCreate * seedCostPerLarva s) s
  else s.

(** Function to create ants using larvae and seeds. *)
Definition createAnts (s : State) : State :=
  if JS.ge (larvae s) (larvaCostPerAnt s) && JS.ge (seeds s) (seedCostPerAnt s)
  then
    let s := set_ants (ants s + 1) s in
    let s := set_larvae (larvae s - larvaCostPerAnt s) s in
    set_seeds (seeds s - seedCostPerAnt s) s
  else s.

(** Create max ants based on available larvae and seeds. *)
Definition createMaxAnts (s : State) : State :=
  let maxAntsByLarvae := larvae s in
  let maxAntsBySeeds := JS.Math_floor (seeds s / seedCostPerAnt s) in
  let maxAntsToCreate := JS.Math_min maxAntsByLarvae maxAntsBySeeds in
  if JS.gt maxAntsToCreate 0
  then
    let s := set_larvae (larvae s - maxAntsToCreate * larvaCostPerAnt s) s in
    let s := set_seeds (seeds s - maxAntsToCreate * seedCostPerAnt s) s in
    set_ants (ants s + maxAntsToCreate) s
  else s.

(** Function to buy more queens. *)
Definition buyQueen (s : State) : State :=
  if JS.ge (ants s) (antCostPerQueen s) && JS.ge (seeds s) (seedCostPerQueen s)
  then
    let s := set_queens (queens s + 1) s in
    let s := set_ants (ants s - antCostPerQueen s) s in
    set_seeds (seeds s - seedCostPerQueen s) s
  else s.

(** Buy max queens based on available ants and seeds. *)
Definition buyMaxQueens (s : State) : State :=
  let maxQueensByAnts := JS.Math_floor (ants s / antCostPerQueen s) in
  let maxQueensBySeeds := JS.Math_floor (seeds s / seedCostPerQueen s) in
  let maxQueensToBuy := JS.Math_min maxQueensByAnts maxQueensBySeeds in
  if JS.gt maxQueensToBuy 0
  then
    let s := set_ants (ants s - maxQueensToBuy * antCostPerQueen s) s in
    let s := set_seeds (seeds s - maxQueensToBuy * seedCostPerQueen s) s in
    set_queens (queens s + maxQueensToBuy) s
  else s.

(** Collect seeds manually, but respect the seed cap.  [amount] defaults
    to 1. *)
Definition collectSeedsManually (amount : Q) (s : State) : State :=
  let manualSeedCollectionRate := 10 in
  let seedsToAdd :=
    JS.Math_min manualSeedCollectionRate (maxSeeds s - seeds s) in
  if JS.gt amount 0 && JS.le (seeds s + seedsToAdd) (maxSeeds s)
  then set_seeds (seeds s + amount) s
  else set_seeds (seeds s + seedsToAdd) s.

(** Function to upgrade seed storage. *)
Definition upgradeSeedStorage (s : State) : State :=
  if JS.ge (seeds s) (seedStorageUpgradeCost s)
  then
    let s := set_seeds (seeds s - seedStorageUpgradeCost s) s in
    let s := set_maxSeeds
               (JS.Math_floor (maxSeeds s * storageUpgradeFactor s)) s in
    set_seedStorageUpgradeCost
      (JS.Math_floor (seedStorageUpgradeCost s * upgradeCostFactor s)) s
  else s.

(** Function to upgrade larvae storage. *)
Definition upgradeLarvaeStorage (s : State) : State :=
  if JS.ge (seeds s) (larvaeStorageUpgradeCost s)
  then
    let s := set_seeds (seeds s - larvaeStorageUpgradeCost s) s in
    let s := set_maxLarvae
               (JS.Math_floor (maxLarvae s * storageUpgradeFactor s)) s in
    set_larvaeStorageUpgradeCost
      (JS.Math_floor (larvaeStorageUpgradeCost s * upgradeCostFactor s)) s
  else s.

(** The callback [startGameLoop] hands to [setInterval]: one tick of
    real-time resource generation, respecting caps. *)
Definition gameLoopTick (s : State) : State :=
  let s := set_larvae
             (JS.Math_min (larvae s + larvaeProductionRate s * queens s / 60)
                          (maxLarvae s)) s in
  let s := set_seeds
             (JS.Math_min (seeds s + (collectionRatePerAnt s * ants s) / 60)
                          (maxSeeds s)) s in
  if autoLarvaeCreation s then createMaxLarvae s else s.

(** Calculate offline progress based on elapsed time and respect caps.
    [currentTime] is the [Date.now()] read by the call; the two amounts
    granted are named as in the source. *)
Definition timeElapsed (currentTime : Q) (s : State) : Q :=
  (currentTime - lastSavedTime s) / 60000.

Definition larvaeProduced (currentTime : Q) (s : State) : Q :=
  JS.Math_min
    (JS.Math_floor
       (timeElapsed currentTime s * larvaeProductionRate s * queens s))
    (maxLarvae s - larvae s).

Definition seedsCollected (currentTime : Q) (s : State) : Q :=
  JS.Math_min
    (JS.Math_floor
       (timeElapsed currentTime s * collectionRatePerAnt s * ants s))
    (maxSeeds s - seeds s).

Definition calculateOfflineProgress (currentTime : Q) (s : State) : State :=
  let larvaeProduced := larvaeProduced currentTime s in
  let seedsCollected := seedsCollected currentTime s in
  let s := set_larvae (larvae s + larvaeProduced) s in
  let s := set_seeds (seeds s + seedsCollected) s in
  set_lastSavedTime currentTime s.

(** Apply a purchased upgrade.  [setupAdventureStats] writes only the army
    statistics of the adventure store, which is not part of this model. *)
Definition applyPrestigeUpgrade (upgradeId : string) (s : State) : State :=
  if upgradeId =? "storageUpgrade" then
    let s := set_maxSeeds (maxSeeds s * 1.2) s in
    set_maxLarvae (maxLarvae s * 1.2) s
  else if upgradeId =? "productionBoost" then
    let s := set_larvaeProductionRate (larvaeProductionRate s * 1.2) s in
    set_collectionRatePerAnt (collectionRatePerAnt s * 1.2) s
  else if upgradeId =? "queenEfficiency" then
    set_larvaeProductionRate (larvaeProductionRate s * 1.5) s
  else if upgradeId =? "autoLarvae" then
    set_autoLarvaeCreation true s
  else if upgradeId =? "betterAnts" then
    set_attackPerAnt (attackPerAnt s * 1.1) s
  else s.

(** Apply purchased upgrades to the game. *)
Definition applyPrestigeUpgrades (s : State) : State :=
  fold_left (fun s upgradeId => applyPrestigeUpgrade upgradeId s)
            (purchasedUpgrades s) s.

(** Reset the game state (excluding prestige-related data).  [now] is the
    [Date.now()] read by the call; the resets of the inventory and adventure
    stores and the deletion of the saved record are outside the model. *)
Definition resetGameState (debug : bool) (now : Q) (s : State) : State :=
  let s := set_larvae 0 s in
  let s := set_ants 0 s in
  let s := set_seeds 10 s in
  let s := set_queens 1 s in
  let s := set_maxSeeds (initialMaxSeeds s) s in
  let s := set_maxLarvae (initialMaxLarvae s) s in
  let s := set_seedStorageUpgradeCost 500 s in
  let s := set_larvaeStorageUpgradeCost 100 s in
  let s := set_lastSavedTime now s in
  let s := if debug
           then set_purchasedUpgrades [] (set_prestigePoints 0 s)
           else s in
  let s := set_healthPerAnt 10 s in
  let s := set_attackPerAnt 2 s in
  let s := set_defensePerAnt 1 s in
  applyPrestigeUpgrades s.

(** The record kept under the key [idleGameState].  A field the record does
    not have reads as [undefined]. *)
Record SavedState := {
  sv_ants : option Q;
  sv_seeds : option Q;
  sv_queens : option Q;
  sv_larvae : option Q;
  sv_maxSeeds : option Q;
  sv_maxLarvae : option Q;
  sv_seedStorageUpgradeCost : option Q;
  sv_larvaeStorageUpgradeCost : option Q;
  sv_prestigePoints : option Q;
  sv_purchasedUpgrades : option (list string);
  sv_lastSavedTime : option Q;
  sv_storagePrestigeCost : option Q;
  sv_productionPrestigeCost : option Q;
  sv_queenPrestigeCost : option Q;
  sv_autoLarvaePrestigeCost : option Q;
  sv_betterAntsPrestigeCost : option Q;
  sv_attackPerAnt : option Q;
  sv_healthPerAnt : option Q;
  sv_defensePerAnt : option Q;
}.

(** [this.prestigeShop.find(u => u.id === upgradeId)?.cost]. *)
Definition findCost (upgradeId : string) (s : State) : option Q :=
  match find (fun u => id u =? upgradeId) (prestigeShop s) with
  | Some u => cost u
  | None => None
  end.

(** Save game state: the record written by [saveGameState]; [now] is its
    [Date.now()]. *)
Definition saveGameState (now : Q) (s : State) : SavedState := {|
  sv_ants := Some (ants s);
  sv_seeds := Some (seeds s);
  sv_queens := Some (queens s);
  sv_larvae := Some (larvae s);
  sv_maxSeeds := Some (maxSeeds s);
  sv_maxLarvae := Some (maxLarvae s);
  sv_seedStorageUpgradeCost := Some (seedStorageUpgradeCost s);
  sv_larvaeStorageUpgradeCost := Some (larvaeStorageUpgradeCost s);
  sv_prestigePoints := Some (prestigePoints s);
  sv_purchasedUpgrades := Some (purchasedUpgrades s);
  sv_lastSavedTime := Some now;
  sv_storagePrestigeCost := Some (findCost "storageUpgrade" s ?? 10);
  sv_productionPrestigeCost := Some (findCost "productionBoost" s ?? 15);
  sv_queenPrestigeCost := Some (findCost "queenEfficiency" s ?? 20);
  sv_autoLarvaePrestigeCost := Some (findCost "autoLarvae" s ?? 25);
  sv_betterAntsPrestigeCost := Some (findCost "betterAnts" s ?? 100);
  sv_attackPerAnt := Some (attackPerAnt s);
  sv_healthPerAnt := Some (healthPerAnt s);
  sv_defensePerAnt := Some (defensePerAnt s);
|}.

Definition set_cost (v : option Q) (shop : ShopItem) : ShopItem :=
  {| id := id shop; cost := v |}.

(** Load prestige shop costs: the callback of [this.prestigeShop.map]. *)
Definition loadShopCost (savedState : SavedState) (shop : ShopItem)
  : ShopItem :=
  let shop := if id shop =? "storageUpgrade"
              then set_cost (sv_storagePrestigeCost savedState) shop
              else shop in
  let shop := if id shop =? "productionBoost"
              then set_cost (sv_productionPrestigeCost savedState) shop
              else shop in
  let shop := if id shop =? "queenEfficiency"
              then set_cost (sv_queenPrestigeCost savedState) shop
              else shop in
  let shop := if id shop =? "autoLarvae"
              then set_cost (sv_autoLarvaePrestigeCost savedState) shop
              else shop in
  if id shop =? "betterAnts"
  then set_cost (sv_betterAntsPrestigeCost savedState) shop
  else shop.

(** Load game state and calculate offline progress.  [savedState] is what
    [get('idleGameState')] returned and [now] the [Date.now()] read by
    [calculateOfflineProgress]; the loaders of the inventory and adventure
    stores are outside the model. *)
Definition loadGameState (savedState : option SavedState) (now : Q)
                         (s : State) : State :=
  let s :=
    match savedState with
    | Some savedState =>
      let s := set_ants (sv_ants savedState ?? ants s) s in
      let s := set_seeds (sv_seeds savedState ?? seeds s) s in
      let s := set_queens (sv_queens savedState ?? queens s) s in
      let s := set_larvae (sv_larvae savedState ?? larvae s) s in
      let s := set_maxSeeds (sv_maxSeeds savedState ?? maxSeeds s) s in
      let s := set_maxLarvae (sv_maxLarvae savedState ?? maxLarvae s) s in
      let s := set_seedStorageUpgradeCost
                 (sv_seedStorageUpgradeCost savedState
                    ?? seedStorageUpgradeCost s) s in
      let s := set_larvaeStorageUpgradeCost
                 (sv_larvaeStorageUpgradeCost savedState
                    ?? larvaeStorageUpgradeCost s) s in
      let s := set_prestigePoints
                 (sv_prestigePoints savedState ?? prestigePoints s) s in
      let s := set_purchasedUpgrades
                 (sv_purchasedUpgrades savedState ?? purchasedUpgrades s) s in
      let s := set_lastSavedTime
                 (sv_lastSavedTime savedState ?? lastSavedTime s) s in
      let s := set_prestigeShop
                 (map (loadShopCost savedState) (prestigeShop s)) s in
      let s := set_attackPerAnt
                 (sv_attackPerAnt savedState ?? attackPerAnt s) s in
      let s := set_healthPerAnt
                 (sv_healthPerAnt savedState ?? healthPerAnt s) s in
      set_defensePerAnt (sv_defensePerAnt savedState ?? defensePerAnt s) s
    | None => s
    end in
  let s := calculateOfflineProgress now s in
  set_loaded true s.

(** *** The operations on the pools, and what the pools must satisfy *)

(** The operations a player or the timer performs on the pools.
    [ResetForPrestige] is the reset [prestige] performs once points were
    earned. *)
Inductive Operation :=
| Tick
| CreateLarvae
| CreateMaxLarvae
| CreateAnts
| CreateMaxAnts
| BuyQueen
| BuyMaxQueens
| CollectSeedsManually (amount : Q)
| UpgradeSeedStorage
| UpgradeLarvaeStorage
| ResetForPrestige (now : Q).

Definition perform (op : Operation) (s : State) : State :=
  match op with
  | Tick => gameLoopTick s
  | CreateLarvae => createLarvae s
  | CreateMaxLarvae => createMaxLarvae s
  | CreateAnts => createAnts s
  | CreateMaxAnts => createMaxAnts s
  | BuyQueen => buyQueen s
  | BuyMaxQueens => buyMaxQueens s
  | CollectSeedsManually amount => collectSeedsManually amount s
  | UpgradeSeedStorage => upgradeSeedStorage s
  | UpgradeLarvaeStorage => upgradeLarvaeStorage s
  | ResetForPrestige now => resetGameState false now s
  end.

Definition run (ops : list Operation) (s : State) : State :=
  fold_left (fun s op => perform op s) ops s.

(** A sequence of clicks: one tick, then ten times enough default clicks
    on the seed button to pay for a larva, each followed by
    [createLarvae]. *)
Definition larvaeClicks : list Operation :=
  Tick ::
  repeat (CollectSeedsManually 1) 90 ++ [CreateLarvae] ++
  List.concat (repeat (repeat (CollectSeedsManually 1) 100 ++ [CreateLarvae]) 9).

(** Each pool is between 0 and its cap. *)
Definition withinCaps (s : State) : Prop :=
  0 <= larvae s /\ larvae s <= maxLarvae s /\
  0 <= seeds s /\ seeds s <= maxSeeds s.

(** The ranges the other numbers of the store stay in. *)
Definition wellFormed (s : State) : Prop :=
  0 <= ants s /\ 0 <= queens s /\
  0 <= larvaeProductionRate s /\ 0 <= collectionRatePerAnt s /\
  0 < seedCostPerLarva s /\ 0 < seedCostPerAnt s /\
  0 <= larvaCostPerAnt s /\ larvaCostPerAnt s <= 1 /\
  0 < antCostPerQueen s /\ 0 < seedCostPerQueen s /\
  0 <= seedStorageUpgradeCost s /\ 0 <= larvaeStorageUpgradeCost s /\
  storageUpgradeFactor s == 1.2 /\ 0 <= upgradeCostFactor s /\
  5 <= maxSeeds s /\ 5 <= maxLarvae s /\
  10 <= initialMaxSeeds s /\ 5 <= initialMaxLarvae s.

Definition sound (s : State) : Prop := wellFormed s /\ withinCaps s.

(** The operations that keep the pools within their caps (all but the two
    that add to a pool without looking at what the addition gives). *)
Definition clamping (op : Operation) : bool :=
  match op with
  | CreateLarvae | CollectSeedsManually _ => false
  | _ => true
  end.

(** A save of an earlier version of the game: the pools, and none of the
    fields added later. *)
Definition earlierSave : SavedState := {|
  sv_ants := Some 5;
  sv_seeds := Some 50;
  sv_queens := Some 1;
  sv_larvae := Some 0;
  sv_maxSeeds := None;
  sv_maxLarvae := None;
  sv_seedStorageUpgradeCost := None;
  sv_larvaeStorageUpgradeCost := None;
  sv_prestigePoints := None;
  sv_purchasedUpgrades := None;
  sv_lastSavedTime := None;
  sv_storagePrestigeCost := None;
  sv_productionPrestigeCost := None;
  sv_queenPrestigeCost := None;
  sv_autoLarvaePrestigeCost := None;
  sv_betterAntsPrestigeCost := None;
  sv_attackPerAnt := None;
  sv_healthPerAnt := None;
  sv_defensePerAnt := None;
|}.

(** *** Getters, the old shop and the timer *)

(** Calculate larvae production per minute based on queens. *)
Definition larvaePerMinute (s : State) : Q :=
  queens s * larvaeProductionRate s.

(** Calculate larvae production per second for real-time updates. *)
Definition larvaePerSecond (s : State) : Q :=
  (queens s * larvaeProductionRate s) / 60.

(** Calculate seed production per second based on ants. *)
Definition seedsPerSecond (s : State) : Q :=
  (collectionRatePerAnt s * ants s) / 60.

(** [this.prestigeShop.find(u => u.id === upgradeId).cost *= 1.5]: the first
    item of the shop with that id is the one that changes. *)
Fixpoint increaseCost (upgradeId : string) (shop : list ShopItem)
  : list ShopItem :=
  match shop with
  | [] => []
  | u :: shop' =>
    if id u =? upgradeId
    then set_cost (option_map (fun c => c * 1.5) (cost u)) u :: shop'
    else u :: increaseCost upgradeId shop'
  end.

(** Buy an upgrade from the prestige shop (the action of [gameStore.ts]).
    A cost that is [undefined] makes the comparison false. *)
Definition buyUpgrade (upgradeId : string) (s : State) : State :=
  match find (fun u => id u =? upgradeId) (prestigeShop s) with
  | Some upgrade =>
    match cost upgrade with
    | Some upgradeCost =>
      if JS.ge (prestigePoints s) upgradeCost then
        let s := set_prestigePoints (prestigePoints s - upgradeCost) s in
        let s := set_prestigeShop
                   (increaseCost upgradeId (prestigeShop s)) s in
        let s := set_purchasedUpgrades
                   (purchasedUpgrades s ++ [upgradeId]) s in
        applyPrestigeUpgrade upgradeId s
      else s
    | None => s
    end
  | None => s
  end.

(** The ids whose costs [saveGameState] writes and [loadGameState] reads. *)
Definition savedCostIds : list string :=
  ["storageUpgrade"; "productionBoost"; "queenEfficiency"; "autoLarvae";
   "betterAnts"].


(** The timers of the page: the handles of the intervals that are running
    and the handle the next [setInterval] returns.  Handles are positive
    numbers, so a handle is truthy. *)
Record Timers := {
  running : list positive;
  nextHandle : positive;
}.

Definition setInterval (t : Timers) : positive * Timers :=
  (nextHandle t,
   {| running := nextHandle t :: running t;
      nextHandle := Pos.succ (nextHandle t) |}).

Definition clearInterval (handle : positive) (t : Timers) : Timers :=
  {| running := filter (fun h => negb (Pos.eqb h handle)) (running t);
     nextHandle := nextHandle t |}.

(** The field [gameLoopInterval] of the store, with the timers of the
    page. *)
Record Loop := {
  gameLoopInterval : option positive;
  timers : Timers;
}.

(** Start the game loop. *)
Definition startGameLoop (l : Loop) : Loop :=
  match gameLoopInterval l with
  | None =>
    let (handle, t) := setInterval (timers l) in
    {| gameLoopInterval := Some handle; timers := t |}
  | Some _ => l
  end.

(** Stop the game loop. *)
Definition stopGameLoop (l : Loop) : Loop :=
  match gameLoopInterval l with
  | Some handle =>
    {| gameLoopInterval := None;
       timers := clearInterval handle (timers l) |}
  | None => l
  end.

(** A call of one of the two. *)
Inductive LoopCall := Start | Stop.

Definition call (c : LoopCall) (l : Loop) : Loop :=
  match c with
  | Start => startGameLoop l
  | Stop => stopGameLoop l
  end.

(** The loop of a store that was just created: no interval of its own, and
    whatever timers the page already runs. *)
Definition freshLoop (t : Timers) : Loop :=
  {| gameLoopInterval := None; timers := t |}.

(** *** The army statistics *)

(** The properties of the adventure store that [setupAdventureStats]
    writes.  The adventure store is declared outside the files modelled
    here, so its shape is taken from the accesses made in [gameStore.ts];
    [armyHealth] is read before it is written and may be [undefined]. *)
Record AdventureStats := {
  armyMaxHealth : Q;
  armyHealth : option Q;
  armyAttack : Q;
  armyDefense : Q;
}.

(** [setupAdventureStats]: the statistics of the army, from the ants.  The
    test [adventureStore.armyHealth ? ... : ...] fails for [undefined] and
    for 0. *)
Definition setupAdventureStats (s : State) (a : AdventureStats)
  : AdventureStats :=
  if Qeq_bool (ants s) 0 then a
  else
    let armyMaxHealth := ants s * healthPerAnt s in
    {| armyMaxHealth := armyMaxHealth;
       armyHealth :=
         Some match armyHealth a with
              | Some health =>
                if negb (Qeq_bool health 0)
                then JS.Math_min health armyMaxHealth
                else armyMaxHealth
              | None => armyMaxHealth
              end;
       armyAttack := ants s * attackPerAnt s;
       armyDefense := ants s * defensePerAnt s |}.

End GameStore.

(** ** prestigeStore.ts *)

Module PrestigeStore.

Local Open Scope Z_scope.
Local Open Scope string_scope.
Local Open Scope list_scope.

Inductive Category :=
| cat_auto | cat_production | cat_storage | cat_combat | cat_expansion.

(** The [unlockedWhen] closures of the shop: each one asks the prestige
    store either whether an upgrade was purchased or how often the player
    prestiged. *)
Inductive UnlockRule :=
| WhenUpgradePurchased (upgradeId : string)
| WhenTimesPrestigedAtLeast (n : Z).

(** [interface PrestigeShopItem] (the description text is left out).  An
    optional property that is not written in the shop is [None]. *)
Record PrestigeShopItem := {
  id : string;
  name : string;
  cost : Z;
  oneTimePurchase : option bool;
  applyOnPrestige : option bool;
  category : option Category;
  unlockedWhen : option UnlockRule;
}.

Definition set_cost (v : Z) (s : PrestigeShopItem) : PrestigeShopItem :=
  {| id := id s; name := name s; cost := v;
     oneTimePurchase := oneTimePurchase s;
     applyOnPrestige := applyOnPrestige s; category := category s;
     unlockedWhen := unlockedWhen s |}.

(** The properties of the game store that [prestigeStore.ts] reads and
    writes.  The game store these belong to is declared outside the files
    modelled here, so its shape is taken from the accesses made in
    [prestigeStore.ts]; [userId] is what [gameStore.getUserId()] resolves
    to. *)
Record Resources := { ants : Q; queens : Q }.

Record Storage := {
  maxSeeds : Q;
  maxLarvae : Q;
  maxAnts : Q;
  maxQueens : Q;
  maxEliteAnts : Q;
}.

Record ProductionRates := {
  larvaeProductionRate : Q;
  collectionRatePerAnt : Q;
}.

Record GameStore := {
  userId : option string;
  resources : Resources;
  storage : Storage;
  productionRates : ProductionRates;
  attackPerAnt : Q;
  defensePerAnt : Q;
  eliteAntsUnlocked : bool;
  royalJellyUnlocked : bool;
}.

Definition set_ants (v : Q) (s : Resources) : Resources :=
  {| ants := v; queens := queens s |}.

Definition set_maxSeeds (v : Q) (s : Storage) : Storage :=
  {| maxSeeds := v; maxLarvae := maxLarvae s; maxAnts := maxAnts s;
     maxQueens := maxQueens s; maxEliteAnts := maxEliteAnts s |}.

Definition set_maxLarvae (v : Q) (s : Storage) : Storage :=
  {| maxSeeds := maxSeeds s; maxLarvae := v; maxAnts := maxAnts s;
     maxQueens := maxQueens s; maxEliteAnts := maxEliteAnts s |}.

Definition set_maxAnts (v : Q) (s : Storage) : Storage :=
  {| maxSeeds := maxSeeds s; maxLarvae := maxLarvae s; maxAnts := v;
     maxQueens := maxQueens s; maxEliteAnts := maxEliteAnts s |}.

Definition set_maxQueens (v : Q) (s : Storage) : Storage :=
  {| maxSeeds := maxSeeds s; maxLarvae := maxLarvae s; maxAnts := maxAnts s;
     maxQueens := v; maxEliteAnts := maxEliteAnts s |}.

Definition set_maxEliteAnts (v : Q) (s : Storage) : Storage :=
  {| maxSeeds := maxSeeds s; maxLarvae := maxLarvae s; maxAnts := maxAnts s;
     maxQueens := maxQueens s; maxEliteAnts := v |}.

Definition set_larvaeProductionRate (v : Q) (s : ProductionRates) : ProductionRates :=
  {| larvaeProductionRate := v;
     collectionRatePerAnt := collectionRatePerAnt s |}.

Definition set_collectionRatePerAnt (v : Q) (s : ProductionRates) : ProductionRates :=
  {| larvaeProductionRate := larvaeProductionRate s;
     collectionRatePerAnt := v |}.

Definition set_resources (v : Resources) (s : GameStore) : GameStore :=
  {| userId := userId s; resources := v; storage := storage s;
     productionRates := productionRates s; attackPerAnt := attackPerAnt s;
     defensePerAnt := defensePerAnt s;
     eliteAntsUnlocked := eliteAntsUnlocked s;
     royalJellyUnlocked := royalJellyUnlocked s |}.

Definition set_storage (v : Storage) (s : GameStore) : GameStore :=
  {| userId := userId s; resources := resources s; storage := v;
     productionRates := productionRates s; attackPerAnt := attackPerAnt s;
     defensePerAnt := defensePerAnt s;
     eliteAntsUnlocked := eliteAntsUnlocked s;
     royalJellyUnlocked := royalJellyUnlocked s |}.

Definition set_productionRates (v : ProductionRates) (s : GameStore) : GameStore :=
  {| userId := userId s; resources := resources s; storage := storage s;
     productionRates := v; attackPerAnt := attackPerAnt s;
     defensePerAnt := defensePerAnt s;
     eliteAntsUnlocked := eliteAntsUnlocked s;
     royalJellyUnlocked := royalJellyUnlocked s |}.

Definition set_attackPerAnt (v : Q) (s : GameStore) : GameStore :=
  {| userId := userId s; resources := resources s; storage := storage s;
     productionRates := productionRates s; attackPerAnt := v;
     defensePerAnt := defensePerAnt s;
     eliteAntsUnlocked := eliteAntsUnlocked s;
     royalJellyUnlocked := royalJellyUnlocked s |}.

Definition set_defensePerAnt (v : Q) (s : GameStore) : GameStore :=
  {| userId := userId s; resources := resources s; storage := storage s;
     productionRates := productionRates s; attackPerAnt := attackPerAnt s;
     defensePerAnt := v; eliteAntsUnlocked := eliteAntsUnlocked s;
     royalJellyUnlocked := royalJellyUnlocked s |}.

Definition set_eliteAntsUnlocked (v : bool) (s : GameStore) : GameStore :=
  {| userId := userId s; resources := resources s; storage := storage s;
     productionRates := productionRates s; attackPerAnt := attackPerAnt s;
     defensePerAnt := defensePerAnt s; eliteAntsUnlocked := v;
     royalJellyUnlocked := royalJellyUnlocked s |}.

Definition set_royalJellyUnlocked (v : bool) (s : GameStore) : GameStore :=
  {| userId := userId s; resources := resources s; storage := storage s;
     productionRates := productionRates s; attackPerAnt := attackPerAnt s;
     defensePerAnt := defensePerAnt s;
     eliteAntsUnlocked := eliteAntsUnlocked s; royalJellyUnlocked := v |}.

(** The state of the prestige store. *)
Record Store := {
  prestigePoints : Z;
  timesPrestiged : Z;
  purchasedUpgrades : list string;
  prestigeShop : list PrestigeShopItem;
  (* Prestige-related variables *)
  autoLarvaeCreation : bool;
  autoAntCreation : bool;
  autoEliteAntsCreation : bool;
  autoQueenCreation : bool;
  autoSeedStorageUpgrade : bool;
  antsFromPrestigeShop : Z;
  baseAntThreshold : Q;
  baseQueenThreshold : Q;
}.

Definition set_prestigePoints (v : Z) (s : Store) : Store :=
  {| prestigePoints := v; timesPrestiged := timesPrestiged s;
     purchasedUpgrades := purchasedUpgrades s; prestigeShop := prestigeShop s;
     autoLarvaeCreation := autoLarvaeCreation s;
     autoAntCreation := autoAntCreation s;
     autoEliteAntsCreation := autoEliteAntsCreation s;
     autoQueenCreation := autoQueenCreation s;
     autoSeedStorageUpgrade := autoSeedStorageUpgrade s;
     antsFromPrestigeShop := antsFromPrestigeShop s;
     baseAntThreshold := baseAntThreshold s;
     baseQueenThreshold := baseQueenThreshold s |}.

Definition set_timesPrestiged (v : Z) (s : Store) : Store :=
  {| prestigePoints := prestigePoints s; timesPrestiged := v;
     purchasedUpgrades := purchasedUpgrades s; prestigeShop := prestigeShop s;
     autoLarvaeCreation := autoLarvaeCreation s;
     autoAntCreation := autoAntCreation s;
     autoEliteAntsCreation := autoEliteAntsCreation s;
     autoQueenCreation := autoQueenCreation s;
     autoSeedStorageUpgrade := autoSeedStorageUpgrade s;
     antsFromPrestigeShop := antsFromPrestigeShop s;
     baseAntThreshold := baseAntThreshold s;
     baseQueenThreshold := baseQueenThreshold s |}.

Definition set_purchasedUpgrades (v : list string) (s : Store) : Store :=
  {| prestigePoints := prestigePoints s; timesPrestiged := timesPrestiged s;
     purchasedUpgrades := v; prestigeShop := prestigeShop s;
     autoLarvaeCreation := autoLarvaeCreation s;
     autoAntCreation := autoAntCreation s;
     autoEliteAntsCreation := autoEliteAntsCreation s;
     autoQueenCreation := autoQueenCreation s;
     autoSeedStorageUpgrade := autoSeedStorageUpgrade s;
     antsFromPrestigeShop := antsFromPrestigeShop s;
     baseAntThreshold := baseAntThreshold s;
     baseQueenThreshold := baseQueenThreshold s |}.

Definition set_prestigeShop (v : list PrestigeShopItem) (s : Store) : Store :=
  {| prestigePoints := prestigePoints s; timesPrestiged := timesPrestiged s;
     purchasedUpgrades := purchasedUpgrades s; prestigeShop := v;
     autoLarvaeCreation := autoLarvaeCreation s;
     autoAntCreation := autoAntCreation s;
     autoEliteAntsCreation := autoEliteAntsCreation s;
     autoQueenCreation := autoQueenCreation s;
     autoSeedStorageUpgrade := autoSeedStorageUpgrade s;
     antsFromPrestigeShop := antsFromPrestigeShop s;
     baseAntThreshold := baseAntThreshold s;
     baseQueenThreshold := baseQueenThreshold s |}.

Definition set_autoLarvaeCreation (v : bool) (s : Store) : Store :=
  {| prestigePoints := prestigePoints s; timesPrestiged := timesPrestiged s;
     purchasedUpgrades := purchasedUpgrades s; prestigeShop := prestigeShop s;
     autoLarvaeCreation := v; autoAntCreation := autoAntCreation s;
     autoEliteAntsCreation := autoEliteAntsCreation s;
     autoQueenCreation := autoQueenCreation s;
     autoSeedStorageUpgrade := autoSeedStorageUpgrade s;
     antsFromPrestigeShop := antsFromPrestigeShop s;
     baseAntThreshold := baseAntThreshold s;
     baseQueenThreshold := baseQueenThreshold s |}.

Definition set_autoAntCreation (v : bool) (s : Store) : Store :=
  {| prestigePoints := prestigePoints s; timesPrestiged := timesPrestiged s;
     purchasedUpgrades := purchasedUpgrades s; prestigeShop := prestigeShop s;
     autoLarvaeCreation := autoLarvaeCreation s; autoAntCreation := v;
     autoEliteAntsCreation := autoEliteAntsCreation s;
     autoQueenCreation := autoQueenCreation s;
     autoSeedStorageUpgrade := autoSeedStorageUpgrade s;
     antsFromPrestigeShop := antsFromPrestigeShop s;
     baseAntThreshold := baseAntThreshold s;
     baseQueenThreshold := baseQueenThreshold s |}.

Definition set_autoEliteAntsCreation (v : bool) (s : Store) : Store :=
  {| prestigePoints := prestigePoints s; timesPrestiged := timesPrestiged s;
     purchasedUpgrades := purchasedUpgrades s; prestigeShop := prestigeShop s;
     autoLarvaeCreation := autoLarvaeCreation s;
     autoAntCreation := autoAntCreation s; autoEliteAntsCreation := v;
     autoQueenCreation := autoQueenCreation s;
     autoSeedStorageUpgrade := autoSeedStorageUpgrade s;
     antsFromPrestigeShop := antsFromPrestigeShop s;
     baseAntThreshold := baseAntThreshold s;
     baseQueenThreshold := baseQueenThreshold s |}.

Definition set_autoQueenCreation (v : bool) (s : Store) : Store :=
  {| prestigePoints := prestigePoints s; timesPrestiged := timesPrestiged s;
     purchasedUpgrades := purchasedUpgrades s; prestigeShop := prestigeShop s;
     autoLarvaeCreation := autoLarvaeCreation s;
     autoAntCreation := autoAntCreation s;
     autoEliteAntsCreation := autoEliteAntsCreation s; autoQueenCreation := v;
     autoSeedStorageUpgrade := autoSeedStorageUpgrade s;
     antsFromPrestigeShop := antsFromPrestigeShop s;
     baseAntThreshold := baseAntThreshold s;
     baseQueenThreshold := baseQueenThreshold s |}.

Definition set_autoSeedStorageUpgrade (v : bool) (s : Store) : Store :=
  {| prestigePoints := prestigePoints s; timesPrestiged := timesPrestiged s;
     purchasedUpgrades := purchasedUpgrades s; prestigeShop := prestigeShop s;
     autoLarvaeCreation := autoLarvaeCreation s;
     autoAntCreation := autoAntCreation s;
     autoEliteAntsCreation := autoEliteAntsCreation s;
     autoQueenCreation := autoQueenCreation s; autoSeedStorageUpgrade := v;
     antsFromPrestigeShop := antsFromPrestigeShop s;
     baseAntThreshold := baseAntThreshold s;
     baseQueenThreshold := baseQueenThreshold s |}.

Definition set_antsFromPrestigeShop (v : Z) (s : Store) : Store :=
  {| prestigePoints := prestigePoints s; timesPrestiged := timesPrestiged s;
     purchasedUpgrades := purchasedUpgrades s; prestigeShop := prestigeShop s;
     autoLarvaeCreation := autoLarvaeCreation s;
     autoAntCreation := autoAntCreation s;
     autoEliteAntsCreation := autoEliteAntsCreation s;
     autoQueenCreation := autoQueenCreation s;
     autoSeedStorageUpgrade := autoSeedStorageUpgrade s;
     antsFromPrestigeShop := v; baseAntThreshold := baseAntThreshold s;
     baseQueenThreshold := baseQueenThreshold s |}.

Definition initialShop : list PrestigeShopItem :=
  [ {| id := "autoAnts"; name := "Auto Ant Creation"; cost := 20;
       oneTimePurchase := Some true; applyOnPrestige := Some true;
       category := Some cat_auto; unlockedWhen := None |};
    {| id := "autoQueens"; name := "Auto Queen Creation"; cost := 20;
       oneTimePurchase := Some true; applyOnPrestige := Some true;
       category := Some cat_auto; unlockedWhen := None |};
    {| id := "autoSeedStorageUpgrade"; name := "Auto Seed Storage Upgrade";
       cost := 10;
       oneTimePurchase := Some true; applyOnPrestige := Some true;
       category := Some cat_auto; unlockedWhen := None |};
    {| id := "autoEliteAntsCreation"; name := "Auto Elite Ants Creation";
       cost := 100;
       oneTimePurchase := Some true; applyOnPrestige := Some true;
       category := Some cat_auto;
       unlockedWhen := Some (WhenUpgradePurchased "eliteAnts") |};
    {| id := "betterAnts"; name := "Stronger Ants"; cost := 50;
       oneTimePurchase := None; applyOnPrestige := Some false;
       category := Some cat_combat; unlockedWhen := None |};
    {| id := "betterAntsDefense"; name := "Stronger Ants Defense"; cost := 50;
       oneTimePurchase := None; applyOnPrestige := Some false;
       category := Some cat_combat; unlockedWhen := None |};
    {| id := "startWithAnts"; name := "Start with Ants"; cost := 15;
       oneTimePurchase := None; applyOnPrestige := Some true;
       category := Some cat_expansion; unlockedWhen := None |};
    {| id := "eliteAnts"; name := "Elite Ants"; cost := 500;
       oneTimePurchase := Some true; applyOnPrestige := Some true;
       category := Some cat_expansion;
       unlockedWhen := Some (WhenTimesPrestigedAtLeast 5) |};
    {| id := "storageUpgrade"; name := "Storage Upgrade"; cost := 5;
       oneTimePurchase := None; applyOnPrestige := Some true;
       category := Some cat_storage; unlockedWhen := None |};
    {| id := "eliteAntsStoreUpgrade"; name := "Elite Ants Store Upgrade";
       cost := 100;
       oneTimePurchase := None; applyOnPrestige := Some true;
       category := Some cat_storage;
       unlockedWhen := Some (WhenUpgradePurchased "eliteAnts") |};
    {| id := "productionBoost"; name := "Production Boost"; cost := 10;
       oneTimePurchase := None; applyOnPrestige := None;
       category := Some cat_production; unlockedWhen := None |};
    {| id := "queenEfficiency"; name := "Queen Efficiency"; cost := 15;
       oneTimePurchase := None; applyOnPrestige := None;
       category := Some cat_production; unlockedWhen := None |};
    {| id := "royalJelly"; name := "Royal Jelly"; cost := 1000;
       oneTimePurchase := Some true; applyOnPrestige := Some true;
       category := Some cat_expansion;
       unlockedWhen := Some (WhenUpgradePurchased "eliteAnts") |};
    {| id := "tunnels"; name := "Tunnels"; cost := 500;
       oneTimePurchase := Some true; applyOnPrestige := Some true;
       category := Some cat_expansion; unlockedWhen := None |} ].

Definition initialStore : Store := {|
  prestigePoints := 0;
  timesPrestiged := 0;
  purchasedUpgrades := [];
  prestigeShop := initialShop;
  autoLarvaeCreation := false;
  autoAntCreation := false;
  autoEliteAntsCreation := false;
  autoQueenCreation := false;
  autoSeedStorageUpgrade := false;
  antsFromPrestigeShop := 0;
  baseAntThreshold := 50;
  baseQueenThreshold := 2;
|}.

(** Both stores together: an action of the prestige store reads and writes
    the game store through [useGameStore()]. *)
Record World := {
  prestigeStore : Store;
  gameStore : GameStore;
}.

(** What an action sends out: the lines written to the console and the
    toasts shown. *)
Inductive Event :=
| LogTryToApplyUpgrade (upgradeId : string) (fromPrestige : bool)
| LogPrestigeInShop (found : option string)
| LogUpgradeNotApplicable (upgradeId : string)
| LogApplyingUpgrade (upgradeId : string)
| LogInvalidUpgradeId (upgradeId : string)
| LogPurchasedUpgrade (name : string)
| LogNotEnoughPointsOrInvalid
| LogInvalidUpgrade
| LogPurchasedMax (name : string)
| ErrorUserIdNotFound
| LogNotEnoughResources
| LogPrestigeSuccessful (earnedPrestigePoints : Z)
| ToastInfo (message : string).

(** An action: a function of the two stores that returns a value, the
    stores as it leaves them and what it sent out. *)
Definition M (A : Type) : Type := World -> A * World * list Event.

Definition ret {A : Type} (a : A) : M A := fun w => (a, w, []).

Definition bind {A B : Type} (m : M A) (k : A -> M B) : M B :=
  fun w =>
    let '(a, w1, out1) := m w in
    let '(b, w2, out2) := k a w1 in
    (b, w2, out1 ++ out2).

Definition gets {A : Type} (f : World -> A) : M A := fun w => (f w, w, []).

Definition emit (e : Event) : M unit := fun w => (tt, w, [e]).

Definition modifyStore (f : Store -> Store) : M unit :=
  fun w => (tt, {| prestigeStore := f (prestigeStore w);
                   gameStore := gameStore w |}, []).

Definition modifyGame (f : GameStore -> GameStore) : M unit :=
  fun w => (tt, {| prestigeStore := prestigeStore w;
                   gameStore := f (gameStore w) |}, []).

Local Notation "x <- c1 ;; c2" := (bind c1 (fun x => c2))
  (at level 61, c1 at next level, right associativity).
Local Notation "c1 ;; c2" := (bind c1 (fun _ => c2))
  (at level 61, right associativity).

(** [array.forEach(f)] for an action [f]. *)
Fixpoint forEach {A : Type} (l : list A) (f : A -> M unit) : M unit :=
  match l with
  | [] => ret tt
  | x :: l' => f x ;; forEach l' f
  end.

(** A [while] loop, unrolled at most [fuel] times: [None] when the loop is
    still running after that. *)
Fixpoint while (fuel : nat) (cond : World -> bool) (body : M unit)
               (w : World) : option (unit * World * list Event) :=
  if cond w then
    match fuel with
    | O => None
    | S fuel' =>
      let '(_, w1, out1) := body w in
      match while fuel' cond body w1 with
      | Some (_, w2, out2) => Some (tt, w2, out1 ++ out2)
      | None => None
      end
    end
  else Some (tt, w, []).

(** *** Getters *)

Definition upgradePurchased (upgradeId : string) (p : Store) : bool :=
  existsb (fun i => i =? upgradeId) (purchasedUpgrades p).

Definition amountOfUpgrade (upgradeId : string) (p : Store) : nat :=
  List.length (filter (fun i => i =? upgradeId) (purchasedUpgrades p)).

(** [this.prestigeShop.find(u => u.id === upgradeId)]. *)
Definition findUpgrade (upgradeId : string) (w : World)
  : option PrestigeShopItem :=
  find (fun u => id u =? upgradeId) (prestigeShop (prestigeStore w)).

(** A write to the object [find] returned: the first item of the shop with
    that id is the one that changes. *)
Fixpoint updateFound (upgradeId : string)
                     (f : PrestigeShopItem -> PrestigeShopItem)
                     (shop : list PrestigeShopItem)
  : list PrestigeShopItem :=
  match shop with
  | [] => []
  | u :: shop' =>
    if id u =? upgradeId then f u :: shop'
    else u :: updateFound upgradeId f shop'
  end.

Definition modifyUpgrade (upgradeId : string)
                         (f : PrestigeShopItem -> PrestigeShopItem)
  : M unit :=
  modifyStore
    (fun p => set_prestigeShop (updateFound upgradeId f (prestigeShop p)) p).

(** *** Prestige points *)

Definition calculatePrestigePointsFor (currentResources baseThreshold : Q)
                                      (prestigeCount : Z) (scaling : bool)
  : Z :=
  (* Adjust scaling factor for prestige thresholds *)
  let scalingFactor := (1 + inject_Z prestigeCount * 0.2)%Q in
  let scalingFactor :=
    if (prestigeCount <? 5)%Z || negb scaling then 1%Q else scalingFactor in
  let threshold := (baseThreshold * scalingFactor)%Q in
  (* Ensure resources are above the threshold to earn prestige points *)
  if JS.lt currentResources threshold then 0
  else if (prestigeCount <=? 5)%Z || negb scaling then
    Qfloor (currentResources / threshold) + 1
  else
    (* Use a hybrid scaling system for subsequent prestiges *)
    let prestigePoints :=
      Qfloor ((currentResources / threshold)
              * (1 + inject_Z prestigeCount * 0.05))%Q in
    (* Ensure points do not drop below 0 *)
    if (prestigePoints >? 0)%Z then prestigePoints else 0.

Definition calculatePrestigePoints (w : World) : Z :=
  let ants := ants (resources (gameStore w)) in
  let queens := queens (resources (gameStore w)) in
  let antPoints :=
    calculatePrestigePointsFor ants (baseAntThreshold (prestigeStore w))
                               (timesPrestiged (prestigeStore w)) true in
  let queenPoints :=
    calculatePrestigePointsFor queens (baseQueenThreshold (prestigeStore w))
                               (timesPrestiged (prestigeStore w)) false in
  antPoints + queenPoints.

(** *** Applying upgrades *)

(** The object map [upgrades] of [applyPrestigeUpgrade]: the routine kept
    under a key, if there is one.  [setupAdventureStats] writes only the
    army statistics of the adventure store, which is not part of this
    model; keys that an object inherits ([toString] and the like) are not
    used as upgrade ids. *)
Definition upgrades (upgradeId : string) : option (M unit) :=
  if upgradeId =? "storageUpgrade" then Some (
    modifyGame (fun g => set_storage
      (set_maxSeeds (maxSeeds (storage g) * 1.2)%Q (storage g)) g) ;;
    modifyGame (fun g => set_storage
      (set_maxLarvae (maxLarvae (storage g) * 1.2)%Q (storage g)) g) ;;
    modifyGame (fun g => set_storage
      (set_maxAnts (maxAnts (storage g) * 2)%Q (storage g)) g) ;;
    modifyGame (fun g => set_storage
      (set_maxQueens (maxQueens (storage g) + 1)%Q (storage g)) g))
  else if upgradeId =? "eliteAntsStoreUpgrade" then Some (
    modifyGame (fun g => set_storage
      (set_maxEliteAnts (maxEliteAnts (storage g) + 1)%Q (storage g)) g))
  else if upgradeId =? "productionBoost" then Some (
    modifyGame (fun g => set_productionRates
      (set_larvaeProductionRate
         (larvaeProductionRate (productionRates g) * 1.2)%Q
         (productionRates g)) g) ;;
    modifyGame (fun g => set_productionRates
      (set_collectionRatePerAnt
         (collectionRatePerAnt (productionRates g) * 1.2)%Q
         (productionRates g)) g))
  else if upgradeId =? "queenEfficiency" then Some (
    modifyGame (fun g => set_productionRates
      (set_larvaeProductionRate
         (larvaeProductionRate (productionRates g) * 1.5)%Q
         (productionRates g)) g))
  else if upgradeId =? "autoLarvae" then Some (
    modifyStore (set_autoLarvaeCreation true))
  else if upgradeId =? "autoEliteAntsCreation" then Some (
    modifyStore (set_autoEliteAntsCreation true))
  else if upgradeId =? "betterAnts" then Some (
    modifyGame (fun g => set_attackPerAnt (attackPerAnt g * 1.1)%Q g))
  else if upgradeId =? "betterAntsDefense" then Some (
    modifyGame (fun g => set_defensePerAnt (defensePerAnt g * 1.1)%Q g))
  else if upgradeId =? "autoAnts" then Some (
    modifyStore (set_autoAntCreation true))
  else if upgradeId =? "autoQueens" then Some (
    modifyStore (set_autoQueenCreation true))
  else if upgradeId =? "autoSeedStorageUpgrade" then Some (
    modifyStore (set_autoSeedStorageUpgrade true))
  else if upgradeId =? "startWithAnts" then Some (
    modifyGame (fun g => set_resources
      (set_ants (ants (resources g) + 1)%Q (resources g)) g) ;;
    modifyStore (fun p =>
      set_antsFromPrestigeShop (antsFromPrestigeShop p + 1) p))
  else if upgradeId =? "eliteAnts" then Some (
    modifyGame (set_eliteAntsUnlocked true))
  else if upgradeId =? "royalJelly" then Some (
    modifyGame (set_royalJellyUnlocked true))
  else None.

(** Execute the appropriate upgrade or log an error if the upgrade ID is
    invalid. *)
Definition executeUpgrade (upgradeId : string) : M unit :=
  match upgrades upgradeId with
  | Some routine => routine
  | None => emit (LogInvalidUpgradeId upgradeId)
  end.

(** [prestigeInShop?.applyOnPrestige === false]. *)
Definition applyOnPrestigeIsFalse (prestigeInShop : option PrestigeShopItem)
  : bool :=
  match prestigeInShop with
  | Some u =>
    match applyOnPrestige u with
    | Some false => true
    | _ => false
    end
  | None => false
  end.

(** Apply a purchased upgrade. *)
Definition applyPrestigeUpgrade (upgradeId : string) (fromPrestige : bool)
  : M unit :=
  emit (LogTryToApplyUpgrade upgradeId fromPrestige) ;;
  prestigeInShop <- gets (findUpgrade upgradeId) ;;
  emit (LogPrestigeInShop (option_map id prestigeInShop)) ;;
  if fromPrestige && applyOnPrestigeIsFalse prestigeInShop then
    emit (LogUpgradeNotApplicable upgradeId)
  else
    emit (LogApplyingUpgrade upgradeId) ;;
    executeUpgrade upgradeId.

(** Apply purchased upgrades to the game. *)
Definition applyPrestigeUpgrades (fromPrestige : bool) : M unit :=
  purchased <- gets (fun w => purchasedUpgrades (prestigeStore w)) ;;
  forEach purchased (fun upgradeId =>
    applyPrestigeUpgrade upgradeId fromPrestige).

(** *** Buying *)

(** The two assignments [upgrade.cost *= m] and
    [upgrade.cost = Math.floor(upgrade.cost)]. *)
Definition growCost (multiplier : Q) (u : PrestigeShopItem)
  : PrestigeShopItem :=
  set_cost (Qfloor (inject_Z (cost u) * multiplier)) u.

(** Buy an upgrade from the prestige shop. *)
Definition buyUpgrade (upgradeId : string) : M bool :=
  upgrade <- gets (findUpgrade upgradeId) ;;
  points <- gets (fun w => prestigePoints (prestigeStore w)) ;;
  match upgrade with
  | Some upgrade =>
    if (points >=? cost upgrade)%Z then
      modifyStore (fun p =>
        set_prestigePoints (prestigePoints p - cost upgrade) p) ;;
      let defaultCostMultiplier :=
        if id upgrade =? "eliteAntsStoreUpgrade" then 3%Q else 1.5%Q in
      modifyUpgrade upgradeId (growCost defaultCostMultiplier) ;;
      modifyStore (fun p =>
        set_purchasedUpgrades (purchasedUpgrades p ++ [upgradeId]) p) ;;
      applyPrestigeUpgrade upgradeId false ;;
      emit (LogPurchasedUpgrade (name upgrade)) ;;
      ret true
    else
      emit LogNotEnoughPointsOrInvalid ;;
      ret false
  | None =>
    emit LogNotEnoughPointsOrInvalid ;;
    ret false
  end.

(** The test of the loop of [buyMaxUpgrade].  [upgrade] is the object of
    the shop that [find] returned, so its cost is read from the shop as it
    is now. *)
Definition canAfford (upgradeId : string) (w : World) : bool :=
  match findUpgrade upgradeId w with
  | Some upgrade => (prestigePoints (prestigeStore w) >=? cost upgrade)%Z
  | None => false
  end.

(** The body of the loop of [buyMaxUpgrade]. *)
Definition buyMaxStep (upgradeId : string) : M unit :=
  upgrade <- gets (findUpgrade upgradeId) ;;
  match upgrade with
  | Some upgrade =>
    modifyStore (fun p =>
      set_prestigePoints (prestigePoints p - cost upgrade) p) ;;
    modifyStore (fun p =>
      set_purchasedUpgrades (purchasedUpgrades p ++ [upgradeId]) p) ;;
    applyPrestigeUpgrade upgradeId false ;;
    (* Increase the cost for the next purchase *)
    modifyUpgrade upgradeId (growCost 1.5%Q)
  | None => ret tt
  end.

(** Buy max upgrades based on available prestige points. *)
Definition buyMaxUpgrade (fuel : nat) (upgradeId : string) (w : World)
  : option (bool * World * list Event) :=
  match findUpgrade upgradeId w with
  | None => Some (false, w, [LogInvalidUpgrade])
  | Some upgrade =>
    (* Keep buying the upgrade until you can't afford the next one *)
    match while fuel (canAfford upgradeId) (buyMaxStep upgradeId) w with
    | Some (_, w1, out1) =>
      Some (true, w1, out1 ++ [LogPurchasedMax (name upgrade)])
    | None => None
    end
  end.

(** *** Prestige *)




(** *** Saving and loading *)

(** The record [getPrestigeState] returns and [loadPrestigeState] reads. *)
Record SavedState := {
  sv_prestigePoints : option Z;
  sv_timesPrestiged : option Z;
  sv_purchasedUpgrades : option (list string);
  sv_storagePrestigeCost : option Z;
  sv_eliteAntsStoreUpgradeCost : option Z;
  sv_productionPrestigeCost : option Z;
  sv_queenPrestigeCost : option Z;
  sv_betterAntsPrestigeCost : option Z;
  sv_betterAntsDefensePrestigeCost : option Z;
  sv_startWithAntsPrestigeCost : option Z;
  sv_autoLarvaeCreation : option bool;
  sv_autoAntCreation : option bool;
  sv_autoEliteAntsCreation : option bool;
  sv_autoQueenCreation : option bool;
  sv_autoSeedStorageUpgrade : option bool;
  sv_eliteAntsUnlocked : option bool;
  sv_royalJellyUnlocked : option bool;
}.

(** [this.prestigeShop.find(u => u.id === upgradeId)?.cost]. *)
Definition findCost (upgradeId : string) (p : Store) : option Z :=
  option_map cost (find (fun u => id u =? upgradeId) (prestigeShop p)).

Definition getPrestigeState (p : Store) : SavedState := {|
  sv_prestigePoints := Some (prestigePoints p);
  sv_timesPrestiged := Some (timesPrestiged p);
  sv_purchasedUpgrades := Some (purchasedUpgrades p);
  sv_storagePrestigeCost := Some (findCost "storageUpgrade" p ?? 5);
  sv_eliteAntsStoreUpgradeCost :=
    Some (findCost "eliteAntsStoreUpgrade" p ?? 100);
  sv_productionPrestigeCost := Some (findCost "productionBoost" p ?? 10);
  sv_queenPrestigeCost := Some (findCost "queenEfficiency" p ?? 15);
  sv_betterAntsPrestigeCost := Some (findCost "betterAnts" p ?? 50);
  sv_betterAntsDefensePrestigeCost :=
    Some (findCost "betterAntsDefense" p ?? 50);
  sv_startWithAntsPrestigeCost := Some (findCost "startWithAnts" p ?? 15);
  sv_autoLarvaeCreation := Some (autoLarvaeCreation p);
  sv_autoAntCreation := Some (autoAntCreation p);
  sv_autoEliteAntsCreation := Some (autoEliteAntsCreation p);
  sv_autoQueenCreation := Some (autoQueenCreation p);
  sv_autoSeedStorageUpgrade := Some (autoSeedStorageUpgrade p);
  sv_eliteAntsUnlocked := Some (upgradePurchased "eliteAnts" p);
  sv_royalJellyUnlocked := Some (upgradePurchased "royalJelly" p);
|}.

(** Load prestige shop costs: the callback of [this.prestigeShop.forEach]
    in [loadPrestigeState]. *)
Definition loadShopCost (savedState : SavedState) (shop : PrestigeShopItem)
  : PrestigeShopItem :=
  let shop := if id shop =? "storageUpgrade"
              then set_cost (sv_storagePrestigeCost savedState ?? 5) shop
              else shop in
  let shop := if id shop =? "eliteAntsStoreUpgrade"
              then set_cost (sv_eliteAntsStoreUpgradeCost savedState ?? 100)
                            shop
              else shop in
  let shop := if id shop =? "productionBoost"
              then set_cost (sv_productionPrestigeCost savedState ?? 10) shop
              else shop in
  let shop := if id shop =? "queenEfficiency"
              then set_cost (sv_queenPrestigeCost savedState ?? 15) shop
              else shop in
  let shop := if id shop =? "betterAnts"
              then set_cost (sv_betterAntsPrestigeCost savedState ?? 50) shop
              else shop in
  let shop := if id shop =? "betterAntsDefense"
              then set_cost (sv_betterAntsDefensePrestigeCost savedState ?? 50)
                            shop
              else shop in
  if id shop =? "startWithAnts"
  then set_cost (sv_startWithAntsPrestigeCost savedState ?? 15) shop
  else shop.

Definition loadPrestigeState (savedState : SavedState) (p : Store) : Store :=
  let p := set_prestigePoints
             (sv_prestigePoints savedState ?? prestigePoints p) p in
  let p := set_timesPrestiged
             (sv_timesPrestiged savedState ?? timesPrestiged p) p in
  let p := set_purchasedUpgrades
             (sv_purchasedUpgrades savedState ?? purchasedUpgrades p) p in
  let p := set_autoLarvaeCreation
             (sv_autoLarvaeCreation savedState ?? autoLarvaeCreation p) p in
  let p := set_autoAntCreation
             (sv_autoAntCreation savedState ?? autoAntCreation p) p in
  let p := set_autoQueenCreation
             (sv_autoQueenCreation savedState ?? autoQueenCreation p) p in
  let p := set_autoSeedStorageUpgrade
             (sv_autoSeedStorageUpgrade savedState
                ?? autoSeedStorageUpgrade p) p in
  let p := set_autoEliteAntsCreation
             (sv_autoEliteAntsCreation savedState
                ?? autoEliteAntsCreation p) p in
  set_prestigeShop (map (loadShopCost savedState) (prestigeShop p)) p.

(** *** The guards of the prestige page *)

(** [isUpgradeMaxed] of the page that shows the shop: the page offers the
    buy buttons of an upgrade only while this is false.  No shop item has a
    [maxPurchases] property, so the second test of the source is always
    false. *)
Definition isUpgradeMaxed (upgrade : PrestigeShopItem) (p : Store) : bool :=
  match oneTimePurchase upgrade with
  | Some true => upgradePurchased (id upgrade) p
  | _ => false
  end.

(** [isUpgradeUnlocked] of the same page. *)
Definition isUpgradeUnlocked (upgrade : PrestigeShopItem) (p : Store)
  : bool :=
  match unlockedWhen upgrade with
  | None => true
  | Some (WhenUpgradePurchased upgradeId) => upgradePurchased upgradeId p
  | Some (WhenTimesPrestigedAtLeast n) => (timesPrestiged p >=? n)%Z
  end.

(** *** Reading a run *)

(** The world an action leaves and what it sent out. *)
Definition worldOf {A : Type} (r : A * World * list Event) : World :=
  snd (fst r).

Definition valueOf {A : Type} (r : A * World * list Event) : A :=
  fst (fst r).

Definition outputOf {A : Type} (r : A * World * list Event) : list Event :=
  snd r.






(** What [buyUpgrade] has done to the prestige store when it reaches the
    application of the upgrade: the cost is paid, the cost of the item has
    grown and the id is in the purchase history. *)
Definition paidFor (upgrade : PrestigeShopItem) (multiplier : Q) (w : World)
  : World :=
  {| prestigeStore :=
       set_purchasedUpgrades
         (purchasedUpgrades (prestigeStore w) ++ [id upgrade])
         (set_prestigeShop
            (updateFound (id upgrade) (growCost multiplier)
                         (prestigeShop (prestigeStore w)))
            (set_prestigePoints
               (prestigePoints (prestigeStore w) - cost upgrade)
               (prestigeStore w)));
     gameStore := gameStore w |}.

(** Calling [buyUpgrade] again and again until it returns [false], at most
    [fuel] times; the number of purchases made is returned with the
    world. *)
Fixpoint buyRepeatedly (fuel : nat) (upgradeId : string) (w : World)
  : option (nat * World) :=
  match fuel with
  | O => None
  | S fuel' =>
    let '(bought, w1, _) := buyUpgrade upgradeId w in
    if bought then
      match buyRepeatedly fuel' upgradeId w1 with
      | Some (n, w2) => Some (S n, w2)
      | None => None
      end
    else Some (O, w1)
  end.

(** A game store to run examples on. *)
Definition exampleGame : GameStore := {|
  userId := Some "player";
  resources := {| ants := 60; queens := 1 |};
  storage := {| maxSeeds := 1000; maxLarvae := 10; maxAnts := 100;
                maxQueens := 2; maxEliteAnts := 1 |};
  productionRates := {| larvaeProductionRate := 1;
                        collectionRatePerAnt := 60 |};
  attackPerAnt := 2;
  defensePerAnt := 1;
  eliteAntsUnlocked := false;
  royalJellyUnlocked := false;
|}.


(** A saved record of the prestige store that has no field at all. *)
Definition emptySave : SavedState := {|
  sv_prestigePoints := None;
  sv_timesPrestiged := None;
  sv_purchasedUpgrades := None;
  sv_storagePrestigeCost := None;
  sv_eliteAntsStoreUpgradeCost := None;
  sv_productionPrestigeCost := None;
  sv_queenPrestigeCost := None;
  sv_betterAntsPrestigeCost := None;
  sv_betterAntsDefensePrestigeCost := None;
  sv_startWithAntsPrestigeCost := None;
  sv_autoLarvaeCreation := None;
  sv_autoAntCreation := None;
  sv_autoEliteAntsCreation := None;
  sv_autoQueenCreation := None;
  sv_autoSeedStorageUpgrade := None;
  sv_eliteAntsUnlocked := None;
  sv_royalJellyUnlocked := None;
|}.

(** The initial prestige store with a balance and a purchase history. *)
Definition exampleWorld (points : Z) (purchased : list string) : World :=
  {| prestigeStore :=
       set_purchasedUpgrades purchased
         (set_prestigePoints points initialStore);
     gameStore := exampleGame |}.

(** The balances up to which the whole numbers of this model are what the
    doubles of the code hold, 2^51: a cost that is paid is at most the
    balance, so the balance left is a whole number up to 2^51, and the cost
    grown by 1.5 is below 2^52 and a whole number or a half, all of which
    are doubles. *)
Definition maxExactBalance : Z := 2 ^ 51.

(** *** Resetting the costs *)

(** The callback of [this.prestigeShop.forEach] in
    [resetPrestigeShopCosts]. *)
Definition resetShopCost (shop : PrestigeShopItem) : PrestigeShopItem :=
  let shop := if id shop =? "storageUpgrade" then set_cost 5 shop else shop in
  let shop := if id shop =? "eliteAntsStoreUpgrade"
              then set_cost 100 shop else shop in
  let shop := if id shop =? "productionBoost" then set_cost 10 shop else shop in
  let shop := if id shop =? "queenEfficiency" then set_cost 15 shop else shop in
  let shop := if id shop =? "autoLarvae" then set_cost 10 shop else shop in
  let shop := if id shop =? "betterAnts" then set_cost 50 shop else shop in
  let shop := if id shop =? "betterAntsDefense"
              then set_cost 50 shop else shop in
  let shop := if id shop =? "autoAnts" then set_cost 20 shop else shop in
  let shop := if id shop =? "autoQueens" then set_cost 20 shop else shop in
  let shop := if id shop =? "startWithAnts" then set_cost 15 shop else shop in
  let shop := if id shop =? "eliteAnts" then set_cost 500 shop else shop in
  let shop := if id shop =? "autoSeedStorageUpgrade"
              then set_cost 10 shop else shop in
  let shop := if id shop =? "autoEliteAntsCreation"
              then set_cost 100 shop else shop in
  if id shop =? "royalJelly" then set_cost 1000 shop else shop.

Definition resetPrestigeShopCosts (p : Store) : Store :=
  set_prestigeShop (map resetShopCost (prestigeShop p)) p.

(** The ids whose costs [getPrestigeState] writes and [loadPrestigeState]
    reads. *)
Definition savedCostIds : list string :=
  ["storageUpgrade"; "eliteAntsStoreUpgrade"; "productionBoost";
   "queenEfficiency"; "betterAnts"; "betterAntsDefense"; "startWithAnts"].

(** A shop item without its cost: what a purchase never changes. *)
Definition withoutCost (u : PrestigeShopItem) : PrestigeShopItem :=
  set_cost 0 u.

End PrestigeStore.

(** ** The achievement store *)

Module AchievementStore.

Local Open Scope Q_scope.
Local Open Scope string_scope.
Local Open Scope list_scope.

(** What the unlock conditions read from the resources, adventure and
    prestige stores. *)
Record Snapshot := {
  seeds : Q;
  larvae : Q;
  ants : Q;
  queens : Q;
  enemyKillCount : Q;
  timesPrestiged : Q;
}.

(** [interface Achievement] (the description text is left out). *)
Record Achievement := {
  id : string;
  name : string;
  isUnlocked : bool;
  unlockCondition : Snapshot -> bool;
}.

Definition set_isUnlocked (v : bool) (a : Achievement) : Achievement :=
  {| id := id a; name := name a; isUnlocked := v;
     unlockCondition := unlockCondition a |}.

(** The achievements the store is created with. *)
Definition initialAchievements : list Achievement :=
  [
    {| id := "first_100_seeds"; name := "Seed Collector";
       isUnlocked := false;
       unlockCondition := fun s => JS.ge (seeds s) 100 |};
    {| id := "first_1000_seeds"; name := "Seed Hoarder";
       isUnlocked := false;
       unlockCondition := fun s => JS.ge (seeds s) 1000 |};
    {| id := "first_10000_seeds"; name := "Seed Master";
       isUnlocked := false;
       unlockCondition := fun s => JS.ge (seeds s) 10000 |};
    {| id := "first_100000_seeds"; name := "Seed Tycoon";
       isUnlocked := false;
       unlockCondition := fun s => JS.ge (seeds s) 100000 |};
    {| id := "first_1_million_seeds"; name := "Seed Millionaire";
       isUnlocked := false;
       unlockCondition := fun s => JS.ge (seeds s) 1000000 |};
    {| id := "first_10_million_seeds"; name := "Seed Multimillionaire";
       isUnlocked := false;
       unlockCondition := fun s => JS.ge (seeds s) 10000000 |};
    {| id := "first_100_million_seeds"; name := "Seed Billionaire";
       isUnlocked := false;
       unlockCondition := fun s => JS.ge (seeds s) 100000000 |};
    {| id := "first_1_billion_seeds"; name := "Seed Titan";
       isUnlocked := false;
       unlockCondition := fun s => JS.ge (seeds s) 1000000000 |};
    {| id := "first_10_billion_seeds"; name := "Seed Overlord";
       isUnlocked := false;
       unlockCondition := fun s => JS.ge (seeds s) 10000000000 |};
    {| id := "first_100_billion_seeds"; name := "Seed Magnate";
       isUnlocked := false;
       unlockCondition := fun s => JS.ge (seeds s) 100000000000 |};
    {| id := "first_1_trillion_seeds"; name := "Seed Emperor";
       isUnlocked := false;
       unlockCondition := fun s => JS.ge (seeds s) 1000000000000 |};
    {| id := "first_10_trillion_seeds"; name := "Seed God";
       isUnlocked := false;
       unlockCondition := fun s => JS.ge (seeds s) 10000000000000 |};
    {| id := "first_100_trillion_seeds"; name := "Seed Deity";
       isUnlocked := false;
       unlockCondition := fun s => JS.ge (seeds s) 100000000000000 |};
    {| id := "first_1_quadrillion_seeds"; name := "Seed Eternal";
       isUnlocked := false;
       unlockCondition := fun s => JS.ge (seeds s) 1000000000000000 |};
    {| id := "first_50_ants"; name := "Ant Keeper";
       isUnlocked := false;
       unlockCondition := fun s => JS.ge (ants s) 50 |};
    {| id := "first_500_ants"; name := "Ant Commander";
       isUnlocked := false;
       unlockCondition := fun s => JS.ge (ants s) 500 |};
    {| id := "first_5000_ants"; name := "Ant General";
       isUnlocked := false;
       unlockCondition := fun s => JS.ge (ants s) 5000 |};
    {| id := "first_50000_ants"; name := "Ant Warlord";
       isUnlocked := false;
       unlockCondition := fun s => JS.ge (ants s) 50000 |};
    {| id := "first_500000_ants"; name := "Ant King";
       isUnlocked := false;
       unlockCondition := fun s => JS.ge (ants s) 500000 |};
    {| id := "first_5_million_ants"; name := "Ant Emperor";
       isUnlocked := false;
       unlockCondition := fun s => JS.ge (ants s) 5000000 |};
    {| id := "first_50_million_ants"; name := "Ant Overlord";
       isUnlocked := false;
       unlockCondition := fun s => JS.ge (ants s) 50000000 |};
    {| id := "first_500_million_ants"; name := "Ant God";
       isUnlocked := false;
       unlockCondition := fun s => JS.ge (ants s) 500000000 |};
    {| id := "first_5_billion_ants"; name := "Ant Supreme";
       isUnlocked := false;
       unlockCondition := fun s => JS.ge (ants s) 5000000000 |};
    {| id := "first_50_billion_ants"; name := "Ant Titan";
       isUnlocked := false;
       unlockCondition := fun s => JS.ge (ants s) 50000000000 |};
    {| id := "first_500_billion_ants"; name := "Ant Immortal";
       isUnlocked := false;
       unlockCondition := fun s => JS.ge (ants s) 500000000000 |};
    {| id := "first_5_trillion_ants"; name := "Ant Deity";
       isUnlocked := false;
       unlockCondition := fun s => JS.ge (ants s) 5000000000000 |};
    {| id := "first_50_trillion_ants"; name := "Ant Eternal";
       isUnlocked := false;
       unlockCondition := fun s => JS.ge (ants s) 50000000000000 |};
    {| id := "first_500_trillion_ants"; name := "Ant Infinity";
       isUnlocked := false;
       unlockCondition := fun s => JS.ge (ants s) 500000000000000 |};
    {| id := "first_5_quadrillion_ants"; name := "Ant Omnipotent";
       isUnlocked := false;
       unlockCondition := fun s => JS.ge (ants s) 5000000000000000 |};
    {| id := "first_50_quadrillion_ants"; name := "Ant Eternal";
       isUnlocked := false;
       unlockCondition := fun s => JS.ge (ants s) 50000000000000000 |};
    {| id := "first_500_quadrillion_ants"; name := "Ant Universal";
       isUnlocked := false;
       unlockCondition := fun s => JS.ge (ants s) 500000000000000000 |};
    {| id := "create_1_queen"; name := "Royalty Raiser";
       isUnlocked := false;
       unlockCondition := fun s => JS.ge (queens s) 1 |};
    {| id := "create_5_queens"; name := "Queen Caretaker";
       isUnlocked := false;
       unlockCondition := fun s => JS.ge (queens s) 5 |};
    {| id := "create_10_queens"; name := "Queen Commander";
       isUnlocked := false;
       unlockCondition := fun s => JS.ge (queens s) 10 |};
    {| id := "create_25_queens"; name := "Royal Overseer";
       isUnlocked := false;
       unlockCondition := fun s => JS.ge (queens s) 25 |};
    {| id := "create_50_queens"; name := "Queen Warden";
       isUnlocked := false;
       unlockCondition := fun s => JS.ge (queens s) 50 |};
    {| id := "create_100_queens"; name := "Queen Regent";
       isUnlocked := false;
       unlockCondition := fun s => JS.ge (queens s) 100 |};
    {| id := "create_250_queens"; name := "Royal Monarch";
       isUnlocked := false;
       unlockCondition := fun s => JS.ge (queens s) 250 |};
    {| id := "create_500_queens"; name := "Queen Sovereign";
       isUnlocked := false;
       unlockCondition := fun s => JS.ge (queens s) 500 |};
    {| id := "create_1000_queens"; name := "Queen Empress";
       isUnlocked := false;
       unlockCondition := fun s => JS.ge (queens s) 1000 |};
    {| id := "create_5000_queens"; name := "Queen Supreme";
       isUnlocked := false;
       unlockCondition := fun s => JS.ge (queens s) 5000 |};
    {| id := "create_10000_queens"; name := "Queen Eternal";
       isUnlocked := false;
       unlockCondition := fun s => JS.ge (queens s) 10000 |};
    {| id := "create_50000_queens"; name := "Queen Infinite";
       isUnlocked := false;
       unlockCondition := fun s => JS.ge (queens s) 50000 |};
    {| id := "first_10_larvae"; name := "Larvae Amateur";
       isUnlocked := false;
       unlockCondition := fun s => JS.ge (larvae s) 10 |};
    {| id := "first_100_larvae"; name := "Larvae Producer";
       isUnlocked := false;
       unlockCondition := fun s => JS.ge (larvae s) 100 |};
    {| id := "produce_1000_larvae"; name := "Larvae Breeder";
       isUnlocked := false;
       unlockCondition := fun s => JS.ge (larvae s) 1000 |};
    {| id := "produce_10000_larvae"; name := "Larvae Master";
       isUnlocked := false;
       unlockCondition := fun s => JS.ge (larvae s) 10000 |};
    {| id := "produce_100000_larvae"; name := "Larvae Lord";
       isUnlocked := false;
       unlockCondition := fun s => JS.ge (larvae s) 100000 |};
    {| id := "produce_1_million_larvae"; name := "Larvae Magnate";
       isUnlocked := false;
       unlockCondition := fun s => JS.ge (larvae s) 1000000 |};
    {| id := "produce_10_million_larvae"; name := "Larvae Emperor";
       isUnlocked := false;
       unlockCondition := fun s => JS.ge (larvae s) 10000000 |};
    {| id := "produce_100_million_larvae"; name := "Larvae Overlord";
       isUnlocked := false;
       unlockCondition := fun s => JS.ge (larvae s) 100000000 |};
    {| id := "produce_1_billion_larvae"; name := "Larvae Titan";
       isUnlocked := false;
       unlockCondition := fun s => JS.ge (larvae s) 1000000000 |};
    {| id := "produce_10_billion_larvae"; name := "Larvae God";
       isUnlocked := false;
       unlockCondition := fun s => JS.ge (larvae s) 10000000000 |};
    {| id := "produce_100_billion_larvae"; name := "Larvae Eternal";
       isUnlocked := false;
       unlockCondition := fun s => JS.ge (larvae s) 100000000000 |};
    {| id := "produce_1_trillion_larvae"; name := "Larvae Infinite";
       isUnlocked := false;
       unlockCondition := fun s => JS.ge (larvae s) 1000000000000 |};
    {| id := "produce_10_trillion_larvae"; name := "Larvae Deity";
       isUnlocked := false;
       unlockCondition := fun s => JS.ge (larvae s) 10000000000000 |};
    {| id := "produce_100_trillion_larvae"; name := "Larvae Supreme";
       isUnlocked := false;
       unlockCondition := fun s => JS.ge (larvae s) 100000000000000 |};
    {| id := "produce_1_quadrillion_larvae"; name := "Larvae Omnipotent";
       isUnlocked := false;
       unlockCondition := fun s => JS.ge (larvae s) 1000000000000000 |};
    {| id := "produce_10_quadrillion_larvae"; name := "Larvae Universal";
       isUnlocked := false;
       unlockCondition := fun s => JS.ge (larvae s) 10000000000000000 |};
    {| id := "defeat_10_enemies"; name := "Bug Hunter";
       isUnlocked := false;
       unlockCondition := fun s => JS.ge (enemyKillCount s) 10 |};
    {| id := "defeat_100_enemies"; name := "Bug Slayer";
       isUnlocked := false;
       unlockCondition := fun s => JS.ge (enemyKillCount s) 100 |};
    {| id := "defeat_1000_enemies"; name := "Bug Exterminator";
       isUnlocked := false;
       unlockCondition := fun s => JS.ge (enemyKillCount s) 1000 |};
    {| id := "defeat_10000_enemies"; name := "Insect Annihilator";
       isUnlocked := false;
       unlockCondition := fun s => JS.ge (enemyKillCount s) 10000 |};
    {| id := "defeat_100000_enemies"; name := "Insect Overlord";
       isUnlocked := false;
       unlockCondition := fun s => JS.ge (enemyKillCount s) 100000 |};
    {| id := "defeat_1_million_enemies"; name := "Insect Master";
       isUnlocked := false;
       unlockCondition := fun s => JS.ge (enemyKillCount s) 1000000 |};
    {| id := "defeat_10_million_enemies"; name := "Beast Hunter";
       isUnlocked := false;
       unlockCondition := fun s => JS.ge (enemyKillCount s) 10000000 |};
    {| id := "defeat_100_million_enemies"; name := "Beast Slayer";
       isUnlocked := false;
       unlockCondition := fun s => JS.ge (enemyKillCount s) 100000000 |};
    {| id := "defeat_1_billion_enemies"; name := "Monster Exterminator";
       isUnlocked := false;
       unlockCondition := fun s => JS.ge (enemyKillCount s) 1000000000 |};
    {| id := "defeat_10_billion_enemies"; name := "Beast Lord";
       isUnlocked := false;
       unlockCondition := fun s => JS.ge (enemyKillCount s) 10000000000 |};
    {| id := "defeat_100_billion_enemies"; name := "Beast God";
       isUnlocked := false;
       unlockCondition := fun s => JS.ge (enemyKillCount s) 100000000000 |};
    {| id := "defeat_1_trillion_enemies"; name := "Beast Emperor";
       isUnlocked := false;
       unlockCondition := fun s => JS.ge (enemyKillCount s) 1000000000000 |};
    {| id := "defeat_10_trillion_enemies"; name := "Beast Supreme";
       isUnlocked := false;
       unlockCondition := fun s => JS.ge (enemyKillCount s) 10000000000000 |};
    {| id := "defeat_100_trillion_enemies"; name := "Beast Eternal";
       isUnlocked := false;
       unlockCondition := fun s => JS.ge (enemyKillCount s) 100000000000000 |};
    {| id := "defeat_1_quadrillion_enemies"; name := "Beast Infinite";
       isUnlocked := false;
       unlockCondition := fun s => JS.ge (enemyKillCount s) 1000000000000000 |};
    {| id := "prestige_once"; name := "First Prestige";
       isUnlocked := false;
       unlockCondition := fun s => JS.ge (timesPrestiged s) 1 |};
    {| id := "prestige_10_times"; name := "Prestige Enthusiast";
       isUnlocked := false;
       unlockCondition := fun s => JS.ge (timesPrestiged s) 10 |};
    {| id := "prestige_50_times"; name := "Prestige Expert";
       isUnlocked := false;
       unlockCondition := fun s => JS.ge (timesPrestiged s) 50 |};
    {| id := "prestige_100_times"; name := "Prestige Master";
       isUnlocked := false;
       unlockCondition := fun s => JS.ge (timesPrestiged s) 100 |};
    {| id := "prestige_500_times"; name := "Prestige Overlord";
       isUnlocked := false;
       unlockCondition := fun s => JS.ge (timesPrestiged s) 500 |};
    {| id := "prestige_1000_times"; name := "Prestige Lord";
       isUnlocked := false;
       unlockCondition := fun s => JS.ge (timesPrestiged s) 1000 |};
    {| id := "prestige_5000_times"; name := "Prestige King";
       isUnlocked := false;
       unlockCondition := fun s => JS.ge (timesPrestiged s) 5000 |};
    {| id := "prestige_10_000_times"; name := "Prestige Emperor";
       isUnlocked := false;
       unlockCondition := fun s => JS.ge (timesPrestiged s) 10000 |};
    {| id := "prestige_50_000_times"; name := "Prestige God";
       isUnlocked := false;
       unlockCondition := fun s => JS.ge (timesPrestiged s) 50000 |};
    {| id := "prestige_100_000_times"; name := "Prestige Infinite";
       isUnlocked := false;
       unlockCondition := fun s => JS.ge (timesPrestiged s) 100000 |} ].

(** A toast: [$toast.info(message, {duration: 5000, position:
    'top-right'})]. *)
Inductive Toast := ToastInfo (message : string).

(** The callback of [this.achievements.forEach] in [checkAchievements]:
    the achievement as it is left and the toasts shown for it. *)
Definition checkAchievement (s : Snapshot) (achievement : Achievement)
  : Achievement * list Toast :=
  if negb (isUnlocked achievement) && unlockCondition achievement s then
    (set_isUnlocked true achievement,
     [ToastInfo ("Achievement Unlocked: " ++ name achievement)])
  else (achievement, []).

Fixpoint checkAchievements (s : Snapshot) (achievements : list Achievement)
  : list Achievement * list Toast :=
  match achievements with
  | [] => ([], [])
  | achievement :: rest =>
    let (achievement', toasts) := checkAchievement s achievement in
    let (rest', toasts') := checkAchievements s rest in
    (achievement' :: rest', toasts ++ toasts')
  end.

(** An entry of the saved record. *)
Record SavedAchievement := {
  sv_id : string;
  sv_isUnlocked : bool;
}.

(** The saved record; [loadAchievementState] reads it with [?.], so the
    record and its list may both be missing. *)
Record SavedState := {
  sv_achievements : option (list SavedAchievement);
}.

Definition getAchievementState (achievements : list Achievement)
  : SavedState :=
  {| sv_achievements :=
       Some (filter (fun achievement => sv_isUnlocked achievement)
               (map (fun achievement =>
                       {| sv_id := id achievement;
                          sv_isUnlocked := isUnlocked achievement |})
                    achievements)) |}.

(** [state?.achievements?.find((saved) => saved.id === achievement.id)]. *)
Definition findSaved (state : option SavedState) (achievement : Achievement)
  : option SavedAchievement :=
  match state with
  | Some state =>
    match sv_achievements state with
    | Some saved => find (fun saved => sv_id saved =? id achievement) saved
    | None => None
    end
  | None => None
  end.

Definition loadAchievementState (state : option SavedState)
                                (achievements : list Achievement)
  : list Achievement :=
  map (fun achievement =>
         match findSaved state achievement with
         | Some savedAchievement =>
           set_isUnlocked (sv_isUnlocked savedAchievement) achievement
         | None => achievement
         end)
      achievements.

(** *** Sessions *)

(** What happens to the achievements of the store over time: an evaluation
    against the stores as they are, or a load of a record that
    [getAchievementState] produced from some state of the achievements
    (the current one, for an immediate round trip, or an earlier one). *)
Inductive Operation :=
| Check (s : Snapshot)
| LoadSaved (savedFrom : list Achievement).

Definition perform (op : Operation) (achievements : list Achievement)
  : list Achievement :=
  match op with
  | Check s => fst (checkAchievements s achievements)
  | LoadSaved savedFrom =>
    loadAchievementState (Some (getAchievementState savedFrom)) achievements
  end.

Definition run (ops : list Operation) (achievements : list Achievement)
  : list Achievement :=
  fold_left (fun achievements op => perform op achievements) ops
            achievements.

(** [after] is the achievement [before] at a later time, and is unlocked
    if [before] was. *)
Definition latched (before after : Achievement) : Prop :=
  id after = id before /\
  name after = name before /\
  (isUnlocked before = true -> isUnlocked after = true).

(** The toast of an unlock. *)
Definition unlockToast (achievement : Achievement) : Toast :=
  ToastInfo ("Achievement Unlocked: " ++ name achievement).

(** The achievements an evaluation against [s] flips. *)
Definition flips (s : Snapshot) (achievement : Achievement) : bool :=
  negb (isUnlocked achievement) && unlockCondition achievement s.

End AchievementStore.

(** ** JavaScript numbers as IEEE-754 doubles *)

Module Double.

Import Floats.
Local Open Scope float_scope.

(** [x < y], [x <= y], [x > y], [x >= y]: false when an operand is NaN. *)
Definition lt (x y : float) : bool := x <? y.
Definition le (x y : float) : bool := x <=? y.
Definition gt (x y : float) : bool := y <? x.
Definition ge (x y : float) : bool := y <=? x.

(** [Math.floor]: NaN, the infinities and the zeros are returned as they
    are, and so is a number without fractional bits; of any other number
    [m * 2^e] the integer below it, which is less than 2^53 in size and so
    a double. *)
Definition Math_floor (x : float) : float :=
  match Prim2SF x with
  | S754_finite s m e =>
    if (0 <=? e)%Z then x
    else
      let n := (cond_Zopp s (Z.pos m) / 2 ^ (- e))%Z in
      if (n <? 0)%Z then - of_uint63 (Uint63.of_Z (- n))
      else of_uint63 (Uint63.of_Z n)
  | _ => x
  end.

(** [Math.min] on two numbers: NaN when one of them is, and -0 below
    +0. *)
Definition Math_min (x y : float) : float :=
  if is_nan x || is_nan y then nan
  else if x <? y then x
  else if y <? x then y
  else if get_sign x then x else y.

(** [Math.max] on two numbers: NaN when one of them is, and +0 above
    -0. *)
Definition Math_max (x y : float) : float :=
  if is_nan x || is_nan y then nan
  else if x <? y then y
  else if y <? x then x
  else if get_sign x then y else x.

End Double.

(** ** The same actions on IEEE-754 doubles *)

Module Binary64.

(** *** gameStore.ts: offline progress *)

Module GameStore.

Import Floats.
Local Open Scope float_scope.

(** The fields the game loop, [createMaxLarvae] and
    [calculateOfflineProgress] read and write. *)
Record State := {
  larvae : float;
  ants : float;
  seeds : float;
  queens : float;
  lastSavedTime : float;
  maxSeeds : float;
  maxLarvae : float;
  larvaeProductionRate : float;
  collectionRatePerAnt : float;
  seedCostPerLarva : float;
  autoLarvaeCreation : bool;
}.

Definition set_larvae (v : float) (s : State) : State :=
  {| larvae := v; ants := ants s; seeds := seeds s; queens := queens s;
     lastSavedTime := lastSavedTime s; maxSeeds := maxSeeds s;
     maxLarvae := maxLarvae s;
     larvaeProductionRate := larvaeProductionRate s;
     collectionRatePerAnt := collectionRatePerAnt s;
     seedCostPerLarva := seedCostPerLarva s;
     autoLarvaeCreation := autoLarvaeCreation s |}.

Definition set_seeds (v : float) (s : State) : State :=
  {| larvae := larvae s; ants := ants s; seeds := v; queens := queens s;
     lastSavedTime := lastSavedTime s; maxSeeds := maxSeeds s;
     maxLarvae := maxLarvae s;
     larvaeProductionRate := larvaeProductionRate s;
     collectionRatePerAnt := collectionRatePerAnt s;
     seedCostPerLarva := seedCostPerLarva s;
     autoLarvaeCreation := autoLarvaeCreation s |}.

Definition set_lastSavedTime (v : float) (s : State) : State :=
  {| larvae := larvae s; ants := ants s; seeds := seeds s; queens := queens s;
     lastSavedTime := v; maxSeeds := maxSeeds s; maxLarvae := maxLarvae s;
     larvaeProductionRate := larvaeProductionRate s;
     collectionRatePerAnt := collectionRatePerAnt s;
     seedCostPerLarva := seedCostPerLarva s;
     autoLarvaeCreation := autoLarvaeCreation s |}.

(** Create max larvae based on available seeds and larvae cap. *)
Definition createMaxLarvae (s : State) : State :=
  let maxLarvaeToCreate :=
    Double.Math_min (Double.Math_floor (seeds s / seedCostPerLarva s))
                    (maxLarvae s - larvae s) in
  if Double.gt maxLarvaeToCreate 0
  then
    let s := set_larvae (larvae s + maxLarvaeToCreate) s in
    set_seeds (seeds s - maxLarvaeToCreate * seedCostPerLarva s) s
  else s.

(** The callback that [startGameLoop] hands to [setInterval]: one tick of
    the game loop. *)
Definition gameLoopTick (s : State) : State :=
  let s := set_larvae
             (Double.Math_min
                (larvae s + larvaeProductionRate s * queens s / 60)
                (maxLarvae s)) s in
  let s := set_seeds
             (Double.Math_min
                (seeds s + (collectionRatePerAnt s * ants s) / 60)
                (maxSeeds s)) s in
  if autoLarvaeCreation s then createMaxLarvae s else s.

(** Calculate offline progress based on elapsed time and respect caps.
    [currentTime] is the [Date.now()] read by the call; the two amounts
    granted are named as in the source. *)
Definition timeElapsed (currentTime : float) (s : State) : float :=
  (currentTime - lastSavedTime s) / 60000.

Definition larvaeProduced (currentTime : float) (s : State) : float :=
  Double.Math_min
    (Double.Math_floor
       (timeElapsed currentTime s * larvaeProductionRate s * queens s))
    (maxLarvae s - larvae s).

Definition seedsCollected (currentTime : float) (s : State) : float :=
  Double.Math_min
    (Double.Math_floor
       (timeElapsed currentTime s * collectionRatePerAnt s * ants s))
    (maxSeeds s - seeds s).

Definition calculateOfflineProgress (currentTime : float) (s : State)
  : State :=
  let larvaeProduced := larvaeProduced currentTime s in
  let seedsCollected := seedsCollected currentTime s in
  let s := set_larvae (larvae s + larvaeProduced) s in
  let s := set_seeds (seeds s + seedsCollected) s in
  set_lastSavedTime currentTime s.

(** The store as it is created, with its last save at time 0.  It is the
    store of Scenario D of the specification: one queen, no larvae, room
    for ten, one larva per queen and minute. *)
Definition initialState : State := {|
  larvae := 0; ants := 0; seeds := 10; queens := 1;
  lastSavedTime := 0; maxSeeds := 1000; maxLarvae := 10;
  larvaeProductionRate := 1; collectionRatePerAnt := 60;
  seedCostPerLarva := 100; autoLarvaeCreation := false;
|}.

(** The same store with one ant. *)
Definition oneAnt : State := {|
  larvae := 0; ants := 1; seeds := 10; queens := 1;
  lastSavedTime := 0; maxSeeds := 1000; maxLarvae := 10;
  larvaeProductionRate := 1; collectionRatePerAnt := 60;
  seedCostPerLarva := 100; autoLarvaeCreation := false;
|}.

(** The store after [applyPrestigeUpgrade] ran for three storage upgrades
    (each [maxSeeds *= 1.2] and [maxLarvae *= 1.2]) and for one
    [queenEfficiency] ([larvaeProductionRate *= 1.5]). *)
Definition upgraded : State := {|
  larvae := 0; ants := 0; seeds := 10; queens := 1;
  lastSavedTime := 0;
  maxSeeds := 1000 * 1.2 * 1.2 * 1.2; maxLarvae := 10 * 1.2 * 1.2 * 1.2;
  larvaeProductionRate := 1 * 1.5; collectionRatePerAnt := 60;
  seedCostPerLarva := 100; autoLarvaeCreation := false;
|}.

(** [upgraded] after 49 ticks of the game loop. *)
Definition afterUpgrades : State := Nat.iter 49 gameLoopTick upgraded.

End GameStore.

(** *** prestigeStore.ts: prestige points and [buyMaxUpgrade] *)

Module PrestigeStore.

Import Floats.
Local Open Scope float_scope.
Local Open Scope string_scope.
Local Open Scope list_scope.

(** Of an item of the shop, the fields the two actions read and write. *)
Record PrestigeShopItem := {
  id : string;
  name : string;
  cost : float;
}.

Definition set_cost (v : float) (u : PrestigeShopItem) : PrestigeShopItem :=
  {| id := id u; name := name u; cost := v |}.

(** What the two actions read and write: of the game store the ants and
    the queens, of the prestige store the balance, the counter, the purchase
    history, the shop and the two thresholds. *)
Record Store := {
  ants : float;
  queens : float;
  prestigePoints : float;
  timesPrestiged : float;
  purchasedUpgrades : list string;
  prestigeShop : list PrestigeShopItem;
  baseAntThreshold : float;
  baseQueenThreshold : float;
}.

Definition set_prestigePoints (v : float) (p : Store) : Store :=
  {| ants := ants p; queens := queens p; prestigePoints := v;
     timesPrestiged := timesPrestiged p;
     purchasedUpgrades := purchasedUpgrades p; prestigeShop := prestigeShop p;
     baseAntThreshold := baseAntThreshold p;
     baseQueenThreshold := baseQueenThreshold p |}.

Definition set_purchasedUpgrades (v : list string) (p : Store) : Store :=
  {| ants := ants p; queens := queens p; prestigePoints := prestigePoints p;
     timesPrestiged := timesPrestiged p;
     purchasedUpgrades := v; prestigeShop := prestigeShop p;
     baseAntThreshold := baseAntThreshold p;
     baseQueenThreshold := baseQueenThreshold p |}.

Definition set_prestigeShop (v : list PrestigeShopItem) (p : Store) : Store :=
  {| ants := ants p; queens := queens p; prestigePoints := prestigePoints p;
     timesPrestiged := timesPrestiged p;
     purchasedUpgrades := purchasedUpgrades p; prestigeShop := v;
     baseAntThreshold := baseAntThreshold p;
     baseQueenThreshold := baseQueenThreshold p |}.

Definition calculatePrestigePointsFor
    (currentResources baseThreshold prestigeCount : float) (scaling : bool)
  : float :=
  (* Adjust scaling factor for prestige thresholds *)
  let scalingFactor := 1 + prestigeCount * 0.2 in
  let scalingFactor :=
    if Double.lt prestigeCount 5 || negb scaling then 1 else scalingFactor in
  let threshold := baseThreshold * scalingFactor in
  (* Ensure resources are above the threshold to earn prestige points *)
  if Double.lt currentResources threshold then 0
  else if Double.le prestigeCount 5 || negb scaling then
    Double.Math_floor (currentResources / threshold) + 1
  else
    (* Use a hybrid scaling system for subsequent prestiges *)
    let prestigePoints :=
      Double.Math_floor
        ((currentResources / threshold) * (1 + prestigeCount * 0.05)) in
    (* Ensure points do not drop below 0 *)
    if Double.gt prestigePoints 0 then prestigePoints else 0.

Definition calculatePrestigePoints (p : Store) : float :=
  let antPoints :=
    calculatePrestigePointsFor (ants p) (baseAntThreshold p)
                               (timesPrestiged p) true in
  let queenPoints :=
    calculatePrestigePointsFor (queens p) (baseQueenThreshold p)
                               (timesPrestiged p) false in
  antPoints + queenPoints.

(** [this.prestigeShop.find(u => u.id === upgradeId)]. *)
Definition findUpgrade (upgradeId : string) (p : Store)
  : option PrestigeShopItem :=
  find (fun u => id u =? upgradeId) (prestigeShop p).

(** A write to the object [find] returned. *)
Fixpoint updateFound (upgradeId : string)
                     (f : PrestigeShopItem -> PrestigeShopItem)
                     (shop : list PrestigeShopItem)
  : list PrestigeShopItem :=
  match shop with
  | [] => []
  | u :: shop' =>
    if id u =? upgradeId then f u :: shop'
    else u :: updateFound upgradeId f shop'
  end.

(** The two assignments [upgrade.cost *= m] and
    [upgrade.cost = Math.floor(upgrade.cost)]. *)
Definition growCost (multiplier : float) (u : PrestigeShopItem)
  : PrestigeShopItem :=
  set_cost (Double.Math_floor (cost u * multiplier)) u.

(** The test of the loop of [buyMaxUpgrade]. *)
Definition canAfford (upgradeId : string) (p : Store) : bool :=
  match findUpgrade upgradeId p with
  | Some upgrade => Double.ge (prestigePoints p) (cost upgrade)
  | None => false
  end.

(** The body of the loop of [buyMaxUpgrade].  The routine that
    [applyPrestigeUpgrade] runs writes neither the balance nor the shop
    (see [executeUpgrade_ledger]) and is left out here. *)
Definition buyMaxStep (upgradeId : string) (p : Store) : Store :=
  match findUpgrade upgradeId p with
  | Some upgrade =>
    let p := set_prestigePoints (prestigePoints p - cost upgrade) p in
    let p := set_purchasedUpgrades (purchasedUpgrades p ++ [upgradeId]) p in
    (* Increase the cost for the next purchase *)
    set_prestigeShop
      (updateFound upgradeId (growCost 1.5) (prestigeShop p)) p
  | None => p
  end.

(** A [while] loop, unrolled at most [fuel] times: [None] when the loop is
    still running after that. *)
Fixpoint while (fuel : nat) (cond : Store -> bool) (body : Store -> Store)
               (p : Store) : option Store :=
  if cond p then
    match fuel with
    | O => None
    | S fuel' => while fuel' cond body (body p)
    end
  else Some p.

(** Buy max upgrades based on available prestige points. *)
Definition buyMaxUpgrade (fuel : nat) (upgradeId : string) (p : Store)
  : option (bool * Store) :=
  match findUpgrade upgradeId p with
  | None => Some (false, p)
  | Some _ =>
    match while fuel (canAfford upgradeId) (buyMaxStep upgradeId) p with
    | Some p' => Some (true, p')
    | None => None
    end
  end.

(** The prestige store as it is created, with the ants and the queens of
    the game store. *)
Definition initialStore (ants queens : float) : Store := {|
  ants := ants;
  queens := queens;
  prestigePoints := 0;
  timesPrestiged := 0;
  purchasedUpgrades := [];
  prestigeShop :=
    [ {| id := "autoAnts"; name := "Auto Ant Creation"; cost := 20 |};
      {| id := "autoQueens"; name := "Auto Queen Creation"; cost := 20 |};
      {| id := "autoSeedStorageUpgrade"; name := "Auto Seed Storage Upgrade";
         cost := 10 |};
      {| id := "autoEliteAntsCreation"; name := "Auto Elite Ants Creation";
         cost := 100 |};
      {| id := "betterAnts"; name := "Stronger Ants"; cost := 50 |};
      {| id := "betterAntsDefense"; name := "Stronger Ants Defense";
         cost := 50 |};
      {| id := "startWithAnts"; name := "Start with Ants"; cost := 15 |};
      {| id := "eliteAnts"; name := "Elite Ants"; cost := 500 |};
      {| id := "storageUpgrade"; name := "Storage Upgrade"; cost := 5 |};
      {| id := "eliteAntsStoreUpgrade"; name := "Elite Ants Store Upgrade";
         cost := 100 |};
      {| id := "productionBoost"; name := "Production Boost"; cost := 10 |};
      {| id := "queenEfficiency"; name := "Queen Efficiency"; cost := 15 |};
      {| id := "royalJelly"; name := "Royal Jelly"; cost := 1000 |};
      {| id := "tunnels"; name := "Tunnels"; cost := 500 |} ];
  baseAntThreshold := 50;
  baseQueenThreshold := 2;
|}.


End PrestigeStore.

(** *** The prestige-point formula in the words of the specification *)

Module PrestigeFormula.

Import Floats.
Local Open Scope float_scope.

(** Modelled from the spec: [scalingFactor = 1] if [timesPrestiged < 5] (or
    if the resource type opts out of scaling), else
    [1 + timesPrestiged*0.2]. *)
Definition scalingFactor (timesPrestiged : float) (scaling : bool) : float :=
  if Double.lt timesPrestiged 5 || negb scaling then 1
  else 1 + timesPrestiged * 0.2.

(** Modelled from the spec: the value of the last case of a contribution
    before it is held at 0,
    [floor((resource/threshold) * (1 + timesPrestiged*0.05))]. *)
Definition scaledPoints (resource baseThreshold timesPrestiged : float)
                        (scaling : bool) : float :=
  let threshold := baseThreshold * scalingFactor timesPrestiged scaling in
  Double.Math_floor ((resource / threshold) * (1 + timesPrestiged * 0.05)).

(** Modelled from the spec: a contribution is 0 when [resource < threshold],
    [floor(resource/threshold) + 1] when [timesPrestiged <= 5] or scaling is
    disabled, and [max(floor((resource/threshold) * (1 +
    timesPrestiged*0.05)), 0)] otherwise, with
    [threshold = baseThreshold * scalingFactor]. *)
Definition contribution (resource baseThreshold timesPrestiged : float)
                        (scaling : bool) : float :=
  let threshold := baseThreshold * scalingFactor timesPrestiged scaling in
  if Double.lt resource threshold then 0
  else if Double.le timesPrestiged 5 || negb scaling then
    Double.Math_floor (resource / threshold) + 1
  else
    Double.Math_max (scaledPoints resource baseThreshold timesPrestiged
                                  scaling) 0.

End PrestigeFormula.

End Binary64.

(** * Facts *)

(** ** Comparisons, floor and division by a constant *)

Lemma lt_true_iff (x y : Q) : JS.lt x y = true <-> (x < y)%Q.
Proof.
  unfold JS.lt. rewrite negb_true_iff.
  destruct (Qle_bool y x) eqn:E.
  - apply Qle_bool_iff in E. split; [discriminate | intro H].
    exfalso. apply (Qlt_not_le _ _ H E).
  - split; [intros _ | reflexivity].
    apply Qnot_le_lt. intro H. apply Qle_bool_iff in H. congruence.
Qed.

Lemma le_true_iff (x y : Q) : JS.le x y = true <-> (x <= y)%Q.
Proof. apply Qle_bool_iff. Qed.

Lemma ge_true_iff (x y : Q) : JS.ge x y = true <-> (y <= x)%Q.
Proof. apply Qle_bool_iff. Qed.

Lemma gt_true_iff (x y : Q) : JS.gt x y = true <-> (y < x)%Q.
Proof. apply (lt_true_iff y x). Qed.

Lemma Math_floor_le (x : Q) : (JS.Math_floor x <= x)%Q.
Proof. apply Qfloor_le. Qed.

Lemma Math_floor_gt (x : Q) : (x - 1 < JS.Math_floor x)%Q.
Proof.
  unfold JS.Math_floor. pose proof (Qlt_floor x) as H.
  rewrite inject_Z_plus in H. change (inject_Z 1) with 1%Q in H. lra.
Qed.

Lemma Math_floor_nonneg (x : Q) : (0 <= x)%Q -> (0 <= JS.Math_floor x)%Q.
Proof.
  intro H. unfold JS.Math_floor.
  change 0%Q with (inject_Z 0). rewrite <- Zle_Qle.
  change 0%Z with (Qfloor (inject_Z 0)). now apply Qfloor_resp_le.
Qed.

Lemma div_60 (x : Q) : (x / 60 == x * (1 # 60))%Q.
Proof. reflexivity. Qed.

Lemma div_60000 (x : Q) : (x / 60000 == x * (1 # 60000))%Q.
Proof. reflexivity. Qed.

Lemma Math_min_le_l (x y : Q) : (JS.Math_min x y <= x)%Q.
Proof. apply Q.le_min_l. Qed.

Lemma Math_min_le_r (x y : Q) : (JS.Math_min x y <= y)%Q.
Proof. apply Q.le_min_r. Qed.

Lemma Math_min_glb (x y z : Q) :
  (z <= x)%Q -> (z <= y)%Q -> (z <= JS.Math_min x y)%Q.
Proof. apply Q.min_glb. Qed.

(** ** gameStore.ts: the pools and their caps *)

Section GameStoreFacts.

Import GameStore.
Local Open Scope Q_scope.

(** C1 (the code breaks it).  The claim is that every pool stays within
    [0, cap] under every sequence of operations.  From the initial state,
    991 default clicks on the seed button leave 1001 seeds under a cap of
    1000: [collectSeedsManually] adds [amount] without clamping it.  And
    after one tick [createLarvae], which only tests [larvae < maxLarvae],
    takes the larvae from 9 + 1/60 to 10 + 1/60 under a cap of 10. *)
Theorem C1_pools_exceed_their_caps (now : Q) :
  let s := run (repeat (CollectSeedsManually 1) 991) (initialState now) in
  let s' := run larvaeClicks (initialState now) in
  (seeds s == 1001 /\ maxSeeds s == 1000 /\ ~ withinCaps s) /\
  (larvae s' == 10 + (1 # 60) /\ maxLarvae s' == 10 /\ ~ withinCaps s').
Proof.
  split.
  - split; [vm_compute; reflexivity|].
    split; [vm_compute; reflexivity|].
    unfold withinCaps. intros (_ & _ & _ & H). vm_compute in H.
    now apply H.
  - split; [vm_compute; reflexivity|].
    split; [vm_compute; reflexivity|].
    unfold withinCaps. intros (_ & H & _). vm_compute in H.
    now apply H.
Qed.

(** *** What the other operations keep *)

(** Reads the fields of a state written with the setters. *)
Ltac fields :=
  cbn [loaded larvae ants seeds queens lastSavedTime maxSeeds maxLarvae
       initialMaxSeeds initialMaxLarvae seedStorageUpgradeCost
       larvaeStorageUpgradeCost storageUpgradeFactor upgradeCostFactor
       larvaeProductionRate collectionRatePerAnt seedCostPerLarva
       seedCostPerAnt larvaCostPerAnt antCostPerQueen seedCostPerQueen
       prestigePoints purchasedUpgrades prestigeShop autoLarvaeCreation
       attackPerAnt healthPerAnt defensePerAnt
       set_loaded set_larvae set_ants set_seeds set_queens set_lastSavedTime
       set_maxSeeds set_maxLarvae set_seedStorageUpgradeCost
       set_larvaeStorageUpgradeCost set_larvaeProductionRate
       set_collectionRatePerAnt set_prestigePoints set_purchasedUpgrades
       set_prestigeShop set_autoLarvaeCreation set_attackPerAnt
       set_healthPerAnt set_defensePerAnt] in *.

(** Turns the tests of the code into inequalities. *)
Ltac tests :=
  repeat match goal with
         | H : _ && _ = true |- _ => apply andb_prop in H; destruct H
         | H : JS.ge _ _ = true |- _ => apply ge_true_iff in H
         | H : JS.le _ _ = true |- _ => apply le_true_iff in H
         | H : JS.gt _ _ = true |- _ => apply gt_true_iff in H
         | H : JS.lt _ _ = true |- _ => apply lt_true_iff in H
         end.

Ltac open_sound :=
  unfold sound, wellFormed, withinCaps in *;
  repeat match goal with
         | H : _ /\ _ |- _ => destruct H
         end.

Lemma floor_quotient_times (x c : Q) :
  0 < c -> JS.Math_floor (x / c) * c <= x.
Proof.
  intro Hc. pose proof (Math_floor_le (x / c)) as H.
  apply (Qmult_le_compat_r _ _ c) in H; [|lra].
  assert (E : x / c * c == x) by (field; lra).
  lra.
Qed.

Lemma createMaxLarvae_sound (s : State) :
  sound s -> sound (createMaxLarvae s).
Proof.
  intro H. unfold createMaxLarvae.
  set (n := JS.Math_min _ _).
  destruct (JS.gt n 0) eqn:E; [|exact H].
  tests.
  pose proof (Math_min_le_l (JS.Math_floor (seeds s / seedCostPerLarva s))
                            (maxLarvae s - larvae s)) as Hl.
  pose proof (Math_min_le_r (JS.Math_floor (seeds s / seedCostPerLarva s))
                            (maxLarvae s - larvae s)) as Hr.
  fold n in Hl, Hr.
  open_sound.
  pose proof (floor_quotient_times (seeds s) (seedCostPerLarva s)) as Hq.
  assert (Hn : n * seedCostPerLarva s
               <= JS.Math_floor (seeds s / seedCostPerLarva s)
                  * seedCostPerLarva s)
    by (apply Qmult_le_compat_r; lra).
  assert (Hp : 0 <= n * seedCostPerLarva s)
    by (apply Qmult_le_0_compat; lra).
  fields. repeat split; try assumption; lra.
Qed.

Lemma gameLoopTick_sound (s : State) : sound s -> sound (gameLoopTick s).
Proof.
  intro H. unfold gameLoopTick.
  match goal with
  | |- sound (if _ then createMaxLarvae ?x else ?x) =>
    assert (Hx : sound x)
  end.
  { pose proof (Math_min_le_r
                  (larvae s + larvaeProductionRate s * queens s / 60)
                  (maxLarvae s)) as HL.
    pose proof (Math_min_le_r
                  (seeds s + collectionRatePerAnt s * ants s / 60)
                  (maxSeeds s)) as HS.
    open_sound.
    assert (0 <= larvaeProductionRate s * queens s)
      by (apply Qmult_le_0_compat; assumption).
    assert (0 <= collectionRatePerAnt s * ants s)
      by (apply Qmult_le_0_compat; assumption).
    fields. repeat split; try assumption.
    - apply Math_min_glb; [rewrite div_60|]; lra.
    - apply Math_min_glb; [rewrite div_60|]; lra. }
  match goal with
  | |- sound (if ?b then _ else _) => destruct b
  end; [now apply createMaxLarvae_sound | exact Hx].
Qed.

Lemma createAnts_sound (s : State) : sound s -> sound (createAnts s).
Proof.
  intro H. unfold createAnts.
  match goal with
  | |- sound (if ?b then _ else _) => destruct b eqn:E
  end; [|exact H].
  tests. open_sound. fields. repeat split; try assumption; lra.
Qed.

Lemma createMaxAnts_sound (s : State) : sound s -> sound (createMaxAnts s).
Proof.
  intro H. unfold createMaxAnts. cbv zeta.
  set (n := JS.Math_min _ _).
  destruct (JS.gt n 0) eqn:E; [|exact H].
  tests.
  pose proof (Math_min_le_l (larvae s)
                (JS.Math_floor (seeds s / seedCostPerAnt s))) as Hl.
  pose proof (Math_min_le_r (larvae s)
                (JS.Math_floor (seeds s / seedCostPerAnt s))) as Hr.
  fold n in Hl, Hr.
  open_sound.
  pose proof (floor_quotient_times (seeds s) (seedCostPerAnt s)) as Hq.
  assert (Hn : n * seedCostPerAnt s
               <= JS.Math_floor (seeds s / seedCostPerAnt s)
                  * seedCostPerAnt s)
    by (apply Qmult_le_compat_r; lra).
  assert (Hp : 0 <= n * seedCostPerAnt s)
    by (apply Qmult_le_0_compat; lra).
  assert (Hl0 : 0 <= n * larvaCostPerAnt s)
    by (apply Qmult_le_0_compat; lra).
  assert (Hl1 : n * larvaCostPerAnt s <= n * 1)
    by (apply Qmult_le_l; lra).
  fields. repeat split; try assumption; lra.
Qed.

Lemma buyQueen_sound (s : State) : sound s -> sound (buyQueen s).
Proof.
  intro H. unfold buyQueen.
  match goal with
  | |- sound (if ?b then _ else _) => destruct b eqn:E
  end; [|exact H].
  tests. open_sound. fields. repeat split; try assumption; lra.
Qed.

Lemma buyMaxQueens_sound (s : State) : sound s -> sound (buyMaxQueens s).
Proof.
  intro H. unfold buyMaxQueens. cbv zeta.
  set (n := JS.Math_min _ _).
  destruct (JS.gt n 0) eqn:E; [|exact H].
  tests.
  pose proof (Math_min_le_l (JS.Math_floor (ants s / antCostPerQueen s))
                (JS.Math_floor (seeds s / seedCostPerQueen s))) as Hl.
  pose proof (Math_min_le_r (JS.Math_floor (ants s / antCostPerQueen s))
                (JS.Math_floor (seeds s / seedCostPerQueen s))) as Hr.
  fold n in Hl, Hr.
  open_sound.
  pose proof (floor_quotient_times (ants s) (antCostPerQueen s)) as Ha.
  pose proof (floor_quotient_times (seeds s) (seedCostPerQueen s)) as Hq.
  assert (Hna : n * antCostPerQueen s
                <= JS.Math_floor (ants s / antCostPerQueen s)
                   * antCostPerQueen s)
    by (apply Qmult_le_compat_r; lra).
  assert (Hns : n * seedCostPerQueen s
                <= JS.Math_floor (seeds s / seedCostPerQueen s)
                   * seedCostPerQueen s)
    by (apply Qmult_le_compat_r; lra).
  assert (Hp : 0 <= n * seedCostPerQueen s)
    by (apply Qmult_le_0_compat; lra).
  fields. repeat split; try assumption; lra.
Qed.

Lemma upgradeSeedStorage_sound (s : State) :
  sound s -> sound (upgradeSeedStorage s).
Proof.
  intro H. unfold upgradeSeedStorage.
  match goal with
  | |- sound (if ?b then _ else _) => destruct b eqn:E
  end; [|exact H].
  tests. open_sound. fields.
  pose proof (Math_floor_gt (maxSeeds s * storageUpgradeFactor s)) as Hf.
  assert (Hc : 0 <= JS.Math_floor
                      (seedStorageUpgradeCost s * upgradeCostFactor s))
    by (apply Math_floor_nonneg, Qmult_le_0_compat; assumption).
  assert (Hm : maxSeeds s * storageUpgradeFactor s == maxSeeds s * 1.2)
    by (apply Qmult_comp; [reflexivity | assumption]).
  repeat split; try assumption; lra.
Qed.

Lemma upgradeLarvaeStorage_sound (s : State) :
  sound s -> sound (upgradeLarvaeStorage s).
Proof.
  intro H. unfold upgradeLarvaeStorage.
  match goal with
  | |- sound (if ?b then _ else _) => destruct b eqn:E
  end; [|exact H].
  tests. open_sound. fields.
  pose proof (Math_floor_gt (maxLarvae s * storageUpgradeFactor s)) as Hf.
  assert (Hc : 0 <= JS.Math_floor
                      (larvaeStorageUpgradeCost s * upgradeCostFactor s))
    by (apply Math_floor_nonneg, Qmult_le_0_compat; assumption).
  assert (Hm : maxLarvae s * storageUpgradeFactor s == maxLarvae s * 1.2)
    by (apply Qmult_comp; [reflexivity | assumption]).
  repeat split; try assumption; lra.
Qed.

Lemma applyPrestigeUpgrade_sound (upgradeId : string) (s : State) :
  sound s -> sound (applyPrestigeUpgrade upgradeId s).
Proof.
  intro H. unfold applyPrestigeUpgrade.
  repeat match goal with
         | |- context [if (?a =? ?b)%string then _ else _] =>
           destruct (a =? b)%string
         end; try exact H;
    open_sound; fields; repeat split; try assumption; lra.
Qed.

Lemma applyPrestigeUpgrades_sound (s : State) :
  sound s -> sound (applyPrestigeUpgrades s).
Proof.
  unfold applyPrestigeUpgrades. generalize (purchasedUpgrades s) as l.
  intro l. revert s. induction l as [|upgradeId l IH]; intros s H.
  - exact H.
  - cbn [fold_left]. now apply IH, applyPrestigeUpgrade_sound.
Qed.

Lemma resetGameState_sound (now : Q) (s : State) :
  sound s -> sound (resetGameState false now s).
Proof.
  intro H. unfold resetGameState. apply applyPrestigeUpgrades_sound.
  open_sound. fields. repeat split; try assumption; lra.
Qed.

Lemma initialState_sound (now : Q) : sound (initialState now).
Proof.
  unfold sound, wellFormed, withinCaps. cbn.
  repeat split; try reflexivity; try discriminate.
Qed.

(** The two operations that do not clamp leave the other numbers of the
    store in their ranges. *)
Lemma perform_wellFormed (op : Operation) (s : State) :
  clamping op = false -> wellFormed s -> wellFormed (perform op s).
Proof.
  destruct op; try discriminate; intros _ H; cbn [perform].
  - unfold createLarvae.
    match goal with
    | |- wellFormed (if ?b then _ else _) => destruct b
    end; exact H.
  - unfold collectSeedsManually. cbv zeta.
    match goal with
    | |- wellFormed (if ?b then _ else _) => destruct b
    end; exact H.
Qed.

(** Every operation that clamps keeps each pool within its cap. *)
Lemma perform_sound (op : Operation) (s : State) :
  clamping op = true -> sound s -> sound (perform op s).
Proof.
  destruct op; try discriminate; intros _ H; cbn [perform].
  - now apply gameLoopTick_sound.
  - now apply createMaxLarvae_sound.
  - now apply createAnts_sound.
  - now apply createMaxAnts_sound.
  - now apply buyQueen_sound.
  - now apply buyMaxQueens_sound.
  - now apply upgradeSeedStorage_sound.
  - now apply upgradeLarvaeStorage_sound.
  - now apply resetGameState_sound.
Qed.

(** In exact arithmetic: from a store whose numbers are in their ranges and
    whose pools are within their caps, every sequence of the operations
    that clamp leaves the pools within their caps and the numbers in
    their ranges.  (On doubles the sum in [createMaxLarvae] can round above
    the cap.) *)
Lemma run_sound (ops : list Operation) (s : State) :
  forallb clamping ops = true -> sound s -> sound (run ops s).
Proof.
  unfold run. revert s. induction ops as [|op ops IH]; intros s Hc H.
  - exact H.
  - cbn in Hc. apply andb_prop in Hc. destruct Hc as [Hop Hops].
    cbn [fold_left]. apply IH; [exact Hops|].
    now apply perform_sound.
Qed.

(** ** gameStore.ts: offline progress *)

Lemma Math_floor_zero (x : Q) : x == 0 -> JS.Math_floor x == 0.
Proof.
  intro H. unfold JS.Math_floor. now rewrite (Qfloor_comp _ _ H).
Qed.

Lemma grant_zero (elapsed rate count headroom : Q) :
  elapsed == 0 -> 0 <= headroom ->
  JS.Math_min (JS.Math_floor (elapsed * rate * count)) headroom == 0.
Proof.
  intros He Hh.
  assert (Hz : JS.Math_floor (elapsed * rate * count) == 0).
  { apply Math_floor_zero. rewrite He. ring. }
  unfold JS.Math_min. rewrite Hz. now apply Q.min_l.
Qed.

(** ** gameStore.ts: loading *)

Lemma loadShopCost_id (savedState : SavedState) (shop : ShopItem) :
  id (loadShopCost savedState shop) = id shop.
Proof.
  unfold loadShopCost.
  repeat match goal with
         | |- context [if ?b then _ else _] => destruct b; cbn
         end; reflexivity.
Qed.

(** C8 (the code breaks it).  The claim is that every loader falls back,
    field by field, to the value in memory when the saved record lacks the
    field, the costs of the prestige shop included.  [loadGameState]
    assigns the saved cost without [??]: loading a save that has the pools
    but no cost fields leaves every cost of the shop [undefined], where
    the store had 10, 15, 20 and 100 before.  The pools of that save are
    loaded and the fields it lacks elsewhere keep their values. *)
Theorem C8_loadGameState_drops_shop_costs (now : Q) :
  let s := initialState now in
  let s' := loadGameState (Some earlierSave) now s in
  map cost (prestigeShop s) = [Some 10; Some 15; Some 20; Some 100] /\
  map cost (prestigeShop s') = [None; None; None; None] /\
  map id (prestigeShop s') = map id (prestigeShop s) /\
  ants s' = 5 /\ maxSeeds s' = maxSeeds s /\
  seedStorageUpgradeCost s' = seedStorageUpgradeCost s.
Proof. cbv zeta. repeat split. Qed.

(** ** gameStore.ts: more of its actions *)

Lemma gt_false_iff (x y : Q) : JS.gt x y = false <-> x <= y.
Proof. unfold JS.gt. rewrite negb_false_iff. apply Qle_bool_iff. Qed.

Lemma lt_false_iff (x y : Q) : JS.lt x y = false <-> y <= x.
Proof. apply (gt_false_iff y x). Qed.










(** *** Saving and loading *)

Local Open Scope string_scope.

Lemma find_map_same_id (f : ShopItem -> ShopItem) (i : string)
                       (shop : list ShopItem) :
  (forall u, id (f u) = id u) ->
  find (fun u => id u =? i) (map f shop)
  = option_map f (find (fun u => id u =? i) shop).
Proof.
  intro Hf. induction shop as [|u shop IH]; [reflexivity|].
  cbn. rewrite Hf. destruct (id u =? i); [reflexivity | exact IH].
Qed.

Lemma cost_loadShopCost (savedState : SavedState) (u : ShopItem) (i : string) :
  In i savedCostIds ->
  id u = i ->
  cost (loadShopCost savedState u)
  = if i =? "storageUpgrade" then sv_storagePrestigeCost savedState
    else if i =? "productionBoost" then sv_productionPrestigeCost savedState
    else if i =? "queenEfficiency" then sv_queenPrestigeCost savedState
    else if i =? "autoLarvae" then sv_autoLarvaePrestigeCost savedState
    else sv_betterAntsPrestigeCost savedState.
Proof.
  intros Hin Hid. unfold loadShopCost.
  cbn in Hin.
  destruct Hin as [<-|[<-|[<-|[<-|[<-|[]]]]]];
    destruct u as [uid ucost]; cbn in Hid; subst uid; reflexivity.
Qed.

(** X7.  Loading, at the time of the save, what [saveGameState] wrote gives
    back the pools, the caps, the storage costs, the prestige points, the
    purchase history and the army numbers of the saved store, provided its
    pools were within their caps; it restores the cost of each of the five
    saved shop items that the saved store had defined and that the loading
    store has.  The production rates and the automatic larvae creation are
    not in the save: they stay as the loading store has them. *)
Theorem saveGameState_loadGameState (t : Q) (s s0 : State) :
  larvae s <= maxLarvae s ->
  seeds s <= maxSeeds s ->
  let s' := loadGameState (Some (saveGameState t s)) t s0 in
  (larvae s' == larvae s /\ seeds s' == seeds s /\
   ants s' = ants s /\ queens s' = queens s /\
   maxSeeds s' = maxSeeds s /\ maxLarvae s' = maxLarvae s /\
   seedStorageUpgradeCost s' = seedStorageUpgradeCost s /\
   larvaeStorageUpgradeCost s' = larvaeStorageUpgradeCost s /\
   prestigePoints s' = prestigePoints s /\
   purchasedUpgrades s' = purchasedUpgrades s /\
   attackPerAnt s' = attackPerAnt s /\ healthPerAnt s' = healthPerAnt s /\
   defensePerAnt s' = defensePerAnt s /\
   lastSavedTime s' = t /\ loaded s' = true) /\
  (forall i c,
     In i savedCostIds ->
     findCost i s = Some c ->
     existsb (fun u => id u =? i) (prestigeShop s0) = true ->
     findCost i s' = Some c) /\
  (larvaeProductionRate s' = larvaeProductionRate s0 /\
   collectionRatePerAnt s' = collectionRatePerAnt s0 /\
   autoLarvaeCreation s' = autoLarvaeCreation s0).
Proof.
  intros Hl Hs. cbv zeta.
  set (s' := loadGameState (Some (saveGameState t s)) t s0).
  assert (El : larvae s'
               = larvae s
                 + JS.Math_min
                     (JS.Math_floor ((t - t) / 60000
                                     * larvaeProductionRate s0 * queens s))
                     (maxLarvae s - larvae s)) by exact eq_refl.
  assert (Es : seeds s'
               = seeds s
                 + JS.Math_min
                     (JS.Math_floor ((t - t) / 60000
                                     * collectionRatePerAnt s0 * ants s))
                     (maxSeeds s - seeds s)) by exact eq_refl.
  assert (Ep : prestigeShop s'
               = map (loadShopCost (saveGameState t s)) (prestigeShop s0))
    by exact eq_refl.
  assert (Et : (t - t) / 60000 == 0) by (rewrite div_60000; ring).
  split; [|split].
  - split.
    { rewrite El, grant_zero; [ring | exact Et | lra]. }
    split.
    { rewrite Es, grant_zero; [ring | exact Et | lra]. }
    repeat split; exact eq_refl.
  - intros i c Hin Hc Hex.
    unfold findCost in *. rewrite Ep.
    rewrite find_map_same_id by apply loadShopCost_id.
    destruct (find (fun u => id u =? i) (prestigeShop s0)) as [u0|] eqn:E0.
    + cbn [option_map].
      apply find_some in E0. destruct E0 as [_ Hid].
      apply String.eqb_eq in Hid.
      rewrite (cost_loadShopCost _ _ i Hin Hid).
      cbn [savedCostIds In] in Hin.
      destruct Hin as [<-|[<-|[<-|[<-|[<-|[]]]]]];
        cbn [String.eqb Ascii.eqb Bool.eqb];
        cbn [saveGameState sv_storagePrestigeCost sv_productionPrestigeCost
             sv_queenPrestigeCost sv_autoLarvaePrestigeCost
             sv_betterAntsPrestigeCost];
        unfold findCost; rewrite Hc; reflexivity.
    + exfalso. apply existsb_exists in Hex. destruct Hex as (u & Hu & Hi).
      apply (find_none _ _ E0) in Hu. cbv beta in Hu. congruence.
  - repeat split; exact eq_refl.
Qed.

(** X7, witness: the store after a storage upgrade was bought, loaded into a
    store that was just created. *)
Lemma saveGameState_loadGameState_witness :
  let s := buyUpgrade "storageUpgrade"
             (set_prestigePoints 10 (initialState 0)) in
  let s' := loadGameState (Some (saveGameState 5 s)) 5 (initialState 9) in
  maxSeeds s' = maxSeeds s /\
  findCost "storageUpgrade" s' = Some (10 * 1.5).
Proof.
  cbv zeta.
  destruct (saveGameState_loadGameState 5
              (buyUpgrade "storageUpgrade"
                 (set_prestigePoints 10 (initialState 0)))
              (initialState 9))
    as ((_ & _ & _ & _ & Hm & _) & Hc & _).
  - vm_compute. discriminate.
  - vm_compute. discriminate.
  - split; [exact Hm|].
    apply Hc; [cbn; auto | reflexivity | reflexivity].
Defined.

(** X8.  After loading a save that has none of the five cost fields, the
    shop of the game store sells none of those five upgrades, whatever the
    balance: the cost of each is [undefined], and [buyUpgrade] changes
    nothing. *)
Theorem loadGameState_without_costs_closes_shop
        (savedState : SavedState) (now points : Q) (s : State) (i : string) :
  sv_storagePrestigeCost savedState = None ->
  sv_productionPrestigeCost savedState = None ->
  sv_queenPrestigeCost savedState = None ->
  sv_autoLarvaePrestigeCost savedState = None ->
  sv_betterAntsPrestigeCost savedState = None ->
  In i savedCostIds ->
  let s' := set_prestigePoints points (loadGameState (Some savedState) now s) in
  findCost i s' = None /\ buyUpgrade i s' = s'.
Proof.
  intros H1 H2 H3 H4 H5 Hin. cbv zeta.
  set (s' := set_prestigePoints points _).
  assert (Ep : prestigeShop s'
               = map (loadShopCost savedState) (prestigeShop s))
    by exact eq_refl.
  assert (Hnone : forall u,
            find (fun u => id u =? i) (prestigeShop s') = Some u ->
            cost u = None).
  { intros u Hu. rewrite Ep, find_map_same_id in Hu
      by apply loadShopCost_id.
    destruct (find (fun u => id u =? i) (prestigeShop s)) as [u0|] eqn:E0;
      [|discriminate].
    injection Hu as <-.
    apply find_some in E0. destruct E0 as [_ Hid].
    apply String.eqb_eq in Hid.
    rewrite (cost_loadShopCost _ _ i Hin Hid), H1, H2, H3, H4, H5.
    repeat match goal with
           | |- context [if ?b then _ else _] => destruct b
           end; reflexivity. }
  unfold findCost, buyUpgrade.
  destruct (find (fun u => id u =? i) (prestigeShop s')) as [u|] eqn:E;
    [|now split].
  rewrite (Hnone u eq_refl). now split.
Qed.

(** X8, witness: the save of an earlier version of the game, and a balance
    of 1000 points. *)
Lemma loadGameState_without_costs_closes_shop_witness :
  let s' := set_prestigePoints 1000
              (loadGameState (Some earlierSave) 0 (initialState 0)) in
  buyUpgrade "storageUpgrade" s' = s'.
Proof.
  cbv zeta.
  destruct (loadGameState_without_costs_closes_shop earlierSave 0 1000
              (initialState 0) "storageUpgrade")
    as (_ & H);
    [reflexivity | reflexivity | reflexivity | reflexivity | reflexivity
    | cbn; auto | exact H].
Defined.

(** *** The reset and the purchase history *)





(** *** The timer of the game loop *)

Lemma filter_other_handles (h : positive) (l : list positive) :
  Forall (fun h' => (h' < h)%positive) l ->
  filter (fun h' => negb (Pos.eqb h' h)) l = l.
Proof.
  induction 1 as [|h' l Hlt _ IH]; [reflexivity|].
  cbn [filter]. rewrite IH.
  destruct (Pos.eqb_spec h' h) as [->|_]; [lia | reflexivity].
Qed.

Lemma call_keeps_one_timer (t : Timers) (c : LoopCall) (l : Loop) :
  Forall (fun h => (h < nextHandle t)%positive) (running t) ->
  (nextHandle t <= nextHandle (timers l))%positive /\
  match gameLoopInterval l with
  | Some h => running (timers l) = h :: running t /\
              (nextHandle t <= h)%positive
  | None => running (timers l) = running t
  end ->
  (nextHandle t <= nextHandle (timers (call c l)))%positive /\
  match gameLoopInterval (call c l) with
  | Some h => running (timers (call c l)) = h :: running t /\
              (nextHandle t <= h)%positive
  | None => running (timers (call c l)) = running t
  end.
Proof.
  intros Hpage [Hnext Hrun]. destruct c; cbn [call].
  - unfold startGameLoop.
    destruct (gameLoopInterval l) as [h|] eqn:E.
    + rewrite E. now split.
    + cbn. rewrite Hrun. repeat split; lia.
  - unfold stopGameLoop.
    destruct (gameLoopInterval l) as [h|] eqn:E.
    + cbn. destruct Hrun as [-> Hh]. split; [exact Hnext|].
      cbn [filter]. rewrite Pos.eqb_refl. cbn [negb].
      apply filter_other_handles.
      eapply Forall_impl; [|exact Hpage]. cbv beta. intros; lia.
    + rewrite E. now split.
Qed.

(** X10.  Whatever sequence of [startGameLoop] and [stopGameLoop] is called
    on a store that was just created, the store runs at most one interval:
    the running timers are those the page had, plus the one whose handle is
    in [gameLoopInterval] when there is one.  Starting twice is starting
    once and stopping twice is stopping once. *)
Theorem game_loop_runs_one_timer (calls : list LoopCall) (t : Timers) :
  Forall (fun h => (h < nextHandle t)%positive) (running t) ->
  let l := fold_left (fun l c => call c l) calls (freshLoop t) in
  running (timers l)
  = match gameLoopInterval l with
    | Some h => h :: running t
    | None => running t
    end /\
  startGameLoop (startGameLoop l) = startGameLoop l /\
  stopGameLoop (stopGameLoop l) = stopGameLoop l /\
  running (timers (stopGameLoop l)) = running t.
Proof.
  intro Hpage. cbv zeta.
  assert (H : forall l,
            (nextHandle t <= nextHandle (timers l))%positive /\
            match gameLoopInterval l with
            | Some h => running (timers l) = h :: running t /\
                        (nextHandle t <= h)%positive
            | None => running (timers l) = running t
            end ->
            let l' := fold_left (fun l c => call c l) calls l in
            (nextHandle t <= nextHandle (timers l'))%positive /\
            match gameLoopInterval l' with
            | Some h => running (timers l') = h :: running t /\
                        (nextHandle t <= h)%positive
            | None => running (timers l') = running t
            end).
  { induction calls as [|c calls IH]; intros l Hl; [exact Hl|].
    cbn [fold_left]. apply IH. now apply call_keeps_one_timer. }
  specialize (H (freshLoop t)). cbv zeta in H.
  set (l := fold_left _ calls (freshLoop t)) in *.
  destruct H as [Hnext Hrun]; [split; [cbn; lia | reflexivity]|].
  pose proof (call_keeps_one_timer t Stop l Hpage (conj Hnext Hrun))
    as [_ Hstop].
  cbn [call] in Hstop.
  split; [|split; [|split]].
  - destruct (gameLoopInterval l); [apply Hrun | exact Hrun].
  - unfold startGameLoop. destruct (gameLoopInterval l) eqn:E.
    + now rewrite E.
    + reflexivity.
  - unfold stopGameLoop. destruct (gameLoopInterval l) eqn:E.
    + reflexivity.
    + now rewrite E.
  - unfold stopGameLoop in *. destruct (gameLoopInterval l) eqn:E.
    + exact Hstop.
    + rewrite E in Hstop. exact Hstop.
Qed.

(** X10, witness: a page with one timer of its own, and start, start, stop,
    start. *)
Lemma game_loop_runs_one_timer_witness :
  let t := {| running := [1%positive]; nextHandle := 2%positive |} in
  running (timers (fold_left (fun l c => call c l) [Start; Start; Stop; Start]
                             (freshLoop t)))
  = [3%positive; 1%positive].
Proof.
  cbv zeta.
  destruct (game_loop_runs_one_timer [Start; Start; Stop; Start]
              {| running := [1%positive]; nextHandle := 2%positive |})
    as (H & _).
  - repeat constructor.
  - exact H.
Defined.
(** *** The army statistics *)

Lemma Math_min_settled (health cap : Q) :
  JS.Math_min (JS.Math_min health cap) cap = JS.Math_min health cap.
Proof.
  unfold JS.Math_min, Qmin, GenericMinMax.gmin.
  destruct (health ?= cap)%Q eqn:E; rewrite ?E; try reflexivity.
  assert (Er : (cap ?= cap)%Q = Eq) by (apply Qeq_alt; reflexivity).
  now rewrite Er.
Qed.

(** X23.  With ants in the colony, [setupAdventureStats] leaves the army
    at a health that is at most its maximum; an army whose health was 0 or
    not set is at full health afterwards; and a second call changes
    nothing. *)
Theorem setupAdventureStats_settles (s : State) (a : AdventureStats) :
  ~ ants s == 0 ->
  let a' := setupAdventureStats s a in
  (exists health,
     armyHealth a' = Some health /\
     health <= armyMaxHealth a' /\
     (match armyHealth a with
      | Some old => old == 0
      | None => True
      end -> health = armyMaxHealth a')) /\
  setupAdventureStats s a' = a'.
Proof.
  intro Hants. cbv zeta. unfold setupAdventureStats.
  assert (E : Qeq_bool (ants s) 0 = false).
  { destruct (Qeq_bool (ants s) 0) eqn:E; [|reflexivity].
    apply Qeq_bool_iff in E. contradiction. }
  rewrite E. cbn [armyHealth armyMaxHealth].
  set (cap := ants s * healthPerAnt s).
  split.
  - eexists. split; [reflexivity|]. split.
    + destruct (armyHealth a) as [old|]; [|apply Qle_refl].
      destruct (Qeq_bool old 0); cbn [negb];
        [apply Qle_refl | apply Q.le_min_r].
    + destruct (armyHealth a) as [old|]; [|reflexivity].
      intro H0. apply Qeq_bool_iff in H0. now rewrite H0.
  - f_equal. f_equal.
    destruct (armyHealth a) as [old|].
    + destruct (Qeq_bool old 0) eqn:Eold; cbn [negb].
      * destruct (Qeq_bool cap 0); cbn [negb]; [reflexivity|].
        unfold JS.Math_min, Qmin, GenericMinMax.gmin.
        assert (Er : (cap ?= cap)%Q = Eq) by (apply Qeq_alt; reflexivity).
        now rewrite Er.
      * destruct (Qeq_bool (JS.Math_min old cap) 0) eqn:Emin; cbn [negb].
        -- unfold JS.Math_min, Qmin, GenericMinMax.gmin in *.
           destruct (old ?= cap)%Q; try reflexivity; congruence.
        -- apply Math_min_settled.
    + destruct (Qeq_bool cap 0); cbn [negb]; [reflexivity|].
      unfold JS.Math_min, Qmin, GenericMinMax.gmin.
      assert (Er : (cap ?= cap)%Q = Eq) by (apply Qeq_alt; reflexivity).
      now rewrite Er.
Qed.

(** X23, witness: the ten ants of a new game and an army that lost all
    its health. *)
Lemma setupAdventureStats_settles_witness :
  let a := {| armyMaxHealth := 100; armyHealth := Some 0;
              armyAttack := 20; armyDefense := 10 |} in
  let s := set_ants 10 (initialState 0) in
  setupAdventureStats s (setupAdventureStats s a) = setupAdventureStats s a.
Proof.
  cbv zeta.
  destruct (setupAdventureStats_settles
              (set_ants 10 (initialState 0))
              {| armyMaxHealth := 100; armyHealth := Some 0;
                 armyAttack := 20; armyDefense := 10 |}) as (_ & H);
    [discriminate | exact H].
Defined.
End GameStoreFacts.

(** ** prestigeStore.ts *)

Section PrestigeStoreFacts.

Import PrestigeStore.
Local Open Scope Z_scope.
Local Open Scope string_scope.
Local Open Scope list_scope.

(** Unfolds the plumbing of an action applied to a world. *)
Ltac run :=
  unfold worldOf, valueOf, outputOf, bind, ret, gets, emit, modifyUpgrade,
         modifyStore, modifyGame;
  cbn -[applyPrestigeUpgrade executeUpgrade calculatePrestigePoints].

Ltac split_ids :=
  repeat match goal with
         | |- context [if (?a =? ?b)%string then _ else _] =>
           destruct (a =? b)%string
         end.

(** *** What the upgrade routines leave alone *)

Lemma executeUpgrade_ledger (upgradeId : string) (w : World) :
  let w' := worldOf (executeUpgrade upgradeId w) in
  prestigePoints (prestigeStore w') = prestigePoints (prestigeStore w) /\
  timesPrestiged (prestigeStore w') = timesPrestiged (prestigeStore w) /\
  purchasedUpgrades (prestigeStore w') = purchasedUpgrades (prestigeStore w) /\
  prestigeShop (prestigeStore w') = prestigeShop (prestigeStore w) /\
  baseAntThreshold (prestigeStore w') = baseAntThreshold (prestigeStore w) /\
  baseQueenThreshold (prestigeStore w')
    = baseQueenThreshold (prestigeStore w) /\
  userId (gameStore w') = userId (gameStore w).
Proof.
  unfold executeUpgrade, upgrades. split_ids; run; repeat split.
Qed.


Lemma applyPrestigeUpgrade_unfold (upgradeId : string) (fromPrestige : bool)
                                  (w : World) :
  applyPrestigeUpgrade upgradeId fromPrestige w =
  if fromPrestige && applyOnPrestigeIsFalse (findUpgrade upgradeId w) then
    (tt, w, [LogTryToApplyUpgrade upgradeId fromPrestige;
             LogPrestigeInShop (option_map id (findUpgrade upgradeId w));
             LogUpgradeNotApplicable upgradeId])
  else
    (tt, worldOf (executeUpgrade upgradeId w),
     [LogTryToApplyUpgrade upgradeId fromPrestige;
      LogPrestigeInShop (option_map id (findUpgrade upgradeId w));
      LogApplyingUpgrade upgradeId]
     ++ outputOf (executeUpgrade upgradeId w)).
Proof.
  unfold applyPrestigeUpgrade. run.
  destruct (fromPrestige && applyOnPrestigeIsFalse (findUpgrade upgradeId w)).
  - reflexivity.
  - cbn. destruct (executeUpgrade upgradeId w) as [[[] w'] out]. reflexivity.
Qed.

Lemma findUpgrade_shop (upgradeId : string) (w w' : World) :
  prestigeShop (prestigeStore w') = prestigeShop (prestigeStore w) ->
  findUpgrade upgradeId w' = findUpgrade upgradeId w.
Proof. unfold findUpgrade. now intros ->. Qed.









(** *** prestige *)











(** *** The shop *)

Lemma findUpgrade_id (upgradeId : string) (w : World)
                     (upgrade : PrestigeShopItem) :
  findUpgrade upgradeId w = Some upgrade -> id upgrade = upgradeId.
Proof.
  unfold findUpgrade. intro H. apply find_some in H.
  now apply String.eqb_eq.
Qed.

Lemma find_updateFound (upgradeId : string)
                       (f : PrestigeShopItem -> PrestigeShopItem)
                       (shop : list PrestigeShopItem) :
  (forall u, id (f u) = id u) ->
  find (fun u => id u =? upgradeId) (updateFound upgradeId f shop)
  = option_map f (find (fun u => id u =? upgradeId) shop).
Proof.
  intro Hf. induction shop as [|u shop IH]; [reflexivity|].
  cbn. destruct (id u =? upgradeId) eqn:E.
  - cbn. now rewrite Hf, E.
  - cbn. now rewrite E.
Qed.

Lemma find_updateFound_other (upgradeId other : string)
                             (f : PrestigeShopItem -> PrestigeShopItem)
                             (shop : list PrestigeShopItem) :
  (forall u, id (f u) = id u) ->
  other <> upgradeId ->
  find (fun u => id u =? other) (updateFound upgradeId f shop)
  = find (fun u => id u =? other) shop.
Proof.
  intros Hf Hne. induction shop as [|u shop IH]; [reflexivity|].
  cbn. destruct (id u =? upgradeId) eqn:E.
  - cbn. rewrite Hf. apply String.eqb_eq in E.
    assert (En : (id u =? other) = false).
    { apply String.eqb_neq. congruence. }
    now rewrite En.
  - cbn. now rewrite IH.
Qed.

Lemma growCost_id (multiplier : Q) (u : PrestigeShopItem) :
  id (growCost multiplier u) = id u.
Proof. reflexivity. Qed.

(** The default growth on an integer cost: [floor(cost * 1.5)]. *)
Lemma grow_default (c : Z) : Qfloor (inject_Z c * 1.5) = (3 * c) / 2.
Proof.
  unfold Qfloor, Qmult, inject_Z. cbn [Qnum Qden].
  change (Z.pos (1 * 10)) with (2 * 5).
  replace (c * 15) with ((3 * c) * 5) by ring.
  now rewrite Z.div_mul_cancel_r.
Qed.


Lemma grow_default_ge (c : Z) : 0 <= c -> c <= (3 * c) / 2.
Proof. intro H. apply Z.div_le_lower_bound; lia. Qed.

Lemma cost_growCost_default (u : PrestigeShopItem) :
  cost (growCost 1.5 u) = (3 * cost u) / 2.
Proof. apply grow_default. Qed.

(** *** buyUpgrade *)

Lemma buyUpgrade_unfold (upgradeId : string) (w : World) :
  buyUpgrade upgradeId w =
  match findUpgrade upgradeId w with
  | Some upgrade =>
    if (prestigePoints (prestigeStore w) >=? cost upgrade)%Z then
      let growth :=
        if upgradeId =? "eliteAntsStoreUpgrade" then 3%Q else 1.5%Q in
      let w1 := paidFor upgrade growth w in
      (true, worldOf (executeUpgrade upgradeId w1),
       [LogTryToApplyUpgrade upgradeId false;
        LogPrestigeInShop (Some upgradeId);
        LogApplyingUpgrade upgradeId]
       ++ outputOf (executeUpgrade upgradeId w1)
       ++ [LogPurchasedUpgrade (name upgrade)])
    else (false, w, [LogNotEnoughPointsOrInvalid])
  | None => (false, w, [LogNotEnoughPointsOrInvalid])
  end.
Proof.
  unfold buyUpgrade. run.
  destruct (findUpgrade upgradeId w) as [upgrade|] eqn:Hfind;
    [|reflexivity].
  destruct (prestigePoints (prestigeStore w) >=? cost upgrade)%Z;
    [|reflexivity].
  pose proof (findUpgrade_id _ _ _ Hfind) as Hid.
  run. rewrite applyPrestigeUpgrade_unfold. cbn [andb].
  unfold paidFor. rewrite Hid.
  set (w1 := {| prestigeStore := _; gameStore := gameStore w |}).
  assert (Hf : findUpgrade upgradeId w1
               = Some (growCost (if upgradeId =? "eliteAntsStoreUpgrade"
                                 then 3%Q else 1.5%Q) upgrade)).
  { unfold findUpgrade, w1. cbn.
    rewrite find_updateFound by reflexivity.
    unfold findUpgrade in Hfind. now rewrite Hfind. }
  rewrite Hf. cbn [option_map]. rewrite growCost_id, Hid.
  unfold worldOf, outputOf.
  destruct (executeUpgrade upgradeId w1) as [[[] w2] out]. cbn.
  reflexivity.
Qed.




(** The page that shows the shop is where one-time upgrades are guarded:
    it offers no buy button once [isUpgradeMaxed] holds. *)
Lemma isUpgradeMaxed_autoAnts_purchased :
  forall u, findUpgrade "autoAnts" (exampleWorld 100 ["autoAnts"]) = Some u ->
  isUpgradeMaxed u (prestigeStore (exampleWorld 100 ["autoAnts"])) = true.
Proof. intros u H. injection H as <-. reflexivity. Qed.

(** *** buyMaxUpgrade *)

Lemma buyMaxStep_spec (upgradeId : string) (w : World)
                      (upgrade : PrestigeShopItem) :
  findUpgrade upgradeId w = Some upgrade ->
  let w' := worldOf (buyMaxStep upgradeId w) in
  prestigePoints (prestigeStore w')
    = prestigePoints (prestigeStore w) - cost upgrade /\
  purchasedUpgrades (prestigeStore w')
    = purchasedUpgrades (prestigeStore w) ++ [upgradeId] /\
  findUpgrade upgradeId w' = Some (growCost 1.5 upgrade).
Proof.
  intro Hfind. cbv zeta. unfold buyMaxStep. run. rewrite Hfind. run.
  rewrite applyPrestigeUpgrade_unfold. cbn [andb].
  match goal with
  | |- context [executeUpgrade upgradeId ?x] =>
    destruct (executeUpgrade_ledger upgradeId x) as (L1 & _ & L3 & L4 & _);
    unfold worldOf, outputOf in *;
    destruct (executeUpgrade upgradeId x) as [[[] w2] out]
  end.
  cbn in *. rewrite L1, L3. repeat split.
  unfold findUpgrade. cbn. rewrite L4.
  rewrite find_updateFound by reflexivity.
  unfold findUpgrade in Hfind. now rewrite Hfind.
Qed.

Lemma canAfford_iff (upgradeId : string) (w : World)
                    (upgrade : PrestigeShopItem) :
  findUpgrade upgradeId w = Some upgrade ->
  canAfford upgradeId w = true
  <-> cost upgrade <= prestigePoints (prestigeStore w).
Proof.
  intro Hfind. unfold canAfford. rewrite Hfind, Z.geb_leb.
  apply Z.leb_le.
Qed.

Lemma while_terminates (upgradeId : string) (fuel : nat) :
  forall (w : World) (upgrade : PrestigeShopItem),
  findUpgrade upgradeId w = Some upgrade ->
  1 <= cost upgrade ->
  prestigePoints (prestigeStore w) <= Z.of_nat fuel ->
  exists w' out,
    while fuel (canAfford upgradeId) (buyMaxStep upgradeId) w
    = Some (tt, w', out).
Proof.
  induction fuel as [|fuel IH]; intros w upgrade Hfind Hcost Hpoints.
  - exists w, []. cbn.
    destruct (canAfford upgradeId w) eqn:E; [|reflexivity].
    apply (canAfford_iff _ _ _ Hfind) in E. lia.
  - cbn [while].
    destruct (canAfford upgradeId w) eqn:E; [|now exists w, []].
    apply (canAfford_iff _ _ _ Hfind) in E.
    destruct (buyMaxStep_spec _ _ _ Hfind) as (Hp & _ & Hf).
    unfold worldOf in *.
    destruct (buyMaxStep upgradeId w) as [[[] w1] out1]. cbn [fst snd] in *.
    destruct (IH w1 (growCost 1.5 upgrade) Hf) as (w2 & out2 & Hw).
    + rewrite cost_growCost_default.
      pose proof (grow_default_ge (cost upgrade)). lia.
    + lia.
    + rewrite Hw. now exists w2, (out1 ++ out2).
Qed.





(** The routine of an upgrade does not read the shop: it does the same to
    the stores whatever the shop holds. *)
Lemma executeUpgrade_shop (upgradeId : string)
                          (shop : list PrestigeShopItem)
                          (p : Store) (g : GameStore) :
  worldOf (executeUpgrade upgradeId
             {| prestigeStore := set_prestigeShop shop p; gameStore := g |})
  = let w' := worldOf (executeUpgrade upgradeId
                         {| prestigeStore := p; gameStore := g |}) in
    {| prestigeStore := set_prestigeShop shop (prestigeStore w');
       gameStore := gameStore w' |}.
Proof.
  unfold executeUpgrade, upgrades. split_ids; run; reflexivity.
Qed.

(** An iteration of [buyMaxUpgrade] leaves the stores as [buyUpgrade]
    does, for every id but the one whose growth [buyUpgrade] overrides. *)
Lemma buyMaxStep_agrees (upgradeId : string) (w : World) :
  upgradeId <> "eliteAntsStoreUpgrade" ->
  canAfford upgradeId w = true ->
  worldOf (buyMaxStep upgradeId w) = worldOf (buyUpgrade upgradeId w).
Proof.
  intros Hne Hafford. rewrite buyUpgrade_unfold.
  unfold canAfford in Hafford.
  destruct (findUpgrade upgradeId w) as [upgrade|] eqn:Hfind;
    [|discriminate].
  rewrite Hafford. apply String.eqb_neq in Hne. rewrite Hne.
  pose proof (findUpgrade_id _ _ _ Hfind) as Hid.
  cbv zeta. unfold worldOf at 2. cbn [fst snd].
  unfold paidFor. rewrite Hid.
  match goal with
  | |- context [set_purchasedUpgrades ?l (set_prestigeShop ?shop ?p)] =>
    change (set_purchasedUpgrades l (set_prestigeShop shop p))
      with (set_prestigeShop shop (set_purchasedUpgrades l p))
  end.
  rewrite executeUpgrade_shop. cbv zeta.
  unfold buyMaxStep. run. rewrite Hfind. run.
  rewrite applyPrestigeUpgrade_unfold. cbn [andb].
  match goal with
  | |- context [executeUpgrade upgradeId ?x] =>
    destruct (executeUpgrade_ledger upgradeId x) as (_ & _ & _ & L4 & _);
    unfold worldOf, outputOf in *;
    destruct (executeUpgrade upgradeId x) as [[[] w2] out]
  end.
  cbn in *. now rewrite L4.
Qed.

Lemma buyUpgrade_value (upgradeId : string) (w : World) :
  valueOf (buyUpgrade upgradeId w) = canAfford upgradeId w /\
  (canAfford upgradeId w = false -> worldOf (buyUpgrade upgradeId w) = w).
Proof.
  rewrite buyUpgrade_unfold. unfold canAfford.
  destruct (findUpgrade upgradeId w) as [upgrade|]; [|now split].
  destruct (prestigePoints (prestigeStore w) >=? cost upgrade)%Z;
    split; try reflexivity; discriminate.
Qed.

Lemma buyRepeatedly_S (fuel : nat) (upgradeId : string) (w : World) :
  buyRepeatedly (S fuel) upgradeId w =
  let '(bought, w1, _) := buyUpgrade upgradeId w in
  if bought then
    match buyRepeatedly fuel upgradeId w1 with
    | Some (n, w2) => Some (S n, w2)
    | None => None
    end
  else Some (O, w1).
Proof. reflexivity. Qed.

(** For those ids [buyMaxUpgrade] is [buyUpgrade] repeated until it
    returns [false]. *)
Lemma buyMaxUpgrade_agrees (upgradeId : string) (fuel : nat) :
  upgradeId <> "eliteAntsStoreUpgrade" ->
  forall (w w' : World) (out : list Event),
  while fuel (canAfford upgradeId) (buyMaxStep upgradeId) w
    = Some (tt, w', out) ->
  exists n, buyRepeatedly (S fuel) upgradeId w = Some (n, w').
Proof.
  intro Hne. induction fuel as [|fuel IH]; intros w w' out H.
  - cbn [while] in H. cbn [buyRepeatedly].
    destruct (buyUpgrade_value upgradeId w) as (Hv & Hw).
    unfold valueOf, worldOf in *.
    destruct (buyUpgrade upgradeId w) as [[bought w1] out1].
    cbn [fst snd] in *. subst bought.
    destruct (canAfford upgradeId w); [discriminate|].
    injection H as <- _. exists O. now rewrite Hw.
  - cbn [while] in H. rewrite buyRepeatedly_S.
    destruct (buyUpgrade_value upgradeId w) as (Hv & Hw).
    pose proof (buyMaxStep_agrees upgradeId w Hne) as Hagree.
    unfold valueOf, worldOf in *.
    destruct (buyUpgrade upgradeId w) as [[bought w1] out1].
    cbn [fst snd] in *. subst bought.
    destruct (canAfford upgradeId w).
    + destruct (buyMaxStep upgradeId w) as [[[] w1'] out1'].
      cbn [fst snd] in *. rewrite (Hagree eq_refl) in H.
      destruct (while fuel (canAfford upgradeId) (buyMaxStep upgradeId) w1)
        as [[[[] w2] out2]|] eqn:E; [|discriminate].
      injection H as <- _.
      destruct (IH _ _ _ E) as (n & Hn).
      exists (S n). now rewrite Hn.
    + injection H as <- _. exists O. now rewrite Hw.
Qed.

(** C5 (the code breaks it).  The claim is that [buyMaxUpgrade] repeats the
    purchase step of [buyUpgrade], the growth of the cost per id included.
    Its loop multiplies every cost by 1.5, where [buyUpgrade] multiplies
    the cost of [eliteAntsStoreUpgrade] by 3.  With 250 points and that
    upgrade at its cost of 100, [buyMaxUpgrade] buys twice (100, then 150)
    and leaves 0 points and a cost of 225; [buyUpgrade], repeated until it
    returns [false], buys once and leaves 150 points and a cost of 300.
    The rest of the claim holds at its example: with a cost of 20 and 50
    points [buyMaxUpgrade] buys twice, leaving 0 points and two entries in
    the purchase history, and an unknown id gives [false]. *)
Theorem C5_buyMaxUpgrade_misses_growth_override :
  let summary (w : World) :=
    (prestigePoints (prestigeStore w), purchasedUpgrades (prestigeStore w),
     findCost "eliteAntsStoreUpgrade" (prestigeStore w),
     findCost "autoAnts" (prestigeStore w)) in
  option_map (fun r => (valueOf r, summary (worldOf r)))
             (buyMaxUpgrade 3 "eliteAntsStoreUpgrade" (exampleWorld 250 []))
    = Some (true, (0, ["eliteAntsStoreUpgrade"; "eliteAntsStoreUpgrade"],
                   Some 225, Some 20)) /\
  option_map (fun r => (fst r, summary (snd r)))
             (buyRepeatedly 3 "eliteAntsStoreUpgrade" (exampleWorld 250 []))
    = Some (1%nat, (150, ["eliteAntsStoreUpgrade"], Some 300, Some 20)) /\
  option_map (fun r => (valueOf r, summary (worldOf r)))
             (buyMaxUpgrade 3 "autoAnts" (exampleWorld 50 []))
    = Some (true, (0, ["autoAnts"; "autoAnts"], Some 100, Some 45)) /\
  option_map (fun r => (valueOf r, worldOf r))
             (buyMaxUpgrade 3 "noSuchUpgrade" (exampleWorld 50 []))
    = Some (false, exampleWorld 50 []).
Proof. cbv zeta. repeat split. Qed.

(** *** Loading *)

(** [loadPrestigeState] has the fallback that [loadGameState] lacks: a
    saved record without cost fields gives the seven costs it restores
    their initial values. *)
Lemma loadPrestigeState_falls_back :
  loadPrestigeState emptySave initialStore = initialStore.
Proof. reflexivity. Qed.

(** ** prestigeStore.ts: more of its actions *)

(** *** More on buyMaxUpgrade *)

Lemma buyMaxStep_other (upgradeId other : string) (w : World) :
  other <> upgradeId ->
  findUpgrade other (worldOf (buyMaxStep upgradeId w)) = findUpgrade other w.
Proof.
  intro Hne. unfold buyMaxStep. run.
  destruct (findUpgrade upgradeId w) as [upgrade|] eqn:Hfind; [|reflexivity].
  run. rewrite applyPrestigeUpgrade_unfold. cbn [andb].
  match goal with
  | |- context [executeUpgrade upgradeId ?x] =>
    destruct (executeUpgrade_ledger upgradeId x) as (_ & _ & _ & L4 & _);
    unfold worldOf, outputOf in *;
    destruct (executeUpgrade upgradeId x) as [[[] w2] out]
  end.
  cbn in *. unfold findUpgrade. cbn. rewrite L4.
  now apply find_updateFound_other.
Qed.

Lemma while_buys (upgradeId : string) (fuel : nat) :
  forall (w w' : World) (out : list Event) (upgrade : PrestigeShopItem),
  findUpgrade upgradeId w = Some upgrade ->
  1 <= cost upgrade ->
  0 <= prestigePoints (prestigeStore w) ->
  while fuel (canAfford upgradeId) (buyMaxStep upgradeId) w
    = Some (tt, w', out) ->
  exists (k : nat) (upgrade' : PrestigeShopItem),
    purchasedUpgrades (prestigeStore w')
      = purchasedUpgrades (prestigeStore w) ++ repeat upgradeId k /\
    findUpgrade upgradeId w' = Some upgrade' /\
    withoutCost upgrade' = withoutCost upgrade /\
    cost upgrade <= cost upgrade' /\
    0 <= prestigePoints (prestigeStore w') < cost upgrade' /\
    prestigePoints (prestigeStore w')
      <= prestigePoints (prestigeStore w) - Z.of_nat k * cost upgrade /\
    (forall other, other <> upgradeId ->
       findUpgrade other w' = findUpgrade other w).
Proof.
  induction fuel as [|fuel IH]; intros w w' out upgrade Hfind Hcost Hpoints H.
  - cbn [while] in H.
    destruct (canAfford upgradeId w) eqn:E; [discriminate|].
    injection H as <- _. exists O, upgrade.
    assert (Hlt : ~ cost upgrade <= prestigePoints (prestigeStore w)).
    { intro Hle. apply (canAfford_iff _ _ _ Hfind) in Hle. congruence. }
    cbn [repeat]. rewrite app_nil_r. repeat split; try lia. exact Hfind.
  - cbn [while] in H.
    destruct (canAfford upgradeId w) eqn:E.
    + apply (canAfford_iff _ _ _ Hfind) in E.
      destruct (buyMaxStep_spec _ _ _ Hfind) as (Hp & Hl & Hf).
      pose proof (fun other => buyMaxStep_other upgradeId other w) as Hother.
      unfold worldOf in *.
      destruct (buyMaxStep upgradeId w) as [[[] w1] out1].
      cbn [fst snd] in *.
      destruct (while fuel (canAfford upgradeId) (buyMaxStep upgradeId) w1)
        as [[[[] w2] out2]|] eqn:Hw; [|discriminate].
      injection H as <- _.
      pose proof (grow_default_ge (cost upgrade)) as Hgrow.
      destruct (IH w1 w2 out2 (growCost 1.5 upgrade) Hf) as
          (k & upgrade' & Hk & Hf' & Hsame & Hc & Hb & Hspent & Hothers);
        [rewrite cost_growCost_default; lia | lia | exact Hw |].
      rewrite cost_growCost_default in *.
      exists (S k), upgrade'.
      split.
      { rewrite Hk, Hl, <- app_assoc. reflexivity. }
      split; [exact Hf'|]. split; [exact Hsame|].
      split; [lia|]. split; [lia|]. split; [nia|].
      intros other Hne. rewrite (Hothers other Hne).
      exact (Hother other Hne).
    + injection H as <- _. exists O, upgrade.
      assert (Hlt : ~ cost upgrade <= prestigePoints (prestigeStore w)).
      { intro Hle. apply (canAfford_iff _ _ _ Hfind) in Hle. congruence. }
      cbn [repeat]. rewrite app_nil_r. repeat split; try lia. exact Hfind.
Qed.

(** X12.  For an id of the shop whose cost is at least 1 and a balance that
    is not negative and at most 2^51, where the whole numbers of this model
    are the doubles of the code, [buyMaxUpgrade] returns [true] after
    buying some number k of times: it appends the id k times to
    [purchasedUpgrades]; it leaves a balance that is not negative, that is
    below the cost the item has then, and that is at most the old balance
    less k times the old cost; the item differs from the old one in its
    cost only, which is not smaller; and every other item of the shop is as
    it was. *)
Theorem buyMaxUpgrade_spends_what_it_can (upgradeId : string) (w : World)
                                         (upgrade : PrestigeShopItem) :
  findUpgrade upgradeId w = Some upgrade ->
  1 <= cost upgrade ->
  0 <= prestigePoints (prestigeStore w) <= maxExactBalance ->
  exists (w' : World) (out : list Event) (k : nat)
         (upgrade' : PrestigeShopItem),
    buyMaxUpgrade (Z.to_nat (prestigePoints (prestigeStore w))) upgradeId w
      = Some (true, w', out) /\
    purchasedUpgrades (prestigeStore w')
      = purchasedUpgrades (prestigeStore w) ++ repeat upgradeId k /\
    findUpgrade upgradeId w' = Some upgrade' /\
    withoutCost upgrade' = withoutCost upgrade /\
    cost upgrade <= cost upgrade' /\
    0 <= prestigePoints (prestigeStore w') < cost upgrade' /\
    prestigePoints (prestigeStore w')
      <= prestigePoints (prestigeStore w) - Z.of_nat k * cost upgrade /\
    (forall other, other <> upgradeId ->
       findUpgrade other w' = findUpgrade other w).
Proof.
  intros Hfind Hcost [Hpoints _].
  destruct (while_terminates upgradeId
              (Z.to_nat (prestigePoints (prestigeStore w)))
              w upgrade Hfind Hcost) as (w' & out & Hw); [lia|].
  destruct (while_buys _ _ _ _ _ _ Hfind Hcost Hpoints Hw)
    as (k & upgrade' & H).
  exists w', (out ++ [LogPurchasedMax (name upgrade)]), k, upgrade'.
  split; [|exact H].
  unfold buyMaxUpgrade. now rewrite Hfind, Hw.
Qed.

(** X12, witness: 50 points and the upgrade [autoAnts], whose cost is 20. *)
Lemma buyMaxUpgrade_spends_what_it_can_witness :
  exists w' out,
    buyMaxUpgrade 50 "autoAnts" (exampleWorld 50 []) = Some (true, w', out) /\
    0 <= prestigePoints (prestigeStore w').
Proof.
  destruct (buyMaxUpgrade_spends_what_it_can "autoAnts" (exampleWorld 50 [])
              {| id := "autoAnts"; name := "Auto Ant Creation"; cost := 20;
                 oneTimePurchase := Some true; applyOnPrestige := Some true;
                 category := Some cat_auto; unlockedWhen := None |}
              eq_refl)
    as (w' & out & k & upgrade' & H & _ & _ & _ & _ & Hb & _).
  - cbn. lia.
  - split; [cbn; lia | vm_compute; discriminate].
  - exists w', out. split; [exact H | lia].
Defined.

(** X13.  For an id of the shop other than [eliteAntsStoreUpgrade], with a
    cost of at least 1 and a balance that is not negative and at most 2^51,
    where the whole numbers of this model are the doubles of the code,
    [buyMaxUpgrade] and [buyUpgrade] called until it returns [false] both
    come to an end and leave the same stores. *)
Theorem buyMaxUpgrade_is_buyUpgrade_repeated (upgradeId : string) (w : World)
                                             (upgrade : PrestigeShopItem) :
  upgradeId <> "eliteAntsStoreUpgrade" ->
  findUpgrade upgradeId w = Some upgrade ->
  1 <= cost upgrade ->
  0 <= prestigePoints (prestigeStore w) <= maxExactBalance ->
  let fuel := Z.to_nat (prestigePoints (prestigeStore w)) in
  exists (w' : World) (out : list Event) (n : nat),
    buyMaxUpgrade fuel upgradeId w = Some (true, w', out) /\
    buyRepeatedly (S fuel) upgradeId w = Some (n, w').
Proof.
  intros Hne Hfind Hcost [Hpoints _]. cbv zeta.
  destruct (while_terminates upgradeId
              (Z.to_nat (prestigePoints (prestigeStore w)))
              w upgrade Hfind Hcost) as (w' & out & Hw); [lia|].
  destruct (buyMaxUpgrade_agrees upgradeId _ Hne _ _ _ Hw) as (n & Hn).
  exists w', (out ++ [LogPurchasedMax (name upgrade)]), n.
  split; [|exact Hn].
  unfold buyMaxUpgrade. now rewrite Hfind, Hw.
Qed.

(** X13, witness: 50 points and the upgrade [autoAnts]. *)
Lemma buyMaxUpgrade_is_buyUpgrade_repeated_witness :
  exists w' out n,
    buyMaxUpgrade 50 "autoAnts" (exampleWorld 50 []) = Some (true, w', out) /\
    buyRepeatedly 51 "autoAnts" (exampleWorld 50 []) = Some (n, w').
Proof.
  destruct (buyMaxUpgrade_is_buyUpgrade_repeated "autoAnts"
              (exampleWorld 50 [])
              {| id := "autoAnts"; name := "Auto Ant Creation"; cost := 20;
                 oneTimePurchase := Some true; applyOnPrestige := Some true;
                 category := Some cat_auto; unlockedWhen := None |})
    as (w' & out & n & H).
  - discriminate.
  - reflexivity.
  - cbn. lia.
  - split; [cbn; lia | vm_compute; discriminate].
  - exists w', out, n. exact H.
Defined.

(** *** The getters after a purchase *)

Lemma buyUpgrade_history (upgradeId : string) (w : World) :
  canAfford upgradeId w = true ->
  let p' := prestigeStore (worldOf (buyUpgrade upgradeId w)) in
  purchasedUpgrades p' = purchasedUpgrades (prestigeStore w) ++ [upgradeId] /\
  timesPrestiged p' = timesPrestiged (prestigeStore w).
Proof.
  intro Hafford. cbv zeta. rewrite buyUpgrade_unfold.
  unfold canAfford in Hafford.
  destruct (findUpgrade upgradeId w) as [upgrade|] eqn:Hfind;
    [|discriminate].
  rewrite Hafford. cbv zeta.
  pose proof (findUpgrade_id _ _ _ Hfind) as Hid.
  match goal with
  | |- context [executeUpgrade upgradeId ?x] =>
    destruct (executeUpgrade_ledger upgradeId x) as (_ & L2 & L3 & _)
  end.
  unfold worldOf in *. cbn [fst snd] in *.
  rewrite L2, L3. cbn. now rewrite Hid.
Qed.

Lemma amount_after_push (upgradeId other : string) (l : list string) :
  List.length (filter (fun i => i =? other) (l ++ [upgradeId]))
  = (List.length (filter (fun i => String.eqb i other) l)
     + if String.eqb upgradeId other then 1 else 0)%nat.
Proof.
  rewrite filter_app, length_app. cbn [filter].
  now destruct (upgradeId =? other).
Qed.

Lemma purchased_after_push (upgradeId other : string) (l : list string) :
  existsb (fun i => i =? other) (l ++ [upgradeId])
  = existsb (fun i => i =? other) l || (upgradeId =? other).
Proof. rewrite existsb_app. cbn. now rewrite orb_false_r. Qed.

(** X14.  A purchase that [buyUpgrade] makes shows in the getters and on
    the prestige page: the upgrade counts as purchased, its amount is one
    more and the amount of every other id is the same; an item of the shop
    that was unlocked stays unlocked and one that was maxed stays maxed;
    and an item that is a one-time purchase is maxed once its id is
    bought. *)
Theorem buyUpgrade_shows_in_getters (upgradeId : string) (w : World) :
  canAfford upgradeId w = true ->
  let p := prestigeStore w in
  let p' := prestigeStore (worldOf (buyUpgrade upgradeId w)) in
  upgradePurchased upgradeId p' = true /\
  amountOfUpgrade upgradeId p' = S (amountOfUpgrade upgradeId p) /\
  (forall other, other <> upgradeId ->
     amountOfUpgrade other p' = amountOfUpgrade other p /\
     upgradePurchased other p' = upgradePurchased other p) /\
  (forall u, isUpgradeUnlocked u p = true -> isUpgradeUnlocked u p' = true) /\
  (forall u, isUpgradeMaxed u p = true -> isUpgradeMaxed u p' = true) /\
  (forall u, id u = upgradeId -> oneTimePurchase u = Some true ->
     isUpgradeMaxed u p' = true).
Proof.
  intro Hafford. cbv zeta.
  destruct (buyUpgrade_history upgradeId w Hafford) as (Hl & Ht).
  cbv zeta in Hl, Ht.
  set (p' := prestigeStore (worldOf (buyUpgrade upgradeId w))) in *.
  assert (Hp : forall other,
            upgradePurchased other p'
            = upgradePurchased other (prestigeStore w)
              || (upgradeId =? other)).
  { intro other. unfold upgradePurchased. rewrite Hl.
    apply purchased_after_push. }
  assert (Ha : forall other,
            amountOfUpgrade other p'
            = (amountOfUpgrade other (prestigeStore w)
               + if String.eqb upgradeId other then 1 else 0)%nat).
  { intro other. unfold amountOfUpgrade. rewrite Hl.
    apply amount_after_push. }
  split; [rewrite Hp, String.eqb_refl; apply orb_true_r|].
  split; [rewrite Ha, String.eqb_refl; lia|].
  split.
  { intros other Hne.
    assert (E : (upgradeId =? other) = false)
      by (apply String.eqb_neq; congruence).
    rewrite Ha, Hp, E, orb_false_r. split; [lia | reflexivity]. }
  split.
  { intros u. unfold isUpgradeUnlocked.
    destruct (unlockedWhen u) as [[i|n]|]; [| |reflexivity].
    - rewrite Hp. intros ->. reflexivity.
    - now rewrite Ht. }
  split.
  { intros u. unfold isUpgradeMaxed.
    destruct (oneTimePurchase u) as [[|]|]; try discriminate.
    rewrite Hp. intros ->. reflexivity. }
  intros u Hid Hone. unfold isUpgradeMaxed. rewrite Hone, Hid, Hp.
  rewrite String.eqb_refl. apply orb_true_r.
Qed.

(** X14, witness: buying [eliteAnts] with 500 points. *)
Lemma buyUpgrade_shows_in_getters_witness :
  upgradePurchased "eliteAnts"
    (prestigeStore (worldOf (buyUpgrade "eliteAnts" (exampleWorld 500 []))))
  = true.
Proof.
  destruct (buyUpgrade_shows_in_getters "eliteAnts" (exampleWorld 500 []))
    as (H & _); [reflexivity | exact H].
Defined.

(** *** Applying the whole purchase history *)



(** *** Saving and loading the prestige store *)

Lemma find_map_keeps_id (f : PrestigeShopItem -> PrestigeShopItem)
                        (i : string) (shop : list PrestigeShopItem) :
  (forall u, id (f u) = id u) ->
  find (fun u => id u =? i) (map f shop)
  = option_map f (find (fun u => id u =? i) shop).
Proof.
  intro Hf. induction shop as [|u shop IH]; [reflexivity|].
  cbn. rewrite Hf. destruct (id u =? i); [reflexivity | exact IH].
Qed.

(** What the callback of [loadPrestigeState] does to an item: it replaces
    the cost, by the saved one or its fallback, for seven ids. *)
Lemma loadShopCost_as_set_cost (savedState : SavedState)
                               (u : PrestigeShopItem) :
  loadShopCost savedState u
  = set_cost
      (if id u =? "storageUpgrade"
       then sv_storagePrestigeCost savedState ?? 5
       else if id u =? "eliteAntsStoreUpgrade"
       then sv_eliteAntsStoreUpgradeCost savedState ?? 100
       else if id u =? "productionBoost"
       then sv_productionPrestigeCost savedState ?? 10
       else if id u =? "queenEfficiency"
       then sv_queenPrestigeCost savedState ?? 15
       else if id u =? "betterAnts"
       then sv_betterAntsPrestigeCost savedState ?? 50
       else if id u =? "betterAntsDefense"
       then sv_betterAntsDefensePrestigeCost savedState ?? 50
       else if id u =? "startWithAnts"
       then sv_startWithAntsPrestigeCost savedState ?? 15
       else cost u) u.
Proof.
  destruct u as [i n c o a cat un]. unfold loadShopCost.
  repeat (cbv zeta; cbn [id cost set_cost];
          match goal with
          | |- context [if (i =? ?b)%string then _ else _] =>
            destruct (String.eqb_spec i b) as [->|?]; [reflexivity|]
          end).
  reflexivity.
Qed.

Lemma loadShopCost_keeps_id (savedState : SavedState)
                            (u : PrestigeShopItem) :
  id (loadShopCost savedState u) = id u.
Proof.
  exact (eq_trans (f_equal id (loadShopCost_as_set_cost savedState u))
                  eq_refl).
Qed.

Lemma find_gives_id (i : string) (shop : list PrestigeShopItem)
                    (u : PrestigeShopItem) :
  find (fun u => id u =? i) shop = Some u -> id u = i.
Proof. intro H. apply find_some in H. now apply String.eqb_eq. Qed.

Lemma loadPrestigeState_unfold (savedState : SavedState) (p : Store) :
  loadPrestigeState savedState p
  = set_prestigeShop
      (map (loadShopCost savedState) (prestigeShop p))
      (set_autoEliteAntsCreation
         (sv_autoEliteAntsCreation savedState ?? autoEliteAntsCreation p)
      (set_autoSeedStorageUpgrade
         (sv_autoSeedStorageUpgrade savedState ?? autoSeedStorageUpgrade p)
      (set_autoQueenCreation
         (sv_autoQueenCreation savedState ?? autoQueenCreation p)
      (set_autoAntCreation
         (sv_autoAntCreation savedState ?? autoAntCreation p)
      (set_autoLarvaeCreation
         (sv_autoLarvaeCreation savedState ?? autoLarvaeCreation p)
      (set_purchasedUpgrades
         (sv_purchasedUpgrades savedState ?? purchasedUpgrades p)
      (set_timesPrestiged
         (sv_timesPrestiged savedState ?? timesPrestiged p)
      (set_prestigePoints
         (sv_prestigePoints savedState ?? prestigePoints p) p)))))))).
Proof. destruct p. reflexivity. Qed.

(** X16.  Loading what [getPrestigeState] saved of a prestige store into
    another one carries over the balance, the prestige count, the purchase
    history and the five automation flags, and the cost of each of the
    seven saved ids that both shops have; the cost of every other item and
    [antsFromPrestigeShop] stay as the store that loads has them. *)
Theorem loadPrestigeState_getPrestigeState (p target : Store) :
  let p' := loadPrestigeState (getPrestigeState p) target in
  prestigePoints p' = prestigePoints p /\
  timesPrestiged p' = timesPrestiged p /\
  purchasedUpgrades p' = purchasedUpgrades p /\
  autoLarvaeCreation p' = autoLarvaeCreation p /\
  autoAntCreation p' = autoAntCreation p /\
  autoQueenCreation p' = autoQueenCreation p /\
  autoSeedStorageUpgrade p' = autoSeedStorageUpgrade p /\
  autoEliteAntsCreation p' = autoEliteAntsCreation p /\
  antsFromPrestigeShop p' = antsFromPrestigeShop target /\
  (forall i, In i savedCostIds ->
     findCost i p <> None -> findCost i target <> None ->
     findCost i p' = findCost i p) /\
  (forall i, ~ In i savedCostIds -> findCost i p' = findCost i target).
Proof.
  cbv zeta.
  set (p' := loadPrestigeState (getPrestigeState p) target).
  assert (Es : p' = _)
    by apply (loadPrestigeState_unfold (getPrestigeState p) target).
  repeat (split; [rewrite Es; reflexivity|]).
  assert (Ec : forall i, findCost i p'
                 = option_map
                     (fun u => cost (loadShopCost (getPrestigeState p) u))
                     (find (fun u => id u =? i) (prestigeShop target))).
  { intro i. rewrite Es. unfold findCost. cbn [prestigeShop set_prestigeShop].
    rewrite find_map_keeps_id by apply loadShopCost_keeps_id.
    destruct (find _ (prestigeShop target)); reflexivity. }
  split.
  - intros i Hin Hp Ht. rewrite Ec.
    unfold findCost in Ht.
    destruct (find (fun u => id u =? i) (prestigeShop target))
      as [u|] eqn:Hfind; [|now elim Ht].
    apply find_gives_id in Hfind.
    cbn [option_map]. rewrite loadShopCost_as_set_cost, Hfind.
    cbn [cost set_cost].
    destruct (findCost i p) as [c|] eqn:Hc; [|now elim Hp].
    cbn in Hin.
    repeat (destruct Hin as [<-|Hin];
            [cbn [String.eqb Ascii.eqb Bool.eqb getPrestigeState
                  sv_storagePrestigeCost sv_eliteAntsStoreUpgradeCost
                  sv_productionPrestigeCost sv_queenPrestigeCost
                  sv_betterAntsPrestigeCost sv_betterAntsDefensePrestigeCost
                  sv_startWithAntsPrestigeCost];
             rewrite Hc; reflexivity|]).
    contradiction.
  - intros i Hnot. rewrite Ec. unfold findCost.
    destruct (find (fun u => id u =? i) (prestigeShop target))
      as [u|] eqn:Hfind; [|reflexivity].
    apply find_gives_id in Hfind.
    cbn [option_map]. rewrite loadShopCost_as_set_cost, Hfind.
    cbn [cost set_cost].
    repeat match goal with
           | |- context [if (i =? ?b)%string then _ else _] =>
             destruct (String.eqb_spec i b) as [->|?];
             [exfalso; apply Hnot; cbn; tauto|]
           end.
    reflexivity.
Qed.

Lemma find_own_id (shop : list PrestigeShopItem) (u : PrestigeShopItem) :
  NoDup (map id shop) -> In u shop ->
  find (fun v => id v =? id u) shop = Some u.
Proof.
  induction shop as [|v shop IH]; intros Hnd Hin; [contradiction|].
  cbn. inversion Hnd as [|? ? Hnotin Hnd']; subst.
  destruct Hin as [->|Hin].
  - now rewrite String.eqb_refl.
  - destruct (String.eqb_spec (id v) (id u)) as [E|_].
    + exfalso. apply Hnotin. rewrite E. now apply in_map.
    + now apply IH.
Qed.

(** X17.  When no two items of the shop share an id, saving a prestige
    store and loading the record into the same store changes nothing. *)
Theorem loadPrestigeState_own_save (p : Store) :
  NoDup (map id (prestigeShop p)) ->
  loadPrestigeState (getPrestigeState p) p = p.
Proof.
  intro Hnd.
  pose proof (loadPrestigeState_unfold (getPrestigeState p) p) as Es.
  rewrite Es.
  assert (Eshop : map (loadShopCost (getPrestigeState p)) (prestigeShop p)
                  = prestigeShop p).
  { rewrite <- (map_id (prestigeShop p)) at 2.
    apply map_ext_in. intros u Hin.
    pose proof (find_own_id _ _ Hnd Hin) as Hfind.
    rewrite loadShopCost_as_set_cost.
    assert (Ecost : forall d, findCost (id u) p ?? d = cost u).
    { intro d. unfold findCost. now rewrite Hfind. }
    repeat match goal with
           | |- context [if (id u =? ?b)%string then _ else _] =>
             destruct (String.eqb_spec (id u) b) as [E|?];
             [cbn [getPrestigeState
                   sv_storagePrestigeCost sv_eliteAntsStoreUpgradeCost
                   sv_productionPrestigeCost sv_queenPrestigeCost
                   sv_betterAntsPrestigeCost sv_betterAntsDefensePrestigeCost
                   sv_startWithAntsPrestigeCost];
              rewrite <- E, Ecost; now destruct u|]
           end.
    now destruct u. }
  rewrite Eshop. now destruct p.
Qed.

(** X17, witness: the initial store. *)
Lemma loadPrestigeState_own_save_witness :
  loadPrestigeState (getPrestigeState initialStore) initialStore
  = initialStore.
Proof.
  apply loadPrestigeState_own_save.
  cbn. repeat constructor; cbn; intuition discriminate.
Defined.

(** *** Resetting the costs *)

(** X18.  In a shop that has the items of the initial shop, at any costs,
    [resetPrestigeShopCosts] gives every item its initial cost again except
    [tunnels], which keeps the cost it had. *)
Theorem resetPrestigeShopCosts_restores_all_but_tunnels (p : Store) :
  map withoutCost (prestigeShop p) = map withoutCost initialShop ->
  forall i,
    findCost i (resetPrestigeShopCosts p)
    = if i =? "tunnels" then findCost i p else findCost i initialStore.
Proof.
  intros Hshop i. unfold findCost, resetPrestigeShopCosts.
  cbn [prestigeShop set_prestigeShop initialStore].
  destruct (prestigeShop p) as [|u1 [|u2 [|u3 [|u4 [|u5 [|u6 [|u7 [|u8
    [|u9 [|u10 [|u11 [|u12 [|u13 [|u14 [|u15 rest]]]]]]]]]]]]]]];
    try discriminate Hshop.
  destruct u1, u2, u3, u4, u5, u6, u7, u8, u9, u10, u11, u12, u13, u14.
  unfold withoutCost, initialShop in Hshop. cbn [map set_cost id name cost
    oneTimePurchase applyOnPrestige category unlockedWhen] in Hshop.
  injection Hshop as -> -> -> -> -> -> -> -> -> -> -> -> -> -> -> -> -> -> -> ->
    -> -> -> -> -> -> -> -> -> -> -> -> -> -> -> -> -> -> -> ->
    -> -> -> -> -> -> -> -> -> -> -> -> -> -> -> -> -> -> -> ->
    -> -> -> -> -> -> -> -> -> -> -> -> -> -> -> -> -> -> -> ->
    -> -> -> ->.
  destruct (String.eqb_spec i "tunnels") as [->|Hne]; [reflexivity|].
  unfold initialShop. cbn -[find]. cbn [find id].
  repeat match goal with
         | |- context [if (?a =? i)%string then _ else _] =>
           destruct (String.eqb_spec a i) as [<-|?];
           [try reflexivity; now elim Hne|]
         end.
  reflexivity.
Qed.

(** X18, witness: after the storage upgrade was bought, at 5 points, its
    cost is 7, and the reset brings it back to 5. *)
Lemma resetPrestigeShopCosts_restores_all_but_tunnels_witness :
  findCost "storageUpgrade"
    (resetPrestigeShopCosts
       (prestigeStore
          (worldOf (buyUpgrade "storageUpgrade" (exampleWorld 50 [])))))
  = Some 5.
Proof.
  exact (resetPrestigeShopCosts_restores_all_but_tunnels
           (prestigeStore
              (worldOf (buyUpgrade "storageUpgrade" (exampleWorld 50 []))))
           eq_refl "storageUpgrade").
Defined.
End PrestigeStoreFacts.

(** ** The achievement store *)

Section AchievementStoreFacts.

Import AchievementStore.
Local Open Scope string_scope.
Local Open Scope list_scope.

Lemma latched_refl (a : Achievement) : latched a a.
Proof. repeat split; auto. Qed.

Lemma latched_trans (a b c : Achievement) :
  latched a b -> latched b c -> latched a c.
Proof.
  intros (Hi & Hn & Hu) (Hi' & Hn' & Hu'). repeat split.
  - now rewrite Hi'.
  - now rewrite Hn'.
  - auto.
Qed.

Lemma Forall2_latched_refl (l : list Achievement) : Forall2 latched l l.
Proof. induction l; constructor; auto using latched_refl. Qed.

Lemma Forall2_latched_trans (l1 l2 l3 : list Achievement) :
  Forall2 latched l1 l2 -> Forall2 latched l2 l3 -> Forall2 latched l1 l3.
Proof.
  intro H. revert l3. induction H as [|a b l1 l2 Hab _ IH]; intros l3 H3.
  - inversion H3. constructor.
  - inversion H3 as [|b' c l2' l3' Hbc Hrest]; subst.
    constructor; [eapply latched_trans; eauto | auto].
Qed.

(** *** checkAchievements *)

Lemma checkAchievement_spec (s : Snapshot) (a : Achievement) :
  let (a', toasts) := checkAchievement s a in
  latched a a' /\
  isUnlocked a' = isUnlocked a || unlockCondition a s /\
  unlockCondition a' = unlockCondition a /\
  toasts = if flips s a then [unlockToast a] else [].
Proof.
  unfold checkAchievement, flips.
  destruct (isUnlocked a) eqn:Eu; cbn.
  - repeat split; auto.
  - destruct (unlockCondition a s); cbn; rewrite ?Eu; repeat split; auto.
Qed.

Lemma checkAchievements_spec (s : Snapshot) (achievements : list Achievement) :
  let (achievements', toasts) := checkAchievements s achievements in
  Forall2 latched achievements achievements' /\
  Forall2 (fun a a' => isUnlocked a' = isUnlocked a || unlockCondition a s)
          achievements achievements' /\
  toasts = map unlockToast (filter (flips s) achievements).
Proof.
  induction achievements as [|a rest IH]; cbn [checkAchievements].
  - repeat split; constructor.
  - pose proof (checkAchievement_spec s a) as Ha.
    destruct (checkAchievement s a) as [a' toasts].
    destruct (checkAchievements s rest) as [rest' toasts'].
    destruct Ha as (Hl & Hu & _ & Ht).
    destruct IH as (IHl & IHu & IHt).
    split; [now constructor|]. split; [now constructor|].
    subst toasts toasts'. cbn [filter].
    destruct (flips s a); reflexivity.
Qed.

(** *** Saving and loading *)

Lemma saved_entries_unlocked (savedFrom : list Achievement)
                             (a : Achievement) (saved : SavedAchievement) :
  findSaved (Some (getAchievementState savedFrom)) a = Some saved ->
  sv_isUnlocked saved = true.
Proof.
  cbn. intro H. apply find_some in H. destruct H as [H _].
  now apply filter_In in H.
Qed.

Lemma loadAchievementState_latched (savedFrom achievements : list Achievement) :
  Forall2 latched achievements
    (loadAchievementState (Some (getAchievementState savedFrom))
                          achievements).
Proof.
  unfold loadAchievementState.
  induction achievements as [|a rest IH]; cbn [map]; constructor; auto.
  destruct (findSaved _ a) as [saved|] eqn:E; [|apply latched_refl].
  apply saved_entries_unlocked in E. rewrite E. repeat split.
Qed.

Lemma perform_latched (op : Operation) (achievements : list Achievement) :
  Forall2 latched achievements (perform op achievements).
Proof.
  destruct op as [s|savedFrom]; cbn [perform].
  - pose proof (checkAchievements_spec s achievements) as H.
    destruct (checkAchievements s achievements). apply H.
  - apply loadAchievementState_latched.
Qed.

(** C9.  Over any sequence of evaluations and of loads of what
    [getAchievementState] returned, every achievement keeps its place, id
    and name, and one that was unlocked is still unlocked.  An evaluation
    leaves an achievement unlocked exactly when it was unlocked or its
    condition holds, and shows one toast for each achievement it flips, in
    the order of the list.  A load of what [getAchievementState] returned
    locks nothing. *)
Theorem C9_unlocked_never_reverts :
  (forall (ops : list Operation) (achievements : list Achievement),
     Forall2 latched achievements (run ops achievements)) /\
  (forall (s : Snapshot) (achievements : list Achievement),
     Forall2 (fun a a' =>
                isUnlocked a' = isUnlocked a || unlockCondition a s)
             achievements (fst (checkAchievements s achievements)) /\
     snd (checkAchievements s achievements)
       = map unlockToast (filter (flips s) achievements)) /\
  (forall (savedFrom achievements : list Achievement),
     Forall2 latched achievements
       (loadAchievementState (Some (getAchievementState savedFrom))
                             achievements)).
Proof.
  split; [|split].
  - intro ops. unfold run.
    induction ops as [|op ops IH]; intro achievements; cbn [fold_left].
    + apply Forall2_latched_refl.
    + eapply Forall2_latched_trans; [apply perform_latched | apply IH].
  - intros s achievements.
    pose proof (checkAchievements_spec s achievements) as H.
    destruct (checkAchievements s achievements). cbn [fst snd].
    destruct H as (_ & Hu & Ht). now split.
  - apply loadAchievementState_latched.
Qed.

(** A load of a record that did not come from [getAchievementState] can
    lock an achievement again: the guarantee is about round trips. *)
Lemma loadAchievementState_foreign_record_locks :
  let unlocked := map (set_isUnlocked true) initialAchievements in
  let foreign := {| sv_achievements :=
                      Some [ {| sv_id := "first_100_seeds";
                                sv_isUnlocked := false |} ] |} in
  option_map isUnlocked (hd_error unlocked) = Some true /\
  option_map isUnlocked
    (hd_error (loadAchievementState (Some foreign) unlocked)) = Some false.
Proof. split; reflexivity. Qed.

(** ** The achievement store: more of its actions *)

(** *** Evaluating twice *)

(** X19.  A second [checkAchievements] against the same stores changes no
    achievement and shows no toast. *)
Theorem checkAchievements_twice (s : Snapshot)
                                (achievements : list Achievement) :
  checkAchievements s (fst (checkAchievements s achievements))
  = (fst (checkAchievements s achievements), []).
Proof.
  induction achievements as [|a rest IH]; [reflexivity|].
  cbn [checkAchievements].
  destruct (checkAchievements s rest) as [rest' toasts'] eqn:Erest.
  cbn [fst] in IH.
  assert (Ha : checkAchievement s (fst (checkAchievement s a))
               = (fst (checkAchievement s a), [])).
  { unfold checkAchievement.
    destruct (isUnlocked a) eqn:Eu; cbn [negb andb fst].
    - now rewrite Eu.
    - destruct (unlockCondition a s) eqn:Ec; cbn [fst].
      + reflexivity.
      + now rewrite Eu, Ec. }
  destruct (checkAchievement s a) as [a' toasts]. cbn [fst] in *.
  cbn [checkAchievements]. now rewrite Ha, IH.
Qed.

(** *** More on saving and loading *)

(** Whether some achievement of [savedFrom] with the id of [a] is
    unlocked, which is whether the record saved from it has an entry for
    [a]. *)
Lemma findSaved_spec (savedFrom : list Achievement) (a : Achievement) :
  match findSaved (Some (getAchievementState savedFrom)) a with
  | Some saved =>
    sv_isUnlocked saved = true /\
    existsb (fun b => isUnlocked b && (id b =? id a)) savedFrom = true
  | None =>
    existsb (fun b => isUnlocked b && (id b =? id a)) savedFrom = false
  end.
Proof.
  cbn [findSaved getAchievementState sv_achievements].
  induction savedFrom as [|b rest IH]; [reflexivity|].
  cbn [map filter sv_isUnlocked existsb].
  destruct (isUnlocked b) eqn:Eu; cbn [andb orb].
  - cbn [find sv_id]. destruct (id b =? id a); cbn [orb].
    + split; reflexivity.
    + exact IH.
  - exact IH.
Qed.

Lemma loaded_isUnlocked (savedFrom : list Achievement) (a : Achievement) :
  match findSaved (Some (getAchievementState savedFrom)) a with
  | Some savedAchievement =>
    set_isUnlocked (sv_isUnlocked savedAchievement) a
  | None => a
  end
  = set_isUnlocked
      (isUnlocked a
       || existsb (fun b => isUnlocked b && (id b =? id a)) savedFrom) a.
Proof.
  pose proof (findSaved_spec savedFrom a) as H.
  destruct (findSaved _ a) as [saved|].
  - destruct H as (-> & ->). now rewrite orb_true_r.
  - rewrite H, orb_false_r. now destruct a.
Qed.

(** X20.  Loading what [getAchievementState] saved of some achievements
    leaves an achievement unlocked exactly when it was unlocked or the
    saved ones have an unlocked achievement of its id; nothing else of it
    changes. *)
Theorem loadAchievementState_merges_unlocks
        (savedFrom achievements : list Achievement) :
  loadAchievementState (Some (getAchievementState savedFrom)) achievements
  = map (fun a =>
           set_isUnlocked
             (isUnlocked a
              || existsb (fun b => isUnlocked b && (id b =? id a)) savedFrom)
             a)
        achievements.
Proof.
  unfold loadAchievementState. apply map_ext. intro a.
  apply loaded_isUnlocked.
Qed.

Lemma unlocked_by_own_id (achievements : list Achievement)
                         (a : Achievement) :
  NoDup (map id achievements) -> In a achievements ->
  existsb (fun b => isUnlocked b && (id b =? id a)) achievements
  = isUnlocked a.
Proof.
  induction achievements as [|b rest IH]; intros Hnd Hin; [contradiction|].
  inversion Hnd as [|? ? Hnotin Hnd']; subst.
  cbn [existsb]. destruct Hin as [->|Hin].
  - rewrite String.eqb_refl, andb_true_r.
    destruct (isUnlocked a); [reflexivity|]. cbn [orb].
    apply not_true_is_false. intro H. apply existsb_exists in H.
    destruct H as (c & Hc & Hce). apply andb_prop in Hce.
    destruct Hce as [_ Hce]. apply String.eqb_eq in Hce.
    apply Hnotin. rewrite <- Hce. now apply in_map.
  - rewrite (IH Hnd' Hin).
    destruct (String.eqb_spec (id b) (id a)) as [E|_].
    + exfalso. apply Hnotin. rewrite E. now apply in_map.
    + now rewrite andb_false_r.
Qed.

(** X21.  The unlocks survive a reload: when no two achievements share an
    id, loading what [getAchievementState] saved of them into a store that
    has the same ids, all locked, gives every achievement the unlock flag
    it had. *)
Theorem unlocks_survive_reload (achievements fresh : list Achievement) :
  NoDup (map id achievements) ->
  map id fresh = map id achievements ->
  Forall (fun a => isUnlocked a = false) fresh ->
  map isUnlocked
      (loadAchievementState (Some (getAchievementState achievements)) fresh)
  = map isUnlocked achievements.
Proof.
  intros Hnd Hids Hlocked.
  unfold loadAchievementState. rewrite map_map.
  set (unlockedId i :=
         existsb (fun b => isUnlocked b && (id b =? i)) achievements).
  transitivity (map unlockedId (map id fresh)).
  - rewrite map_map. apply map_ext_in. intros a Hin.
    rewrite loaded_isUnlocked. cbn [set_isUnlocked isUnlocked].
    rewrite Forall_forall in Hlocked. now rewrite (Hlocked a Hin).
  - rewrite Hids, map_map. apply map_ext_in. intros a Hin.
    now apply unlocked_by_own_id.
Qed.

(** X21, witness: the first achievement is unlocked, the page is loaded
    again, and the saved record is loaded into the new store. *)
Lemma unlocks_survive_reload_witness :
  let fresh := firstn 3 initialAchievements in
  let played := fst (checkAchievements
                       {| seeds := 150; larvae := 0; ants := 0; queens := 0;
                          enemyKillCount := 0; timesPrestiged := 0 |}
                       fresh) in
  map isUnlocked
      (loadAchievementState (Some (getAchievementState played)) fresh)
  = [true; false; false].
Proof.
  cbv zeta.
  apply (unlocks_survive_reload
           (fst (checkAchievements
                   {| seeds := 150; larvae := 0; ants := 0; queens := 0;
                      enemyKillCount := 0; timesPrestiged := 0 |}
                   (firstn 3 initialAchievements)))
           (firstn 3 initialAchievements)).
  - cbn. repeat constructor; cbn; intuition discriminate.
  - reflexivity.
  - cbn. repeat constructor.
Defined.

(** X22.  [loadAchievementState] changes nothing when the saved record
    has no entry for any achievement of the store: so when there is no
    record, when the record has no list, and when the list names none of
    the ids of the store. *)
Theorem loadAchievementState_without_entries
        (state : option SavedState) (achievements : list Achievement) :
  (forall a, In a achievements -> findSaved state a = None) ->
  loadAchievementState state achievements = achievements.
Proof.
  intro Hnone. unfold loadAchievementState.
  rewrite <- (map_id achievements) at 2.
  apply map_ext_in. intros a Hin. now rewrite (Hnone a Hin).
Qed.

(** X22, witness: no record at all. *)
Lemma loadAchievementState_without_entries_witness :
  loadAchievementState None initialAchievements = initialAchievements.
Proof.
  apply loadAchievementState_without_entries. reflexivity.
Defined.

End AchievementStoreFacts.

(** ** Doubles: comparisons, zeros and signs *)

Section DoubleFacts.

Import Floats Double.
Local Open Scope float_scope.

Lemma SFcompare_antisym (a b : spec_float) :
  SFcompare a b = option_map CompOpp (SFcompare b a).
Proof.
  destruct a as [sa|sa| |sa ma ea], b as [sb|sb| |sb mb eb]; cbn;
    try reflexivity;
    try (destruct sa; reflexivity); try (destruct sb; reflexivity);
    try (destruct sa, sb; reflexivity).
  assert (H : CompOpp (PosDef.Pos.compare_cont Eq mb ma)
              = PosDef.Pos.compare_cont Eq ma mb)
    by exact (Pos.compare_cont_antisym mb ma Eq).
  destruct sa, sb; cbn [option_map]; try reflexivity;
    rewrite (Z.compare_antisym ea eb);
    destruct (ea ?= eb)%Z; cbn [CompOpp]; try reflexivity;
    now rewrite H.
Qed.

Lemma is_nan_spec (x : float) :
  is_nan x = match Prim2SF x with S754_nan => true | _ => false end.
Proof.
  unfold is_nan. rewrite eqb_spec. unfold SFeqb.
  destruct (Prim2SF x) as [s|s| |s m e]; cbn; try reflexivity.
  - now destruct s.
  - assert (H : PosDef.Pos.compare_cont Eq m m = Eq)
      by exact (Pos.compare_cont_refl m Eq).
    destruct s; rewrite Z.compare_refl, H; reflexivity.
Qed.

Lemma ltb_leb (x y : float) : (x <? y) = true -> (x <=? y) = true.
Proof.
  rewrite ltb_spec, leb_spec. unfold SFltb, SFleb.
  now destruct (SFcompare (Prim2SF x) (Prim2SF y)) as [[]|].
Qed.

Lemma leb_refl (x : float) : is_nan x = false -> (x <=? x) = true.
Proof.
  unfold is_nan. rewrite eqb_spec, leb_spec. unfold SFeqb, SFleb.
  now destruct (SFcompare (Prim2SF x) (Prim2SF x)) as [[]|].
Qed.

Lemma ltb_asym (x y : float) : (x <? y) = true -> (y <? x) = false.
Proof.
  rewrite !ltb_spec. unfold SFltb.
  rewrite (SFcompare_antisym (Prim2SF y) (Prim2SF x)).
  now destruct (SFcompare (Prim2SF x) (Prim2SF y)) as [[]|].
Qed.

Lemma leb_total (x y : float) :
  is_nan x = false -> is_nan y = false ->
  (y <? x) = false -> (x <=? y) = true.
Proof.
  rewrite !is_nan_spec, ltb_spec, leb_spec. unfold SFltb, SFleb.
  rewrite (SFcompare_antisym (Prim2SF y) (Prim2SF x)).
  destruct (Prim2SF x) as [sx|sx| |sx mx ex] eqn:Ex; try discriminate;
    destruct (Prim2SF y) as [sy|sy| |sy my ey] eqn:Ey; try discriminate;
    intros _ _;
    destruct (SFcompare _ _) as [[]|] eqn:E; cbn; try reflexivity;
    try discriminate.
  all: cbn in E; try discriminate E;
    try (destruct sx; discriminate E); try (destruct sy; discriminate E);
    try (destruct sx, sy; discriminate E).
Qed.

Lemma double_min_le_r (x y : float) :
  is_nan x = false -> is_nan y = false -> le (Math_min x y) y = true.
Proof.
  intros Hx Hy. unfold le, Math_min. rewrite Hx, Hy. cbn [orb].
  destruct (x <? y) eqn:E1; [now apply ltb_leb|].
  destruct (y <? x) eqn:E2; [now apply leb_refl|].
  destruct (get_sign x); [now apply leb_total | now apply leb_refl].
Qed.

Lemma double_min_le_l (x y : float) :
  is_nan x = false -> is_nan y = false -> le (Math_min x y) x = true.
Proof.
  intros Hx Hy. unfold le, Math_min. rewrite Hx, Hy. cbn [orb].
  destruct (x <? y) eqn:E1; [now apply leb_refl|].
  destruct (y <? x) eqn:E2; [now apply ltb_leb|].
  destruct (get_sign x); [now apply leb_refl | now apply leb_total].
Qed.


(** *** Zeros, finite numbers and signs *)

Lemma is_zero_spec (x : float) :
  is_zero x = match Prim2SF x with S754_zero _ => true | _ => false end.
Proof.
  unfold is_zero. rewrite eqb_spec. unfold SFeqb.
  change (Prim2SF zero) with (S754_zero false).
  destruct (Prim2SF x) as [s|s| |s m e]; cbn; try reflexivity;
    now destruct s.
Qed.

Lemma is_finite_spec (x : float) :
  is_finite x = match Prim2SF x with
                | S754_zero _ | S754_finite _ _ _ => true
                | _ => false
                end.
Proof.
  unfold is_finite, is_infinity.
  rewrite is_nan_spec, eqb_spec, abs_spec. unfold SFeqb.
  change (Prim2SF infinity) with (S754_infinity false).
  destruct (Prim2SF x) as [s|s| |s m e]; cbn; reflexivity.
Qed.

Lemma is_finite_not_nan (x : float) : is_finite x = true -> is_nan x = false.
Proof.
  rewrite is_finite_spec, is_nan_spec. now destruct (Prim2SF x).
Qed.

(** [x - x] is 0 for every finite [x]. *)
Lemma sub_diag (x : float) : is_finite x = true -> x - x = 0.
Proof.
  rewrite is_finite_spec. intro H. apply Prim2SF_inj.
  rewrite sub_spec. change (Prim2SF 0) with (S754_zero false).
  destruct (Prim2SF x) as [s|s| |s m e]; try discriminate.
  - now destruct s.
  - unfold SF64sub, SFsub. cbv zeta. now rewrite Z.sub_diag.
Qed.

Lemma mul_zero_l (z x : float) :
  is_zero z = true -> is_finite x = true -> is_zero (z * x) = true.
Proof.
  rewrite !is_zero_spec, is_finite_spec, mul_spec.
  destruct (Prim2SF z) as [sz|sz| |sz mz ez]; try discriminate.
  now destruct (Prim2SF x).
Qed.

Lemma double_floor_zero (z : float) :
  is_zero z = true -> Math_floor z = z.
Proof.
  rewrite is_zero_spec. unfold Math_floor.
  now destruct (Prim2SF z).
Qed.

Lemma ltb_zero_l (z x : float) :
  is_zero z = true -> (z <? x) = (0 <? x).
Proof.
  rewrite is_zero_spec, !ltb_spec.
  change (Prim2SF 0) with (S754_zero false).
  destruct (Prim2SF z) as [sz|sz| |sz mz ez]; try discriminate.
  now destruct (Prim2SF x).
Qed.

Lemma ltb_zero_r (z x : float) :
  is_zero z = true -> (x <? z) = (x <? 0).
Proof.
  rewrite is_zero_spec, !ltb_spec.
  change (Prim2SF 0) with (S754_zero false).
  destruct (Prim2SF z) as [sz|sz| |sz mz ez]; try discriminate.
  now destruct (Prim2SF x).
Qed.

(** Neither below nor above 0, and a number: a zero. *)
Lemma zero_of_tie (x : float) :
  is_nan x = false -> (x <? 0) = false -> (0 <? x) = false ->
  is_zero x = true.
Proof.
  rewrite is_nan_spec, is_zero_spec, !ltb_spec.
  change (Prim2SF 0) with (S754_zero false). unfold SFltb.
  destruct (Prim2SF x) as [s|s| |s m e]; cbn; try reflexivity;
    try discriminate; now destruct s.
Qed.

(** What [Math.min] of a zero and a number is: the number when it is
    negative, and a zero otherwise. *)
Lemma double_min_zero_l (z h : float) :
  is_zero z = true -> is_nan h = false ->
  if h <? 0 then Math_min z h = h else is_zero (Math_min z h) = true.
Proof.
  intros Hz Hh. unfold Math_min.
  assert (Hn : is_nan z = false).
  { rewrite is_nan_spec. rewrite is_zero_spec in Hz.
    now destruct (Prim2SF z). }
  rewrite Hn, Hh. cbn [orb].
  rewrite (ltb_zero_l z h Hz), (ltb_zero_r z h Hz).
  destruct (h <? 0) eqn:E.
  - now rewrite (ltb_asym _ _ E).
  - destruct (0 <? h) eqn:E'; [exact Hz|].
    destruct (get_sign z); [exact Hz|].
    now apply zero_of_tie.
Qed.

(** The numbers that are not below 0: the zeros, the positive numbers and
    [Infinity]. *)
Lemma nonneg_spec (x : float) :
  (0 <=? x) = match Prim2SF x with
              | S754_zero _ | S754_finite false _ _ | S754_infinity false =>
                true
              | _ => false
              end.
Proof.
  rewrite leb_spec. change (Prim2SF 0) with (S754_zero false).
  unfold SFleb. destruct (Prim2SF x) as [s|s| |s m e]; cbn; try reflexivity;
    now destruct s.
Qed.

Lemma binary_round_aux_sign (sx : bool) (mx ex : Z) (lx : location) :
  match binary_round_aux prec emax sx mx ex lx with
  | S754_zero s | S754_finite s _ _ | S754_infinity s => s = sx
  | S754_nan => True
  end.
Proof.
  unfold binary_round_aux.
  destruct (shr_fexp prec emax mx ex lx) as [mrs' e'].
  destruct (shr_fexp prec emax _ e' loc_Exact) as [mrs'' e''].
  destruct (shr_m mrs''); [reflexivity| |exact I].
  now destruct (_ <=? _)%Z.
Qed.

Lemma mul_nonneg (x y : float) :
  (0 <=? x) = true -> (0 <=? y) = true -> is_nan (x * y) = false ->
  (0 <=? x * y) = true.
Proof.
  rewrite !nonneg_spec, is_nan_spec, mul_spec. unfold SF64mul.
  destruct (Prim2SF x) as [[]|[]| |[] mx ex]; try discriminate;
    destruct (Prim2SF y) as [[]|[]| |[] my ey]; try discriminate;
    cbn [SFmul xorb]; try reflexivity; try discriminate.
  intros _ _.
  pose proof (binary_round_aux_sign false (Z.pos (mx * my)) (ex + ey)
                                    loc_Exact) as H.
  destruct (binary_round_aux _ _ _ _ _ _); try discriminate;
    now subst.
Qed.

Lemma mul_nan_l (x y : float) : is_nan x = true -> is_nan (x * y) = true.
Proof.
  rewrite !is_nan_spec, mul_spec.
  now destruct (Prim2SF x).
Qed.

Lemma double_floor_nan (x : float) :
  is_nan x = true -> is_nan (Math_floor x) = true.
Proof.
  intro H. unfold Math_floor. rewrite is_nan_spec in H.
  destruct (Prim2SF x) eqn:E; try discriminate.
  rewrite is_nan_spec, E. reflexivity.
Qed.

Lemma of_uint63_nonneg (n : PrimInt63.int) :
  is_nan (of_uint63 n) = false -> (0 <=? of_uint63 n) = true.
Proof.
  rewrite nonneg_spec, is_nan_spec, of_uint63_spec.
  unfold binary_normalize.
  pose proof (Uint63.to_Z_bounded n) as [Hb _].
  destruct (Uint63.to_Z n) as [|p|p] eqn:E;
    [reflexivity| |exfalso; lia].
  unfold binary_round.
  destruct (shl_align _ _ _) as [mz ez].
  pose proof (binary_round_aux_sign false (Z.pos mz) ez loc_Exact) as H.
  destruct (binary_round_aux _ _ _ _ _ _); try discriminate; now subst.
Qed.

Lemma double_floor_nonneg (x : float) :
  (0 <=? x) = true -> is_nan (Math_floor x) = false ->
  (0 <=? Math_floor x) = true.
Proof.
  intros Hx. unfold Math_floor.
  pose proof Hx as Hs. rewrite nonneg_spec in Hs.
  destruct (Prim2SF x) as [s|s| |s m e] eqn:E; try (intros _; exact Hx).
  destruct s; [discriminate|].
  destruct (Z.leb_spec 0 e) as [_|He]; [intros _; exact Hx|].
  cbn [cond_Zopp].
  assert (Hn : (0 <= Z.pos m / 2 ^ (- e))%Z).
  { apply Z.div_pos; [lia|]. apply Z.pow_pos_nonneg; lia. }
  destruct (Z.ltb_spec (Z.pos m / 2 ^ (- e)) 0) as [Hlt|_];
    [exfalso; apply (Z.lt_irrefl 0); eapply Z.le_lt_trans; eassumption|].
  apply of_uint63_nonneg.
Qed.

Lemma nonneg_not_nan (x : float) : (0 <=? x) = true -> is_nan x = false.
Proof.
  rewrite nonneg_spec, is_nan_spec. now destruct (Prim2SF x).
Qed.

Lemma double_min_nonneg (x y : float) :
  (0 <=? x) = true -> (0 <=? y) = true -> (0 <=? Math_min x y) = true.
Proof.
  intros Hx Hy. unfold Math_min.
  rewrite (nonneg_not_nan x Hx), (nonneg_not_nan y Hy). cbn [orb].
  destruct (x <? y); [exact Hx|].
  destruct (y <? x); [exact Hy|].
  now destruct (get_sign x).
Qed.

(** [Math.max(x, 0)] is [x > 0 ? x : 0] for every number [x]. *)
Lemma double_max_zero (x : float) :
  is_nan x = false -> Math_max x 0 = if gt x 0 then x else 0.
Proof.
  intro Hx. unfold Math_max, gt. rewrite Hx. cbn [orb is_nan].
  change (is_nan 0) with false. cbn [orb].
  destruct (0 <? x) eqn:E1.
  - now rewrite (ltb_asym _ _ E1).
  - destruct (x <? 0) eqn:E2; [reflexivity|].
    pose proof (zero_of_tie x Hx E2 E1) as Hz.
    rewrite is_zero_spec in Hz.
    destruct (Prim2SF x) as [s|s| |s m e] eqn:E; try discriminate.
    destruct s.
    + assert (Ex : x = neg_zero) by (apply Prim2SF_inj; now rewrite E).
      now rewrite Ex.
    + assert (Ex : x = 0) by (apply Prim2SF_inj; now rewrite E).
      now rewrite Ex.
Qed.


Lemma double_min_number (x y : float) :
  is_nan (Math_min x y) = false -> is_nan x = false /\ is_nan y = false.
Proof.
  unfold Math_min.
  destruct (is_nan x); [discriminate|]. destruct (is_nan y); [discriminate|].
  now split.
Qed.

Lemma double_floor_number (x : float) :
  is_nan (Math_floor x) = false -> is_nan x = false.
Proof.
  intro H. destruct (is_nan x) eqn:E; [|reflexivity].
  now rewrite (double_floor_nan x E) in H.
Qed.

Lemma mul_number_l (x y : float) :
  is_nan (x * y) = false -> is_nan x = false.
Proof.
  intro H. destruct (is_nan x) eqn:E; [|reflexivity].
  now rewrite (mul_nan_l x y E) in H.
Qed.

(** What is granted is not negative when nothing that goes into it is. *)
Lemma double_grant_nonneg (elapsed rate count headroom : float) :
  le 0 elapsed = true -> le 0 rate = true -> le 0 count = true ->
  le 0 headroom = true ->
  is_nan (Math_min (Math_floor (elapsed * rate * count)) headroom) = false ->
  le 0 (Math_min (Math_floor (elapsed * rate * count)) headroom) = true.
Proof.
  unfold le. intros He Hr Hc Hh Hn.
  apply double_min_number in Hn. destruct Hn as [Hf _].
  pose proof (double_floor_number _ Hf) as Hp.
  pose proof (mul_number_l _ _ Hp) as Hp'.
  apply double_min_nonneg; [|exact Hh].
  apply double_floor_nonneg; [|exact Hf].
  apply mul_nonneg; [|exact Hc|exact Hp].
  now apply mul_nonneg.
Qed.

(** What is granted when no time has passed. *)
Lemma grant_after_no_time (rate count headroom : float) :
  is_finite rate = true -> is_finite count = true ->
  is_nan headroom = false ->
  if lt headroom 0
  then Math_min (Math_floor (0 * rate * count)) headroom = headroom
  else is_zero (Math_min (Math_floor (0 * rate * count)) headroom) = true.
Proof.
  intros Hr Hc Hh.
  assert (Hz : is_zero (0 * rate * count) = true).
  { apply mul_zero_l; [|exact Hc]. now apply mul_zero_l. }
  rewrite (double_floor_zero _ Hz).
  exact (double_min_zero_l _ _ Hz Hh).
Qed.

End DoubleFacts.

(** ** gameStore.ts on doubles: offline progress *)

Section Binary64GameStoreFacts.

Import Floats Double Binary64.GameStore.
Local Open Scope float_scope.

(** C6 (amended).  With every operation rounded as the doubles of the code
    round it, [calculateOfflineProgress] adds to each pool
    [Math.min(Math.floor(elapsedMinutes * rate * count), cap - amount)] with
    [elapsedMinutes = (now - lastSavedTime) / 60000] and leaves
    [lastSavedTime] at [now].  A grant that is a number is at most the
    headroom [cap - amount]; it is not negative when the elapsed time, the
    rate, the producing count and the headroom are not negative.  A second
    call with the same [now] (finite, as the rates and counts) sees no time
    elapsed and grants each pool a zero, unless the pool is above its cap:
    then it grants the negative headroom.  In Scenario D of the
    specification the larvae granted are 2, and 0 at a second call. *)
Theorem C6_offline_progress :
  (forall (now : float) (s : State),
     let s' := calculateOfflineProgress now s in
     larvae s'
     = larvae s
       + Math_min
           (Math_floor ((now - lastSavedTime s) / 60000
                        * larvaeProductionRate s * queens s))
           (maxLarvae s - larvae s) /\
     seeds s'
     = seeds s
       + Math_min
           (Math_floor ((now - lastSavedTime s) / 60000
                        * collectionRatePerAnt s * ants s))
           (maxSeeds s - seeds s) /\
     lastSavedTime s' = now) /\
  (forall (now : float) (s : State),
     (is_nan (larvaeProduced now s) = false ->
      le (larvaeProduced now s) (maxLarvae s - larvae s) = true) /\
     (is_nan (seedsCollected now s) = false ->
      le (seedsCollected now s) (maxSeeds s - seeds s) = true)) /\
  (forall (now : float) (s : State),
     le 0 (timeElapsed now s) = true ->
     (le 0 (larvaeProductionRate s) = true -> le 0 (queens s) = true ->
      le 0 (maxLarvae s - larvae s) = true ->
      is_nan (larvaeProduced now s) = false ->
      le 0 (larvaeProduced now s) = true) /\
     (le 0 (collectionRatePerAnt s) = true -> le 0 (ants s) = true ->
      le 0 (maxSeeds s - seeds s) = true ->
      is_nan (seedsCollected now s) = false ->
      le 0 (seedsCollected now s) = true)) /\
  (forall (now : float) (s : State),
     is_finite now = true ->
     let s' := calculateOfflineProgress now s in
     timeElapsed now s' = 0 /\
     (is_finite (larvaeProductionRate s) = true ->
      is_finite (queens s) = true ->
      is_nan (maxLarvae s' - larvae s') = false ->
      if lt (maxLarvae s' - larvae s') 0
      then larvaeProduced now s' = maxLarvae s' - larvae s'
      else is_zero (larvaeProduced now s') = true) /\
     (is_finite (collectionRatePerAnt s) = true ->
      is_finite (ants s) = true ->
      is_nan (maxSeeds s' - seeds s') = false ->
      if lt (maxSeeds s' - seeds s') 0
      then seedsCollected now s' = maxSeeds s' - seeds s'
      else is_zero (seedsCollected now s') = true)) /\
  (larvaeProduced 120000 initialState = 2 /\
   larvaeProduced 120000 (calculateOfflineProgress 120000 initialState) = 0).
Proof.
  split; [intros now s; repeat split|].
  split.
  { intros now s. unfold larvaeProduced, seedsCollected.
    split; intro Hn; apply double_min_number in Hn; destruct Hn as [Hf Hh];
      now apply double_min_le_r. }
  split.
  { intros now s He. unfold larvaeProduced, seedsCollected.
    split; intros Hr Hc Hh Hn; now apply double_grant_nonneg. }
  split; [|split; reflexivity].
  intros now s Hnow. cbv zeta.
  assert (He : timeElapsed now (calculateOfflineProgress now s) = 0).
  { unfold timeElapsed. cbn [calculateOfflineProgress lastSavedTime
                             set_lastSavedTime].
    now rewrite (sub_diag now Hnow). }
  split; [exact He|].
  unfold larvaeProduced, seedsCollected. rewrite He.
  split; intros Hr Hc Hh; now apply grant_after_no_time.
Qed.

(** C6 as stated fails.  A grant can be negative: with [lastSavedTime]
    two minutes after [now] the larvae granted are -2.  The grant is not
    the floor of the exact product: 123 seconds at 60 seeds per minute and
    ant are 123 seeds, and the code grants 122, since its
    [(123000 / 60000) * 60 * 1] is 122.99999999999999.  And a second call
    with the same [now] can grant something else than zero: with three
    storage upgrades, one [queenEfficiency] and 49 ticks of the game loop
    behind it, and then an hour away, the first call leaves 17.28 larvae,
    above the cap of 17.279999999999998 (the sum
    [larvae + (maxLarvae - larvae)] is rounded up), and the second call
    takes the difference away again. *)
Lemma C6_grant_can_be_negative :
  larvaeProduced 0 (set_lastSavedTime 120000 initialState) = -2 /\
  ((123000 / 60000) * 60 * 1 = 122.99999999999999 /\
   seedsCollected 123000 oneAnt = 122) /\
  (let s' := calculateOfflineProgress 3600000 afterUpgrades in
   larvae afterUpgrades = 1.2249999999999996 /\
   maxLarvae s' = 17.279999999999998 /\
   larvae s' = 17.28 /\
   lt (maxLarvae s') (larvae s') = true /\
   larvaeProduced 3600000 s' = -3.552713678800501e-15 /\
   lt (larvaeProduced 3600000 s') 0 = true).
Proof. cbv zeta. repeat split. Qed.

(** X1.  In the doubles of the code a tick of the game loop without
    automatic larvae creation leaves each pool, when it is a number, at
    most at its cap.  [createMaxLarvae], which a tick with automatic larvae
    creation calls, can leave the larvae above the cap: with three storage
    upgrades, one [queenEfficiency] and 49 ticks behind it, and 1700 seeds,
    it rounds [larvae + (maxLarvae - larvae)] up to 17.28, above the cap of
    17.279999999999998. *)
Theorem tick_keeps_pools_within_caps :
  (forall s : State,
     autoLarvaeCreation s = false ->
     let s' := gameLoopTick s in
     maxLarvae s' = maxLarvae s /\ maxSeeds s' = maxSeeds s /\
     (is_nan (larvae s') = false -> le (larvae s') (maxLarvae s') = true) /\
     (is_nan (seeds s') = false -> le (seeds s') (maxSeeds s') = true)) /\
  (let s' := createMaxLarvae (set_seeds 1700 afterUpgrades) in
   larvae afterUpgrades = 1.2249999999999996 /\
   larvae s' = 17.28 /\ maxLarvae s' = 17.279999999999998 /\
   lt (maxLarvae s') (larvae s') = true).
Proof.
  split; [|cbv zeta; repeat split].
  intros s Hauto. cbv zeta. unfold gameLoopTick. cbv zeta.
  cbn [autoLarvaeCreation set_seeds set_larvae]. rewrite Hauto.
  cbn [maxLarvae maxSeeds larvae seeds set_seeds set_larvae].
  split; [reflexivity|]. split; [reflexivity|].
  split; intro Hn; apply double_min_number in Hn; destruct Hn as [Hx Hy];
    now apply double_min_le_r.
Qed.

End Binary64GameStoreFacts.

(** ** prestigeStore.ts on doubles *)

Section Binary64PrestigeStoreFacts.

Import Floats Double Binary64.PrestigeStore Binary64.PrestigeFormula.
Local Open Scope float_scope.
Local Open Scope string_scope.
Local Open Scope list_scope.

Lemma calculatePrestigePointsFor_contribution
      (currentResources baseThreshold prestigeCount : float)
      (scaling : bool) :
  is_nan (scaledPoints currentResources baseThreshold prestigeCount scaling)
    = false \/ scaling = false ->
  calculatePrestigePointsFor currentResources baseThreshold prestigeCount
                             scaling
  = contribution currentResources baseThreshold prestigeCount scaling.
Proof.
  intro H.
  unfold calculatePrestigePointsFor, contribution, scaledPoints,
         scalingFactor in *.
  cbv zeta in *.
  destruct (lt currentResources _); [reflexivity|].
  destruct H as [H | ->].
  - destruct (le prestigeCount 5 || negb scaling); [reflexivity|].
    now rewrite double_max_zero.
  - cbn [negb]. now rewrite orb_true_r.
Qed.

(** C7.  With every operation rounded as the doubles of the code round it,
    [calculatePrestigePoints] is the sum of the contribution of the ants,
    with [baseAntThreshold] and scaling, and of the contribution of the
    queens, with [baseQueenThreshold] and no scaling, where a contribution
    is as the specification words it, whenever the value that its last case
    holds at 0 is a number; the two thresholds are 50 and 2 in the store;
    and with no prestige yet, 60 ants give 2.  The rounding shows at 110
    ants after six prestiges: the threshold [50 * (1 + 6 * 0.2)] is
    110.00000000000001, so they give 0. *)
Theorem C7_calculatePrestigePoints_formula :
  (forall p : Store,
     is_nan (scaledPoints (ants p) (baseAntThreshold p) (timesPrestiged p)
                          true) = false ->
     calculatePrestigePoints p
     = contribution (ants p) (baseAntThreshold p) (timesPrestiged p) true
       + contribution (queens p) (baseQueenThreshold p) (timesPrestiged p)
                      false) /\
  (forall ants queens,
     baseAntThreshold (initialStore ants queens) = 50 /\
     baseQueenThreshold (initialStore ants queens) = 2) /\
  calculatePrestigePointsFor 60 50 0 true = 2 /\
  50 * (1 + 6 * 0.2) = 110.00000000000001 /\
  calculatePrestigePointsFor 110 50 6 true = 0 /\
  contribution 110 50 6 true = 0.
Proof.
  split; [|repeat split].
  intros p Hn. unfold calculatePrestigePoints.
  rewrite !calculatePrestigePointsFor_contribution; auto.
Qed.

(** *** buyMaxUpgrade on doubles *)




End Binary64PrestigeStoreFacts.
